(** * Deployment engine of vscode-ibmi: a shallow embedding

    The development follows [Deployment] (the namespace of the deployment
    source file): the change tracker fed by the file-system watcher
    ([buildWatcher]), the five deployment strategies ([deployChanged],
    [deployGit], [deployCompare], [deployAll]) and the orchestrator
    ([deploy]), together with the construction of the ignore rules in
    [launchDeploy].

    Conventions.
    - A JavaScript string is a [string]; a character stands for the code
      unit of the same number (U+0000 to U+00FF).
    - A JavaScript [Map] is an insertion-ordered association list
      ([JSMap]), because [Array.from(changes.values())] observes the order.
    - Asynchronous code is run to completion in a writer/exception monad
      [M]: the trace lists every call made to a collaborator (remote
      session, output channel, notifications), the outcome is a value or a
      thrown error.
    - Collaborators that live outside the repository (the remote session,
      node's [path] module, the [ignore] package, the git extension, the
      workspace API) are fields of the record [Env]. *)

From Stdlib Require Import String Ascii List Bool Arith NArith Lia.
From Stdlib Require Import DecimalString.
Import ListNotations.
Open Scope list_scope.
Open Scope string_scope.

Set Implicit Arguments.

(* ------------------------------------------------------------------ *)
(** ** JavaScript strings *)

Module JSString.

(** [s.startsWith(p)] *)
Definition startsWith (s p : string) : bool := String.prefix p s.

(** [s.includes(sub)] *)
Fixpoint includes (s sub : string) : bool :=
  if String.prefix sub s then true
  else match s with
       | EmptyString => false
       | String _ s' => includes s' sub
       end.

(** [s.substring(n)] *)
Fixpoint substring_from (n : nat) (s : string) : string :=
  match n, s with
  | O, _ => s
  | S _, EmptyString => EmptyString
  | S n', String _ s' => substring_from n' s'
  end.

(** [s.replace(pat, '')] with a string pattern: the first occurrence of
    [pat] is removed. *)
Fixpoint remove_first (pat s : string) : string :=
  if String.prefix pat s then substring_from (String.length pat) s
  else match s with
       | EmptyString => EmptyString
       | String c s' => String c (remove_first pat s')
       end.

(** [s.replace(/c/g, r)] for a one-character pattern. *)
Fixpoint replace_all_char (c : ascii) (r : string) (s : string) : string :=
  match s with
  | EmptyString => EmptyString
  | String d s' =>
      if Ascii.eqb c d then r ++ replace_all_char c r s'
      else String d (replace_all_char c r s')
  end.

Definition backslash : ascii := "\"%char.
Definition CR : ascii := Ascii.ascii_of_nat 13.
Definition LF : ascii := Ascii.ascii_of_nat 10.

(** [s.replace(/\\/g, '/')] *)
Definition backslashes_to_slashes (s : string) : string :=
  replace_all_char backslash "/" s.

(** The pieces of [s] between the characters that satisfy [is_sep]. *)
Fixpoint split_by (is_sep : ascii -> bool) (s : string) : list string :=
  match s with
  | EmptyString => [EmptyString]
  | String c s' =>
      if is_sep c then EmptyString :: split_by is_sep s'
      else match split_by is_sep s' with
           | [] => [String c EmptyString]
           | t :: ts => String c t :: ts
           end
  end.

(** [s.split(sep)] for a one-character separator. *)
Definition split_char (sep : ascii) (s : string) : list string :=
  split_by (Ascii.eqb sep) s.

(** The characters matched by [\s] and removed by [trim()], among the
    code units below 256: TAB, LF, VT, FF, CR, space and U+00A0. *)
Definition is_space (c : ascii) : bool :=
  let n := Ascii.nat_of_ascii c in
  (((9 <=? n) && (n <=? 13)) || (n =? 32) || (n =? 160))%nat.

Fixpoint trimStart (s : string) : string :=
  match s with
  | EmptyString => EmptyString
  | String c s' => if is_space c then trimStart s' else s
  end.

Fixpoint trimEnd (s : string) : string :=
  match s with
  | EmptyString => EmptyString
  | String c s' =>
      match trimEnd s' with
      | EmptyString => if is_space c then EmptyString else String c EmptyString
      | t => String c t
      end
  end.

(** [s.trim()] *)
Definition trim (s : string) : string := trimEnd (trimStart s).

(** [s.split(/\s+/)]: the pieces between maximal runs of white space;
    [skipping] holds while a run is being consumed. *)
Fixpoint split_spaces_from (skipping : bool) (s : string) : list string :=
  match s with
  | EmptyString => [EmptyString]
  | String c s' =>
      if is_space c then
        if skipping then split_spaces_from true s'
        else EmptyString :: split_spaces_from true s'
      else match split_spaces_from false s' with
           | [] => [String c EmptyString]
           | t :: ts => String c t :: ts
           end
  end.

Definition split_spaces (s : string) : list string :=
  split_spaces_from false s.

(** [xs.join(sep)] *)
Fixpoint join (sep : string) (xs : list string) : string :=
  match xs with
  | [] => EmptyString
  | [x] => x
  | x :: rest => x ++ sep ++ join sep rest
  end.

(** [String(n)] for a non-negative integer. *)
Definition of_nat (n : nat) : string :=
  NilZero.string_of_uint (Nat.to_uint n).

(** [xs.includes(x)] on an array of strings. *)
Definition array_includes (xs : list string) (x : string) : bool :=
  existsb (String.eqb x) xs.

(** A string is truthy when it is not empty. *)
Definition truthy (s : string) : bool :=
  match s with EmptyString => false | _ => true end.

(** [s.toLowerCase()] on code units below 256. *)
Definition lower_char (c : ascii) : ascii :=
  let n := Ascii.nat_of_ascii c in
  if (((65 <=? n) && (n <=? 90))
      || ((192 <=? n) && (n <=? 222) && negb (n =? 215)))%nat
  then Ascii.ascii_of_nat (n + 32) else c.

Fixpoint toLowerCase (s : string) : string :=
  match s with
  | EmptyString => EmptyString
  | String c s' => String (lower_char c) (toLowerCase s')
  end.

(** The one-character string made of a double quote. *)
Definition dquote : string := String (Ascii.ascii_of_nat 34) EmptyString.

(** [[...new Set(xs)]]: first occurrences, in order. *)
Fixpoint dedup (xs : list string) : list string :=
  match xs with
  | [] => []
  | x :: rest => x :: filter (fun y => negb (String.eqb x y)) (dedup rest)
  end.

End JSString.

Import JSString.

(* ------------------------------------------------------------------ *)
(** ** JavaScript [Map] *)

Module JSMap.
Section JSMap.
Context {K V : Type}.
Variable eqb : K -> K -> bool.

Definition t := list (K * V).

Definition empty : t := [].

(** [m.get(k)] *)
Fixpoint get (k : K) (m : t) : option V :=
  match m with
  | [] => None
  | (k', v) :: m' => if eqb k k' then Some v else get k m'
  end.

(** [m.set(k, v)]: an existing key keeps its position, a new key goes
    last. *)
Fixpoint set (k : K) (v : V) (m : t) : t :=
  match m with
  | [] => [(k, v)]
  | (k', v') :: m' =>
      if eqb k k' then (k, v) :: m' else (k', v') :: set k v m'
  end.

(** [m.delete(k)] *)
Definition delete (k : K) (m : t) : t :=
  filter (fun kv => negb (eqb k (fst kv))) m.

(** [m.clear()] *)
Definition clear (m : t) : t := [].

(** [m.size] *)
Definition size (m : t) : nat := List.length m.

(** [Array.from(m.values())] *)
Definition values (m : t) : list V := List.map snd m.

Definition keys (m : t) : list K := List.map fst m.

(** [m.get(k)?.f()] for a mutating method [f] of the value stored at
    [k]: the stored object is updated in place. *)
Definition update (k : K) (f : V -> V) (m : t) : t :=
  List.map (fun kv => if eqb k (fst kv) then (fst kv, f (snd kv)) else kv) m.

End JSMap.
Arguments t : clear implicits.
Arguments empty : clear implicits.
End JSMap.

(* ------------------------------------------------------------------ *)
(** ** Data model *)

(** [vscode.Uri], with the components the deployment code reads. *)
Record Uri := mkUri {
  scheme : string;
  path : string;
  fsPath : string
}.

Definition Uri_eqb (a b : Uri) : bool :=
  String.eqb (scheme a) (scheme b)
  && String.eqb (path a) (path b)
  && String.eqb (fsPath a) (fsPath b).

(** [vscode.WorkspaceFolder].  The registry is keyed by the folder object;
    two folders are the same key when all their components agree. *)
Record WorkspaceFolder := mkWorkspaceFolder {
  wf_uri : Uri;
  wf_name : string;
  wf_index : nat
}.

Definition WorkspaceFolder_eqb (a b : WorkspaceFolder) : bool :=
  Uri_eqb (wf_uri a) (wf_uri b)
  && String.eqb (wf_name a) (wf_name b)
  && Nat.eqb (wf_index a) (wf_index b).

(** [interface Upload] and the [{ local, remote }] pairs that [putFiles]
    consumes. *)
Record Upload := mkUpload {
  up_local : string;
  up_remote : string;
  up_uri : Uri
}.

Record Transfer := mkTransfer {
  local : string;
  remote : string
}.

Definition Upload_transfer (u : Upload) : Transfer :=
  {| local := up_local u; remote := up_remote u |}.

(** [interface MD5Entry] *)
Record MD5Entry := mkMD5Entry {
  md5_path : string;
  md5 : string
}.

(** The [ignore] instance built by [launchDeploy]: its options and the
    patterns handed to [add], in order. *)
Record IgnoreRuleSet := mkIgnore {
  ignorecase : bool;
  rules : list string
}.

Definition ignore (ignorecase : bool) : IgnoreRuleSet :=
  {| ignorecase := ignorecase; rules := [] |}.

Definition add (pattern : string) (ig : IgnoreRuleSet) : IgnoreRuleSet :=
  {| ignorecase := ignorecase ig; rules := rules ig ++ [pattern] |}.

Definition add_all (patterns : list string) (ig : IgnoreRuleSet) : IgnoreRuleSet :=
  {| ignorecase := ignorecase ig; rules := rules ig ++ patterns |}.

Inductive DeploymentMethod :=
| method_all
| method_compare
| method_changed
| method_unstaged
| method_staged.

(** [DeploymentParameters]; [ignoreRules] is optional in the source. *)
Record DeploymentParameters := mkParameters {
  method : DeploymentMethod;
  workspaceFolder : WorkspaceFolder;
  remotePath : string;
  ignoreRules : option IgnoreRuleSet
}.

(** A thrown [Error] object: its [name] and its [message]. *)
Record JSError := mkError {
  err_name : string;
  err_message : string
}.

Definition Error (message : string) : JSError :=
  {| err_name := "Error"; err_message := message |}.

Definition TypeError (message : string) : JSError :=
  {| err_name := "TypeError"; err_message := message |}.

(** [`${error}`], that is [Error.prototype.toString]: the message alone
    without a name, the name alone without a message, and [name: message]
    otherwise. *)
Definition JSError_toString (e : JSError) : string :=
  match err_name e, err_message e with
  | EmptyString, message => message
  | name, EmptyString => name
  | name, message => name ++ ": " ++ message
  end.

Inductive Outcome (A : Type) :=
| Returned (a : A)
| Thrown (e : JSError).
Arguments Returned {A} a.
Arguments Thrown {A} e.

(** The git extension's API: a change carries the numeric [Status] of
    [git.d.ts]; the source compares it with the literal [6], which is
    [Status.DELETED] there. *)
Record Change := mkChange {
  change_uri : Uri;
  status : N
}.

Definition Status_DELETED : N := 6.

Record Repository := mkRepository {
  rootUri : Uri;
  indexChanges : list Change;
  workingTreeChanges : list Change
}.

Record GitAPI := mkGitAPI {
  repositories : list Repository
}.

(** [vscode.FileType] is a bit mask. *)
Definition FileType_Unknown : N := 0.
Definition FileType_File : N := 1.
Definition FileType_Directory : N := 2.
Definition FileType_SymbolicLink : N := 64.

Record CommandResult := mkCommandResult {
  code : option nat;
  stdout : string;
  stderr : string
}.

(** One call of the [tick] callback of [putDirectory]. *)
Record TickCall := mkTick {
  tick_localPath : string;
  tick_remotePath : string;
  tick_error : option JSError
}.

(** [NodeSSH]: the transfer primitives.  [putDirectory] receives the
    [validate] predicate, calls [tick] once per transferred file and then
    settles. *)
Record Client := mkClient {
  putFiles : list Transfer -> Outcome unit;
  putDirectory :
    string -> string -> (string -> bool) -> list TickCall * Outcome bool
}.

(** [IBMi]: the remote session. *)
Record Connection := mkConnection {
  remoteFeatures_md5sum : bool;
  client : option Client;
  sendCommand : option string -> string -> Outcome CommandResult
}.

(** The collaborators of the deployment code. *)
Record Env := mkEnv {
  (** [instance.getConnection()] *)
  instance_getConnection : option Connection;
  (** [Tools.getGitAPI()] *)
  Tools_getGitAPI : option GitAPI;
  (** [vscode.workspace.getWorkspaceFolder(uri)] *)
  workspace_getWorkspaceFolder : Uri -> option WorkspaceFolder;
  (** [vscode.workspace.findFiles(new RelativePattern(base, include),
      exclude, maxResults)] *)
  workspace_findFiles :
    string -> string -> option string -> option nat -> list Uri;
  (** [vscode.workspace.fs.readFile(uri).toString()] *)
  workspace_fs_readFile : Uri -> string;
  (** [readFileSync(path)] *)
  readFileSync : string -> string;
  (** [Crypto.createHash("md5").update(bytes).digest("hex")] *)
  Crypto_md5_hex : string -> string;
  (** node's [path.relative], [path.basename], [path.dirname] and
      [path.posix.join] *)
  path_relative : string -> string -> string;
  path_basename : string -> string;
  path_dirname : string -> string;
  path_posix_join : string -> string -> string;
  (** [rules.ignores(relative)] of the [ignore] package *)
  ignores : IgnoreRuleSet -> string -> bool
}.

(* ------------------------------------------------------------------ *)
(** ** Traces and the monad of a deployment run *)

Inductive Op :=
| op_sendCommand (directory : option string) (command : string)
| op_putFiles (files : list Transfer) (concurrency : nat)
| op_putDirectory (localDirectory remoteDirectory : string)
    (recursive : bool) (concurrency : nat)
| op_deploymentLog_clear
| op_deploymentLog_appendLine (line : string)
| op_showInformationMessage (message : string)
| op_showWarningMessage (message : string)
| op_showErrorMessage (message : string) (item : string)
| op_withProgress (title : string)
| op_progress_report (message : option string) (increment : option nat)
| op_button_text (text : string).

Definition M (A : Type) : Type := (list Op * Outcome A)%type.

Definition ret {A} (a : A) : M A := ([], Returned a).

Definition throw {A} (e : JSError) : M A := ([], Thrown e).

Definition emit (o : Op) : M unit := ([o], Returned tt).

Definition settle {A} (r : Outcome A) : M A := ([], r).

Definition bind {A B} (m : M A) (k : A -> M B) : M B :=
  match m with
  | (t, Returned a) => let (t', r) := k a in ((t ++ t')%list, r)
  | (t, Thrown e) => (t, Thrown e)
  end.

(** [try { m } catch (e) { h e }] *)
Definition try_catch {A} (m : M A) (h : JSError -> M A) : M A :=
  match m with
  | (t, Thrown e) => let (t', r) := h e in ((t ++ t')%list, r)
  | ok => ok
  end.

Declare Scope deploy_scope.
Delimit Scope deploy_scope with deploy.
Notation "x <- m ;; k" := (bind m (fun x => k))
  (at level 61, m at next level, right associativity) : deploy_scope.
Notation "m ;; k" := (bind m (fun _ => k))
  (at level 61, right associativity) : deploy_scope.
Open Scope deploy_scope.

Fixpoint mapM {A B} (f : A -> M B) (xs : list A) : M (list B) :=
  match xs with
  | [] => ret []
  | x :: rest => y <- f x ;; ys <- mapM f rest ;; ret (y :: ys)
  end.

Definition trace {A} (m : M A) : list Op := fst m.
Definition outcome {A} (m : M A) : Outcome A := snd m.

(** The calls that reach the remote host. *)
Definition is_remote_command (o : Op) : bool :=
  match o with op_sendCommand _ _ => true | _ => false end.

Definition is_transfer (o : Op) : bool :=
  match o with
  | op_putFiles _ _ | op_putDirectory _ _ _ _ => true
  | _ => false
  end.

(* ------------------------------------------------------------------ *)
(** ** The change tracker ([workspaceChanges] and [buildWatcher]) *)

(** [Map<string, vscode.Uri>] and
    [Map<vscode.WorkspaceFolder, Map<string, vscode.Uri>>] *)
Definition Changes : Type := JSMap.t string Uri.
Definition WorkspaceChanges : Type := JSMap.t WorkspaceFolder Changes.

Definition changes_get (fsPath : string) (c : Changes) : option Uri :=
  JSMap.get String.eqb fsPath c.

Definition workspaceChanges_get (wf : WorkspaceFolder) (wc : WorkspaceChanges)
  : option Changes :=
  JSMap.get WorkspaceFolder_eqb wf wc.

(** What the file-system watcher delivers.  A creation is delivered
    together with the result of the [stat] that its handler awaits
    ([None] when the [stat] is rejected); the event takes effect when the
    handler resumes. *)
Inductive WatchEvent :=
| DidChange (uri : Uri)
| DidCreate (uri : Uri) (fileStat_type : option N)
| DidDelete (uri : Uri).

Definition event_uri (ev : WatchEvent) : Uri :=
  match ev with
  | DidChange uri | DidCreate uri _ | DidDelete uri => uri
  end.

Definition invalidFs : list string := ["member"; "streamfile"].

(** The guard of [getChangesMap]. *)
Definition trackable (uri : Uri) : bool :=
  negb (array_includes invalidFs (scheme uri))
  && negb (includes (fsPath uri) ".git").

(** The components of a local path, on either platform. *)
Definition path_components (fsPath : string) : list string :=
  split_by (fun c => Ascii.eqb c "/" || Ascii.eqb c backslash) fsPath.

(** The path lies in (or is) the VCS metadata directory [.git]. *)
Definition under_vcs_directory (fsPath : string) : bool :=
  existsb (String.eqb ".git") (path_components fsPath).

(** The event is one that the handlers record when its resource is
    trackable: a change, or a creation whose [stat] reports a regular
    file. *)
Definition records (ev : WatchEvent) : bool :=
  match ev with
  | DidChange _ => true
  | DidCreate _ (Some type) => N.eqb type FileType_File
  | DidCreate _ None => false
  | DidDelete _ => false
  end.

(** [getChangesMap]: the folder whose map is returned (the map itself
    lives in the registry, where it is created on demand), or [None] for
    [undefined]. *)
Definition getChangesMap (env : Env) (uri : Uri) (wc : WorkspaceChanges)
  : option WorkspaceFolder * WorkspaceChanges :=
  if trackable uri then
    match workspace_getWorkspaceFolder env uri with
    | Some workspaceFolder =>
        match workspaceChanges_get workspaceFolder wc with
        | Some _ => (Some workspaceFolder, wc)
        | None =>
            (Some workspaceFolder,
             JSMap.set WorkspaceFolder_eqb workspaceFolder (JSMap.empty string Uri) wc)
        end
    | None => (None, wc)
    end
  else (None, wc).

(** [getChangesMap(uri)?.f(...)] *)
Definition with_changes (env : Env) (uri : Uri) (f : Changes -> Changes)
    (wc : WorkspaceChanges) : WorkspaceChanges :=
  match getChangesMap env uri wc with
  | (Some workspaceFolder, wc') =>
      JSMap.update WorkspaceFolder_eqb workspaceFolder f wc'
  | (None, wc') => wc'
  end.

Definition onDidChange (env : Env) (uri : Uri) : WorkspaceChanges -> WorkspaceChanges :=
  with_changes env uri (JSMap.set String.eqb (fsPath uri) uri).

Definition onDidCreate (env : Env) (uri : Uri) (fileStat_type : option N)
    (wc : WorkspaceChanges) : WorkspaceChanges :=
  match fileStat_type with
  | Some type =>
      if N.eqb type FileType_File
      then with_changes env uri (JSMap.set String.eqb (fsPath uri) uri) wc
      else wc
  | None => wc
  end.

Definition onDidDelete (env : Env) (uri : Uri) : WorkspaceChanges -> WorkspaceChanges :=
  with_changes env uri (JSMap.delete String.eqb (fsPath uri)).

Definition watch (env : Env) (wc : WorkspaceChanges) (ev : WatchEvent)
  : WorkspaceChanges :=
  match ev with
  | DidChange uri => onDidChange env uri wc
  | DidCreate uri t => onDidCreate env uri t wc
  | DidDelete uri => onDidDelete env uri wc
  end.

Definition watch_all (env : Env) (evs : list WatchEvent) (wc : WorkspaceChanges)
  : WorkspaceChanges :=
  fold_left (watch env) evs wc.

(** The pending paths of a workspace. *)
Definition pending (wf : WorkspaceFolder) (wc : WorkspaceChanges) : list string :=
  match workspaceChanges_get wf wc with
  | Some changes => JSMap.keys changes
  | None => []
  end.

(** [fsPath] is recorded in some workspace's map. *)
Definition recorded (fsPath : string) (uri : Uri) (wc : WorkspaceChanges) : Prop :=
  exists wf changes, In (wf, changes) wc /\ In (fsPath, uri) changes.

(* ------------------------------------------------------------------ *)
(** ** Helpers of the strategies *)

Definition getConnection (env : Env) : M Connection :=
  match instance_getConnection env with
  | Some connection => ret connection
  | None => throw (Error "Please connect to an IBM i")
  end.

Definition getClient (env : Env) : M Client :=
  connection <- getConnection env ;;
  match client connection with
  | Some c => ret c
  | None => throw (Error "Please connect to an IBM i")
  end.

(** [getConnection().sendCommand({ directory, command })] *)
Definition do_sendCommand (env : Env) (directory : option string)
    (command : string) : M CommandResult :=
  connection <- getConnection env ;;
  emit (op_sendCommand directory command) ;;
  settle (sendCommand connection directory command).

(** [getClient().putFiles(files, { concurrency: 5 })] *)
Definition do_putFiles (env : Env) (files : list Transfer) : M unit :=
  c <- getClient env ;;
  emit (op_putFiles files 5) ;;
  settle (putFiles c files).

Definition createRemoteDirectory (env : Env) (remotePath : string)
  : M CommandResult :=
  do_sendCommand env None ("mkdir -p " ++ dquote ++ remotePath ++ dquote).

Definition toRelative (env : Env) (root file : Uri) : string :=
  backslashes_to_slashes (path_relative env (path root) (path file)).

Definition md5Hash (env : Env) (file : Uri) : string :=
  toLowerCase (Crypto_md5_hex env (readFileSync env (fsPath file))).

(** [toMD5Entry]: [parts[1]] is [undefined] when the line has a single
    field, and [undefined.trim()] throws. *)
Definition toMD5Entry (line : string) : M MD5Entry :=
  match split_spaces line with
  | p0 :: p1 :: _ =>
      ret {| md5 := trim p0; md5_path := substring_from 2 (trim p1) |}
  | _ =>
      throw (TypeError "Cannot read properties of undefined (reading 'trim')")
  end.

(** [findFiles] of the deployment namespace. *)
Definition findFiles (env : Env) (parameters : DeploymentParameters)
    (includePattern : string) (excludePattern : option string) : list Uri :=
  let root := fsPath (wf_uri (workspaceFolder parameters)) in
  filter
    (fun file =>
       match ignoreRules parameters with
       | Some rules =>
           let relative := toRelative env (wf_uri (workspaceFolder parameters)) file in
           negb (ignores env rules relative)
       | None => true
       end)
    (workspace_findFiles env root includePattern excludePattern None).

(** The upload built by [deployChanged] and [deployGit] for one file. *)
Definition to_upload (env : Env) (parameters : DeploymentParameters) (uri : Uri)
  : M Upload :=
  let relative := toRelative env (wf_uri (workspaceFolder parameters)) uri in
  let remote := path_posix_join env (remotePath parameters) relative in
  emit (op_deploymentLog_appendLine
          ("UPLOADING: " ++ fsPath uri ++ " -> " ++ remote)) ;;
  ret {| up_local := fsPath uri; up_remote := remote; up_uri := uri |}.

(* ------------------------------------------------------------------ *)
(** ** Strategy "changed" *)

(** The filter of [deployChanged]. *)
Definition changed_filter (env : Env) (parameters : DeploymentParameters)
    (uri : Uri) : bool :=
  let relative := toRelative env (wf_uri (workspaceFolder parameters)) uri in
  match (if truthy relative then ignoreRules parameters else None) with
  | Some rules => negb (ignores env rules relative)
  | None =>
      let basename := path_basename env (path uri) in
      negb (includes basename ".")
  end.

(** [Array.from(changes.values()).filter(...)]: the copy of the pending
    entries that the strategy works on. *)
Definition changedFiles (env : Env) (parameters : DeploymentParameters)
    (changes : Changes) : list Uri :=
  filter (changed_filter env parameters) (JSMap.values changes).

Definition deployChanged (env : Env) (parameters : DeploymentParameters)
    (wc : WorkspaceChanges) : M unit :=
  match workspaceChanges_get (workspaceFolder parameters) wc with
  | Some changes =>
      if (0 <? JSMap.size changes)%nat then
        uploads <- mapM (to_upload env parameters)
                        (changedFiles env parameters changes) ;;
        do_putFiles env (List.map Upload_transfer uploads)
      else ret tt
  | None => ret tt
  end.

(* ------------------------------------------------------------------ *)
(** ** Strategies "staged" and "unstaged" *)

Inductive ChangeType := staged | working.

Definition ChangeType_toString (c : ChangeType) : string :=
  match c with staged => "staged" | working => "working" end.

(** [gitFiles.filter(change => change.status !== 6)] *)
Definition not_deleted (change : Change) : bool :=
  negb (N.eqb (status change) 6).

Definition gitFiles (repository : Repository) (changeType : ChangeType)
  : list Change :=
  let useStagedChanges :=
    match changeType with staged => true | working => false end in
  filter not_deleted
    (if useStagedChanges then indexChanges repository
     else workingTreeChanges repository).

Definition deployGit (env : Env) (parameters : DeploymentParameters)
    (changeType : ChangeType) : M unit :=
  let root := fsPath (wf_uri (workspaceFolder parameters)) in
  match Tools_getGitAPI env with
  | Some gitApi =>
      if (0 <? List.length (repositories gitApi))%nat then
        match find (fun r => String.eqb (fsPath (rootUri r)) root)
                   (repositories gitApi) with
        | Some repository =>
            let gitFiles := gitFiles repository changeType in
            if (0 <? List.length gitFiles)%nat then
              uploads <- mapM (fun change => to_upload env parameters (change_uri change))
                              gitFiles ;;
              emit (op_showInformationMessage
                      ("Deploying " ++ ChangeType_toString changeType
                       ++ " changes (" ++ of_nat (List.length uploads)
                       ++ ") to " ++ remotePath parameters)) ;;
              if startsWith (remotePath parameters) "/" then
                do_putFiles env (List.map Upload_transfer uploads)
              else throw (Error "Unable to determine where to upload workspace.")
            else
              emit (op_showWarningMessage
                      ("No " ++ ChangeType_toString changeType
                       ++ " changes to deploy."))
        | None => throw (Error ("No repository found for " ++ root))
        end
      else throw (Error "No repositories are open.")
  | None => throw (Error "No repositories are open.")
  end.

(* ------------------------------------------------------------------ *)
(** ** Strategy "all" *)

(** The [validate] option handed to [putDirectory]. *)
Definition deployAll_validate (env : Env) (parameters : DeploymentParameters)
    (localPath : string) : bool :=
  let relative :=
    path_relative env (fsPath (wf_uri (workspaceFolder parameters))) localPath in
  match (if truthy relative then ignoreRules parameters else None) with
  | Some rules => negb (ignores env rules relative)
  | None => true
  end.

(** The [tick] option handed to [putDirectory]. *)
Definition deployAll_tick (t : TickCall) : M unit :=
  let remotePath :=
    if startsWith (tick_remotePath t) (String backslash EmptyString)
    then backslashes_to_slashes (tick_remotePath t)
    else tick_remotePath t in
  match tick_error t with
  | Some error =>
      emit (op_progress_report
              (Some ("Failed to deploy " ++ tick_localPath t)) None) ;;
      emit (op_deploymentLog_appendLine
              ("FAILED: " ++ tick_localPath t ++ " -> " ++ remotePath
               ++ ": " ++ err_message error))
  | None =>
      emit (op_progress_report
              (Some ("Deployed " ++ tick_localPath t)) None) ;;
      emit (op_deploymentLog_appendLine
              ("SUCCESS: " ++ tick_localPath t ++ " -> " ++ remotePath))
  end.

Definition deployAll (env : Env) (parameters : DeploymentParameters) : M unit :=
  let name := path_basename env (path (wf_uri (workspaceFolder parameters))) in
  emit (op_withProgress ("Deploying " ++ name)) ;;
  emit (op_progress_report (Some ("Deploying " ++ name)) None) ;;
  if startsWith (remotePath parameters) "/" then
    try_catch
      (c <- getClient env ;;
       emit (op_putDirectory (fsPath (wf_uri (workspaceFolder parameters)))
                             (remotePath parameters) true 5) ;;
       let (ticks, settled) :=
         putDirectory c (fsPath (wf_uri (workspaceFolder parameters)))
                      (remotePath parameters)
                      (deployAll_validate env parameters) in
       mapM deployAll_tick ticks ;;
       settle settled ;;
       emit (op_progress_report (Some "Deployment finished.") None))
      (fun e =>
         emit (op_progress_report (Some "Deployment failed.") None) ;;
         throw e)
  else
    emit (op_deploymentLog_appendLine
            "Deployment cancelled. Not sure where to deploy workspace.") ;;
    throw (Error "Invalid deployment path").

(* ------------------------------------------------------------------ *)
(** ** Strategy "compare" *)

(** An element of [localFiles]. *)
Record LocalFile := mkLocalFile {
  lf_uri : Uri;
  lf_path : string
}.

Definition localRoot (parameters : DeploymentParameters) : string :=
  let root := fsPath (wf_uri (workspaceFolder parameters)) in
  root ++ (if startsWith root "/" then "/" else String backslash EmptyString).

Definition localFiles (env : Env) (parameters : DeploymentParameters)
  : list LocalFile :=
  List.map
    (fun file =>
       {| lf_uri := file;
          lf_path :=
            backslashes_to_slashes
              (remove_first (localRoot parameters) (fsPath file)) |})
    (findFiles env parameters "**/*" (Some "**/.git*")).

(** [remoteMD5.find(e => e.path === file.path)] *)
Definition find_remote (remoteMD5 : list MD5Entry) (file : LocalFile)
  : option MD5Entry :=
  find (fun e => String.eqb (md5_path e) (lf_path file)) remoteMD5.

(** One turn of the loop over [localFiles]. *)
Definition compare_step (env : Env) (parameters : DeploymentParameters)
    (remoteMD5 : list MD5Entry) (uploads : list Transfer) (file : LocalFile)
  : list Transfer :=
  let local_md5 := md5Hash env (lf_uri file) in
  let differs :=
    match find_remote remoteMD5 file with
    | None => true
    | Some remote => negb (String.eqb (md5 remote) local_md5)
    end in
  if differs then
    (uploads ++ [ {| local := fsPath (lf_uri file);
                     remote := remotePath parameters ++ "/" ++ lf_path file |} ])%list
  else uploads.

Definition compare_uploads (env : Env) (parameters : DeploymentParameters)
    (localFiles : list LocalFile) (remoteMD5 : list MD5Entry) : list Transfer :=
  fold_left (compare_step env parameters remoteMD5) localFiles [].

Definition compare_toDelete (localFiles : list LocalFile)
    (remoteMD5 : list MD5Entry) : list string :=
  List.map md5_path
    (filter
       (fun remote =>
          negb (existsb (fun local => String.eqb (md5_path remote) (lf_path local))
                        localFiles))
       remoteMD5).

(** The plan computed by the synchronisation. *)
Record UploadPlan := mkPlan {
  plan_uploads : list Transfer;
  plan_deletions : list string
}.

Definition compare_plan (env : Env) (parameters : DeploymentParameters)
    (localFiles : list LocalFile) (remoteMD5 : list MD5Entry) : UploadPlan :=
  {| plan_uploads := compare_uploads env parameters localFiles remoteMD5;
     plan_deletions := compare_toDelete localFiles remoteMD5 |}.

Definition md5sum_command : string :=
  "/QOpenSys/pkgs/bin/md5sum $(find . -type f)".

(** [md5sumOut.stdout.split(`\n`).map(line => toMD5Entry(line.trim()))] *)
Definition parse_remoteMD5 (stdout : string) : M (list MD5Entry) :=
  mapM (fun line => toMD5Entry (trim line)) (split_char LF stdout).

Definition mkdirs_command (env : Env) (uploads : list Transfer) : string :=
  join ";"
    (List.map (fun folder => "[ -d " ++ folder ++ " ] || mkdir -p " ++ folder)
       (dedup (List.map (fun u => path_dirname env (remote u)) uploads))).

(** [`\n${title}\n\t${lines.join('\n\t')}\n`], the shape of the two
    listings written to the log. *)
Definition listing (title : string) (lines : list string) : string :=
  let TAB := Ascii.ascii_of_nat 9 in
  String LF title
  ++ String LF (String TAB (join (String LF (String TAB EmptyString)) lines))
  ++ String LF EmptyString.

(** The deletion step: one [rm -f] for all the paths of [toDelete]. *)
Definition synchronize_delete (env : Env) (parameters : DeploymentParameters)
    (toDelete : list string) : M unit :=
  if (0 <? List.length toDelete)%nat then
    emit (op_progress_report
            (Some ("deleting " ++ of_nat (List.length toDelete)
                   ++ " remote file(s)")) (Some 25)) ;;
    emit (op_deploymentLog_appendLine (listing "Deleted:" toDelete)) ;;
    do_sendCommand env (Some (remotePath parameters))
                   ("rm -f " ++ join " " toDelete) ;;
    ret tt
  else emit (op_progress_report None (Some 25)).

(** The upload step: the missing folders are created by one command, then
    the files are transferred. *)
Definition synchronize_upload (env : Env) (uploads : list Transfer) : M unit :=
  if (0 <? List.length uploads)%nat then
    emit (op_progress_report (Some "creating remote folders") (Some 10)) ;;
    do_sendCommand env None (mkdirs_command env uploads) ;;
    emit (op_progress_report
            (Some ("uploading " ++ of_nat (List.length uploads) ++ " file(s)"))
            (Some 15)) ;;
    emit (op_deploymentLog_appendLine
            (listing "Uploaded:" (List.map remote uploads))) ;;
    do_putFiles env uploads
  else emit (op_progress_report None (Some 25)).

Definition rmdir_command : string :=
  "find . -depth -type d -exec rmdir {} + 2>/dev/null".

(** The branch of [deployCompare] taken for a remote directory that is
    not empty. *)
Definition synchronize (env : Env) (parameters : DeploymentParameters) : M unit :=
  let name := path_basename env (path (wf_uri (workspaceFolder parameters))) in
  emit (op_withProgress ("Synchronizing " ++ name)) ;;
  emit (op_deploymentLog_appendLine "Starting MD5 synchronization transfer") ;;
  emit (op_progress_report (Some "creating remote MD5 hash list") None) ;;
  md5sumOut <- do_sendCommand env (Some (remotePath parameters)) md5sum_command ;;
  remoteMD5 <- parse_remoteMD5 (stdout md5sumOut) ;;
  emit (op_progress_report (Some "creating transfer list") (Some 25)) ;;
  let localFiles := localFiles env parameters in
  let uploads := compare_uploads env parameters localFiles remoteMD5 in
  let toDelete := compare_toDelete localFiles remoteMD5 in
  synchronize_delete env parameters toDelete ;;
  synchronize_upload env uploads ;;
  emit (op_progress_report
          (Some ("removing empty folders under " ++ remotePath parameters))
          (Some 20)) ;;
  do_sendCommand env (Some (remotePath parameters)) rmdir_command ;;
  emit (op_progress_report None (Some 5)).

Definition deployCompare (env : Env) (parameters : DeploymentParameters) : M unit :=
  connection <- getConnection env ;;
  if remoteFeatures_md5sum connection then
    lsOut <- do_sendCommand env (Some (remotePath parameters)) "ls | wc -l" ;;
    let isEmpty := String.eqb (stdout lsOut) "0" in
    if isEmpty then
      emit (op_deploymentLog_appendLine
              "Remote directory is empty; switching to 'deploy all'") ;;
      deployAll env parameters
    else synchronize env parameters
  else
    throw (Error
      "Cannot synchronize using MD5 comparison: 'md5sum' command not availabe on host.").

(* ------------------------------------------------------------------ *)
(** ** The orchestrator *)

Definition BUTTON_BASE : string := "$(cloud-upload) Deploy".
Definition BUTTON_WORKING : string := "$(sync~spin) Deploying".

(** The [try] block of [deploy] up to the transfer; [wc] is the registry
    as the selected strategy finds it. *)
Definition deploy_try (env : Env) (parameters : DeploymentParameters)
    (wc : WorkspaceChanges) : M unit :=
  emit op_deploymentLog_clear ;;
  emit (op_button_text BUTTON_WORKING) ;;
  createRemoteDirectory env (remotePath parameters) ;;
  match method parameters with
  | method_unstaged => deployGit env parameters working
  | method_staged => deployGit env parameters staged
  | method_changed => deployChanged env parameters wc
  | method_compare => deployCompare env parameters
  | method_all => deployAll env parameters
  end ;;
  emit (op_deploymentLog_appendLine "Deployment finished.") ;;
  emit (op_showInformationMessage "Deployment finished.").

(** [workspaceChanges.get(parameters.workspaceFolder)?.clear()] *)
Definition clear_changes (wf : WorkspaceFolder) (wc : WorkspaceChanges)
  : WorkspaceChanges :=
  JSMap.update WorkspaceFolder_eqb wf (fun changes => JSMap.clear changes) wc.

(** What a call of [deploy] leaves behind: the calls it made, its result
    and the registry. *)
Record DeployRun := mkRun {
  run_trace : list Op;
  run_result : bool;
  run_changes : WorkspaceChanges
}.

(** [deploy].  Watch events are delivered between the steps of the
    asynchronous function.  The registry is read once, synchronously, when
    the strategy starts after [createRemoteDirectory] has settled, and
    written once, synchronously, after the strategy has settled; so an
    interleaving is given by the events delivered before the strategy
    starts ([before]) and those delivered while it runs ([during]).
    Every such split is admitted, also one that no schedule produces
    because the strategy makes no asynchronous call. *)
Definition deploy (env : Env) (parameters : DeploymentParameters)
    (before during : list WatchEvent) (wc : WorkspaceChanges) : DeployRun :=
  let at_start := watch_all env before wc in
  let at_end := watch_all env during at_start in
  match deploy_try env parameters at_start with
  | (t, Returned _) =>
      {| run_trace := (t ++ [op_button_text BUTTON_BASE])%list;
         run_result := true;
         run_changes := clear_changes (workspaceFolder parameters) at_end |}
  | (t, Thrown error) =>
      {| run_trace :=
           (t ++ [op_showErrorMessage "Deployment failed." "View Log";
                  op_deploymentLog_appendLine
                    ("Deployment failed: " ++ JSError_toString error);
                  op_button_text BUTTON_BASE])%list;
         run_result := false;
         run_changes := at_end |}
  end.

(* ------------------------------------------------------------------ *)
(** ** The ignore rules of [launchDeploy] *)

(** [launchDeploy], from [findFiles] to the last [add]. *)
Definition launchDeploy_ignoreRules (env : Env) (folder : WorkspaceFolder)
  : IgnoreRuleSet :=
  let gitignores :=
    workspace_findFiles env (fsPath (wf_uri folder)) "**/.gitignore"
                        (Some EmptyString) (Some 1) in
  let ignoreRules := add ".git" (ignore true) in
  match gitignores with
  | gitignore :: _ =>
      let gitignoreContent :=
        replace_all_char CR EmptyString (workspace_fs_readFile env gitignore) in
      add "**/.gitignore" (add_all (split_char LF gitignoreContent) ignoreRules)
  | [] => ignoreRules
  end.

(* ------------------------------------------------------------------ *)
(** ** Specification predicates *)

(** Every entry of the registry was recorded by a handler: its key is the
    [fsPath] of its value, the value passed the guard of [getChangesMap],
    and the entry sits in the map of the folder of its value. *)
Definition tracked (env : Env) (wc : WorkspaceChanges) : Prop :=
  forall wf changes k u,
    In (wf, changes) wc -> In (k, u) changes ->
    k = fsPath u /\ trackable u = true
    /\ workspace_getWorkspaceFolder env u = Some wf.

(** The entry of [uri] is pending in the map of [wf]. *)
Definition is_pending (wf : WorkspaceFolder) (uri : Uri) (wc : WorkspaceChanges)
  : Prop :=
  exists changes,
    workspaceChanges_get wf wc = Some changes
    /\ changes_get (fsPath uri) changes = Some uri.

(** The calls of a trace that only touch the user interface. *)
Definition is_ui (o : Op) : bool :=
  negb (is_remote_command o || is_transfer o).

(** The upload that [to_upload] returns. *)
Definition upload_of (env : Env) (parameters : DeploymentParameters) (uri : Uri)
  : Upload :=
  {| up_local := fsPath uri;
     up_remote :=
       path_posix_join env (remotePath parameters)
         (toRelative env (wf_uri (workspaceFolder parameters)) uri);
     up_uri := uri |}.

(** The files that [deployChanged] hands to [putFiles] for a map of
    pending changes. *)
Definition changed_transfers (env : Env) (parameters : DeploymentParameters)
    (changes : Changes) : list Transfer :=
  List.map (fun uri => Upload_transfer (upload_of env parameters uri))
           (changedFiles env parameters changes).

(* ------------------------------------------------------------------ *)
(** ** A sample workspace *)

Module Sample.

Definition file (p : string) : Uri :=
  {| scheme := "file"; path := p; fsPath := p |}.

(** The workspace [/w], deployed to [/r]. *)
Definition folder : WorkspaceFolder :=
  {| wf_uri := file "/w"; wf_name := "w"; wf_index := 0 |}.

Definition a_txt : Uri := file "/w/a.txt".
Definition b_txt : Uri := file "/w/b.txt".
Definition c_txt : Uri := file "/w/c.txt".
Definition notes_gitbook : Uri := file "/w/notes.gitbook".
Definition git_config : Uri := file "/w/.git/config".
Definition member : Uri :=
  {| scheme := "member"; path := "/LIB/SRC/PGM.rpgle"; fsPath := "/LIB/SRC/PGM.rpgle" |}.

(** A client whose transfers succeed. *)
Definition ssh : Client :=
  {| putFiles := fun _ => Returned tt;
     putDirectory := fun _ _ _ => ([], Returned true) |}.

(** A client whose file transfer is rejected. *)
Definition broken_ssh : Client :=
  {| putFiles := fun _ => Thrown (Error "Connection lost");
     putDirectory := fun _ _ _ => ([], Thrown (Error "Connection lost")) |}.

(** A remote session; [ls_out] and [md5sum_out] are the outputs of the
    two commands that [deployCompare] reads. *)
Definition connection_with (c : Client) (ls_out md5sum_out : string)
  : Connection :=
  {| remoteFeatures_md5sum := true;
     client := Some c;
     sendCommand := fun _ command =>
       Returned
         {| code := Some 0;
            stdout :=
              if String.eqb command "ls | wc -l" then ls_out
              else if String.eqb command md5sum_command then md5sum_out
              else EmptyString;
            stderr := EmptyString |} |}.

Definition connection : string -> string -> Connection :=
  connection_with ssh.

(** Content digests, shortened: [a1] for [a.txt], [b2] for [b.txt], [c3]
    for anything else.  A file's content is its own name. *)
Definition digest (bytes : string) : string :=
  if String.eqb bytes "/w/a.txt" then "a1"
  else if String.eqb bytes "/w/b.txt" then "b2"
  else "c3".

(** The environment: the local tree holds [found], and [hash] stands for
    the digest. *)
Definition env (session : option Connection) (git : option GitAPI)
    (found : list Uri) (hash : string -> string) : Env :=
  {| instance_getConnection := session;
     Tools_getGitAPI := git;
     workspace_getWorkspaceFolder := fun uri =>
       if startsWith (fsPath uri) "/w/" then Some folder else None;
     workspace_findFiles := fun _ includePattern _ _ =>
       if String.eqb includePattern "**/*" then found else [];
     workspace_fs_readFile := fun _ => EmptyString;
     readFileSync := fun p => p;
     Crypto_md5_hex := hash;
     path_relative := fun from to => remove_first (from ++ "/") to;
     path_basename := fun p => last (split_char "/" p) EmptyString;
     path_dirname := fun p => join "/" (removelast (split_char "/" p));
     path_posix_join := fun a b => a ++ "/" ++ b;
     ignores := fun _ _ => false |}.

Definition offline : Env := env None None [] (fun _ => EmptyString).

Definition online : Env :=
  env (Some (connection "2" EmptyString)) None [] (fun _ => EmptyString).

(** Connected, but transfers are rejected. *)
Definition unreliable : Env :=
  env (Some (connection_with broken_ssh "2" EmptyString)) None []
      (fun _ => EmptyString).

(** A registry in which [a.txt] is pending. *)
Definition a_pending : WorkspaceChanges :=
  [(folder, [("/w/a.txt", a_txt)])].

Definition parameters (m : DeploymentMethod) (target : string)
  : DeploymentParameters :=
  {| method := m;
     workspaceFolder := folder;
     remotePath := target;
     ignoreRules := Some (add ".git" (ignore true)) |}.

End Sample.

(* ------------------------------------------------------------------ *)
(** ** Reading the deployment snapshot *)

(** The reading of the deployment snapshot under which an event that is
    recorded while a deployment is in flight is still pending when that
    deployment has completed, whatever its result. *)
Definition event_survives_deployment : Prop :=
  forall (env : Env) (parameters : DeploymentParameters)
         (before during : list WatchEvent) (wc : WorkspaceChanges)
         (ev : WatchEvent),
    records ev = true ->
    trackable (event_uri ev) = true ->
    workspace_getWorkspaceFolder env (event_uri ev)
    = Some (workspaceFolder parameters) ->
    is_pending (workspaceFolder parameters) (event_uri ev)
      (run_changes (deploy env parameters before (during ++ [ev]) wc)).

(* ------------------------------------------------------------------ *)
(** ** Reading the synchronisation plan *)

(** The test of the loop of [deployCompare]: no remote entry has the
    path of the file, or the first one that has it carries another
    hash. *)
Definition needs_upload (env : Env) (remoteMD5 : list MD5Entry)
    (file : LocalFile) : bool :=
  match find_remote remoteMD5 file with
  | None => true
  | Some remote => negb (String.eqb (md5 remote) (md5Hash env (lf_uri file)))
  end.

(** The element pushed for a file. *)
Definition transfer_of (parameters : DeploymentParameters) (file : LocalFile)
  : Transfer :=
  {| local := fsPath (lf_uri file);
     remote := remotePath parameters ++ "/" ++ lf_path file |}.

(** The relation between relative paths and content hashes on either
    side. *)
Definition local_hashes (env : Env) (files : list LocalFile)
  : list (string * string) :=
  List.map (fun file => (lf_path file, md5Hash env (lf_uri file))) files.

Definition remote_hashes (remoteMD5 : list MD5Entry) : list (string * string) :=
  List.map (fun e => (md5_path e, md5 e)) remoteMD5.

Definition is_mapping (hashes : list (string * string)) : Prop :=
  forall p h h', In (p, h) hashes -> In (p, h') hashes -> h = h'.

Definition same_mapping (l r : list (string * string)) : Prop :=
  forall p h, In (p, h) l <-> In (p, h) r.

(* ------------------------------------------------------------------ *)
(** ** Reading the git strategy and the ignore rules *)

(** The changes that [deployGit] reads from the repository state. *)
Definition changes_of (repository : Repository) (changeType : ChangeType)
  : list Change :=
  match changeType with
  | staged => indexChanges repository
  | working => workingTreeChanges repository
  end.

(** The files that [deployGit] hands to [putFiles]. *)
Definition git_transfers (env : Env) (parameters : DeploymentParameters)
    (repository : Repository) (changeType : ChangeType) : list Transfer :=
  List.map
    (fun change => Upload_transfer (upload_of env parameters (change_uri change)))
    (gitFiles repository changeType).

(** The repository that [deployGit] selects. *)
Definition find_repository (parameters : DeploymentParameters) (gitApi : GitAPI)
  : option Repository :=
  find (fun r => String.eqb (fsPath (rootUri r))
                            (fsPath (wf_uri (workspaceFolder parameters))))
       (repositories gitApi).

(** The [git.d.ts] code of a modified file of the working tree. *)
Definition Status_MODIFIED : N := 5.

(** The pattern added for the ignore file itself. *)
Definition gitignore_pattern : string := "**/.gitignore".

(** The result of the search for an ignore file in [launchDeploy]. *)
Definition gitignores (env : Env) (folder : WorkspaceFolder) : list Uri :=
  workspace_findFiles env (fsPath (wf_uri folder)) "**/.gitignore"
                      (Some EmptyString) (Some 1).

(** The reading of the ignore rules under which every rule set built by
    [launchDeploy] is case-insensitive and holds both the pattern of the
    VCS metadata directory and the pattern of the ignore file, whether or
    not an ignore file was found. *)
Definition ignore_file_always_ignored : Prop :=
  forall (env : Env) (folder : WorkspaceFolder),
    let ig := launchDeploy_ignoreRules env folder in
    ignorecase ig = true
    /\ In ".git" (rules ig)
    /\ In gitignore_pattern (rules ig).

Module SampleGit.

(** A repository at [/w] whose working tree has [a.txt] deleted and
    [b.txt] modified. *)
Definition repository : Repository :=
  {| rootUri := Sample.file "/w";
     indexChanges := [];
     workingTreeChanges :=
       [ {| change_uri := Sample.a_txt; status := Status_DELETED |};
         {| change_uri := Sample.b_txt; status := Status_MODIFIED |} ] |}.

Definition env : Env :=
  Sample.env (Some (Sample.connection "2" EmptyString))
             (Some {| repositories := [repository] |}) [] Sample.digest.

End SampleGit.

(* ------------------------------------------------------------------ *)
(** ** Reading strings and traces *)

(** No character of [s] is white space. *)
Fixpoint no_space (s : string) : bool :=
  match s with
  | EmptyString => true
  | String c s' => negb (is_space c) && no_space s'
  end.

(** Every character of [s] is white space. *)
Fixpoint all_space (s : string) : bool :=
  match s with
  | EmptyString => true
  | String c s' => is_space c && all_space s'
  end.

(** [s] is empty or starts with white space. *)
Definition space_led (s : string) : bool :=
  match s with
  | EmptyString => true
  | String c _ => is_space c
  end.

(** The character [c] occurs in [s]. *)
Fixpoint has_char (c : ascii) (s : string) : bool :=
  match s with
  | EmptyString => false
  | String d s' => Ascii.eqb c d || has_char c s'
  end.

(** A letter [A] to [Z] occurs in [s]. *)
Fixpoint has_upper (s : string) : bool :=
  match s with
  | EmptyString => false
  | String c s' =>
      let n := Ascii.nat_of_ascii c in
      ((65 <=? n) && (n <=? 90))%nat || has_upper s'
  end.

(** The error thrown by [toMD5Entry] on a line of one field. *)
Definition undefined_trim : JSError :=
  TypeError "Cannot read properties of undefined (reading 'trim')".

(** The status-bar button is written. *)
Definition is_button (o : Op) : bool :=
  match o with op_button_text _ => true | _ => false end.

(** The call is a line of the deployment log. *)
Definition is_log_line (o : Op) : bool :=
  match o with op_deploymentLog_appendLine _ => true | _ => false end.

(** The line that the [tick] of [deployAll] writes to the log for one
    file. *)
Definition tick_log (t : TickCall) : string :=
  let remotePath :=
    if startsWith (tick_remotePath t) (String backslash EmptyString)
    then backslashes_to_slashes (tick_remotePath t)
    else tick_remotePath t in
  match tick_error t with
  | Some error =>
      "FAILED: " ++ tick_localPath t ++ " -> " ++ remotePath
      ++ ": " ++ err_message error
  | None => "SUCCESS: " ++ tick_localPath t ++ " -> " ++ remotePath
  end.

(** The calls that reach the remote host: commands and transfers. *)
Definition is_remote (o : Op) : bool := is_remote_command o || is_transfer o.

(** The remote calls that carry out a plan, in the order of
    [deployCompare]. *)
Definition plan_calls (env : Env) (parameters : DeploymentParameters)
    (plan : UploadPlan) : list Op :=
  ((match plan_deletions plan with
    | [] => []
    | toDelete =>
        [op_sendCommand (Some (remotePath parameters))
                        ("rm -f " ++ join " " toDelete)]
    end)
   ++ (match plan_uploads plan with
       | [] => []
       | uploads =>
           [op_sendCommand None (mkdirs_command env uploads);
            op_putFiles uploads 5]
       end))%list.

(** The session answers every command. *)
Definition answers (connection : Connection) : Prop :=
  forall directory command,
    exists result, sendCommand connection directory command = Returned result.

(** The registry holds one map per folder and each map one entry per
    path. *)
Definition single_entries (wc : WorkspaceChanges) : Prop :=
  NoDup (JSMap.keys wc)
  /\ forall wf changes, In (wf, changes) wc -> NoDup (JSMap.keys changes).

(* ------------------------------------------------------------------ *)
(** ** JavaScript values and objects (configuration source file) *)

From Stdlib Require Import ZArith.

Set Warnings "-register-all".

(** The values that the settings hold.  An object is the list of its own
    properties in the order of their enumeration; numbers are integers. *)
Inductive JSValue :=
| JSUndefined
| JSNull
| JSBool (b : bool)
| JSNumber (n : Z)
| JSString (s : string)
| JSArray (items : list JSValue)
| JSObject (properties : list (string * JSValue)).

Module JS.

Definition Obj : Type := JSMap.t string JSValue.

(** [o.k]: [undefined] when [o] has no property [k]. *)
Definition prop (o : Obj) (k : string) : JSValue :=
  match JSMap.get String.eqb k o with
  | Some v => v
  | None => JSUndefined
  end.

(** An array index: the canonical decimal form of an integer below
    [2^32 - 1].  The properties of an object are enumerated with the array
    indices first, in ascending order, and the other keys after them, in
    the order of their creation. *)
Definition digit (c : ascii) : option N :=
  let n := N_of_ascii c in
  if ((48 <=? n) && (n <=? 57))%N then Some (n - 48)%N else None.

Fixpoint decimal (s : string) (acc : N) : option N :=
  match s with
  | EmptyString => Some acc
  | String c s' =>
      match digit c with
      | Some d => decimal s' (10 * acc + d)%N
      | None => None
      end
  end.

Definition array_index (k : string) : option N :=
  match k with
  | EmptyString => None
  | String c EmptyString => digit c
  | String c _ =>
      if Ascii.eqb c "0" then None
      else
        match decimal k 0 with
        | Some n => if (n <? 4294967295)%N then Some n else None
        | None => None
        end
  end.

(** The place of a new array index [i]: after the smaller indices. *)
Fixpoint insert_index (i : N) (k : string) (v : JSValue) (o : Obj) : Obj :=
  match o with
  | [] => [(k, v)]
  | (k', v') :: o' =>
      match array_index k' with
      | Some j =>
          if (j <? i)%N then (k', v') :: insert_index i k v o'
          else (k, v) :: o
      | None => (k, v) :: o
      end
  end.

(** [o.k = v]: an existing property keeps its place; a new one is added
    at the end, or among the array indices when it is one. *)
Definition assign (k : string) (v : JSValue) (o : Obj) : Obj :=
  match JSMap.get String.eqb k o, array_index k with
  | None, Some i => insert_index i k v o
  | _, _ => JSMap.set String.eqb k v o
  end.

(** [delete o.k] *)
Definition remove (k : string) (o : Obj) : Obj :=
  JSMap.delete String.eqb k o.

(** Truthiness, as tested by [||], [if] and [?.]. *)
Definition truthy (v : JSValue) : bool :=
  match v with
  | JSUndefined | JSNull => false
  | JSBool b => b
  | JSNumber n => negb (Z.eqb n 0)
  | JSString s => JSString.truthy s
  | JSArray _ | JSObject _ => true
  end.

(** [a || b] *)
Definition or (a b : JSValue) : JSValue := if truthy a then a else b.

(** [a === b] between a property and a primitive, or between the
    properties of two different objects: arrays and objects are equal to
    themselves only, so two of them read from different places differ. *)
Definition strict_equals (a b : JSValue) : bool :=
  match a, b with
  | JSUndefined, JSUndefined => true
  | JSNull, JSNull => true
  | JSBool x, JSBool y => Bool.eqb x y
  | JSNumber x, JSNumber y => Z.eqb x y
  | JSString x, JSString y => String.eqb x y
  | _, _ => false
  end.

(** [Object.assign(target, source)]: the properties of [source] are
    assigned in the order of their enumeration. *)
Definition Object_assign (target source : Obj) : Obj :=
  fold_left (fun o kv => assign (fst kv) (snd kv) o) source target.

End JS.

(* ------------------------------------------------------------------ *)
(** ** [ConnectionManager] *)

Module ConnectionManager.

(** The setting [connections]: [None] while the setting is undefined;
    an element is a connection object, or [None] for a slot that holds no
    object (a hole left by an assignment past the end). *)
Definition Connections : Type := list (option JS.Obj).
Definition Setting : Type := option Connections.

(** [interface StoredConnection] *)
Record StoredConnection := mkStored {
  index : nat;
  data : JS.Obj
}.

(** [getAll] *)
Definition getAll (setting : Setting) : Connections :=
  match setting with
  | Some connections => connections
  | None => []
  end.

Definition name_is (name : string) (conn : JS.Obj) : bool :=
  JS.strict_equals (JS.prop conn "name") (JSString name).

(** The error of [conn.name] on a slot without an object. *)
Definition undefined_name : JSError :=
  TypeError "Cannot read properties of undefined (reading 'name')".

(** [connections.findIndex(conn => conn.name === name)], counting from
    [from]; [None] for [-1]. *)
Fixpoint findIndex_from (from : nat) (name : string) (connections : Connections)
  : Outcome (option nat) :=
  match connections with
  | [] => Returned None
  | None :: _ => Thrown undefined_name
  | Some conn :: rest =>
      if name_is name conn then Returned (Some from)
      else findIndex_from (S from) name rest
  end.

Definition findIndex (name : string) (connections : Connections)
  : Outcome (option nat) :=
  findIndex_from 0 name connections.

(** [getByName] *)
Definition getByName (setting : Setting) (name : string)
  : Outcome (option StoredConnection) :=
  let connections := getAll setting in
  match findIndex name connections with
  | Thrown e => Thrown e
  | Returned None => Returned None
  | Returned (Some i) =>
      match nth_error connections i with
      | Some (Some conn) => Returned (Some {| index := i; data := conn |})
      | _ => Returned None
      end
  end.

(** [storeNew]: the stored connection and the setting written. *)
Definition storeNew (setting : Setting) (data : JS.Obj)
  : StoredConnection * Setting :=
  let connections := getAll setting in
  let newId := List.length connections in
  ({| index := newId; data := data |}, Some (connections ++ [Some data])%list).

(** [connections.splice(index, 1)] *)
Fixpoint splice_one {A : Type} (i : nat) (xs : list A) : list A :=
  match i, xs with
  | _, [] => []
  | O, _ :: rest => rest
  | S i', x :: rest => x :: splice_one i' rest
  end.

(** [deleteByName]: the setting after the call. *)
Definition deleteByName (setting : Setting) (name : string) : Outcome Setting :=
  let connections := getAll setting in
  match findIndex name connections with
  | Thrown e => Thrown e
  | Returned (Some i) => Returned (Some (splice_one i connections))
  | Returned None => Returned setting
  end.

(** [connections[index] = data]: past the end the array is extended with
    holes. *)
Fixpoint store_at (i : nat) (conn : JS.Obj) (connections : Connections)
  : Connections :=
  match i, connections with
  | O, [] => [Some conn]
  | O, _ :: rest => Some conn :: rest
  | S i', [] => None :: store_at i' conn []
  | S i', c :: rest => c :: store_at i' conn rest
  end.

(** [connections.forEach(conn => delete conn.password)]: holes are
    skipped. *)
Definition strip_passwords (connections : Connections) : Connections :=
  List.map (option_map (JS.remove "password")) connections.

(** [updateByIndex]: the setting written.  The object [data] is stored
    itself, so it loses its password like the others. *)
Definition updateByIndex (setting : Setting) (i : nat) (data : JS.Obj)
  : Setting :=
  Some (strip_passwords (store_at i data (getAll setting))).

(** The secret storage of the extension context, and the key of the
    password of a connection. *)
Definition Secrets : Type := JSMap.t string string.

Definition connectionKey (connectionName : string) : string :=
  connectionName ++ "_password".

Definition getStoredPassword (secrets : Secrets) (connectionName : string)
  : option string :=
  JSMap.get String.eqb (connectionKey connectionName) secrets.

Definition setStoredPassword (secrets : Secrets) (connectionName password : string)
  : Secrets :=
  JSMap.set String.eqb (connectionKey connectionName) password secrets.

Definition deleteStoredPassword (secrets : Secrets) (connectionName : string)
  : Secrets :=
  JSMap.delete String.eqb (connectionKey connectionName) secrets.

(** Every slot holds an object. *)
Definition dense (connections : Connections) : Prop :=
  Forall (fun c => c <> None) connections.

(** No connection of the list has the name. *)
Definition unused (name : string) (connections : Connections) : Prop :=
  forall conn, In (Some conn) connections -> name_is name conn = false.

End ConnectionManager.

(* ------------------------------------------------------------------ *)
(** ** [ConnectionConfiguration] *)

Module ConnectionConfiguration.

(** [interface Parameters], as the object it is at run time, and the
    setting [connectionSettings] ([None] while it is undefined). *)
Definition Parameters : Type := JS.Obj.
Definition Settings : Type := option (list Parameters).

(** [getConnectionSettings] *)
Definition getConnectionSettings (settings : Settings) : list Parameters :=
  match settings with
  | Some connections => connections
  | None => []
  end.

(** The right-hand sides of the object literal of [initialize]:
    [parameters.k!], [parameters.k || d], [parameters.k === true] and
    [parameters.k === true || parameters.k === undefined]. *)
Inductive Rule :=
| as_given
| or_default (d : JSValue)
| is_true
| true_or_undefined.

Definition apply_rule (r : Rule) (v : JSValue) : JSValue :=
  match r with
  | as_given => v
  | or_default d => JS.or v d
  | is_true => JSBool (JS.strict_equals v (JSBool true))
  | true_or_undefined =>
      JSBool (JS.strict_equals v (JSBool true)
              || JS.strict_equals v JSUndefined)
  end.

Section Initialize.
(** [DEFAULT_CERT_DIRECTORY] of the debug module and [os.homedir()]. *)
Variable DEFAULT_CERT_DIRECTORY : string.
Variable os_homedir : string.

(** The keys of the object literal, in order, after the spread. *)
Definition literal : list (string * Rule) :=
  [ ("name", as_given);
    ("host", or_default (JSString EmptyString));
    ("objectFilters", or_default (JSArray []));
    ("libraryList", or_default (JSArray []));
    ("autoClearTempData", or_default (JSBool false));
    ("customVariables", or_default (JSArray []));
    ("connectionProfiles", or_default (JSArray []));
    ("commandProfiles", or_default (JSArray []));
    ("ifsShortcuts", or_default (JSArray []));
    ("autoSortIFSShortcuts", or_default (JSBool false));
    ("homeDirectory", or_default (JSString "."));
    ("enableSQL", true_or_undefined);
    ("tempLibrary", or_default (JSString "ILEDITOR"));
    ("tempDir", or_default (JSString "/tmp"));
    ("currentLibrary", or_default (JSString EmptyString));
    ("sourceASP", or_default (JSString EmptyString));
    ("sourceFileCCSID", or_default (JSString "*FILE"));
    ("autoConvertIFSccsid", is_true);
    ("hideCompileErrors", or_default (JSArray []));
    ("enableSourceDates", is_true);
    ("sourceDateMode", or_default (JSString "diff"));
    ("sourceDateGutter", is_true);
    ("encodingFor5250", or_default (JSString "default"));
    ("terminalFor5250", or_default (JSString "default"));
    ("setDeviceNameFor5250", is_true);
    ("connectringStringFor5250", or_default (JSString "localhost"));
    ("autoSaveBeforeAction", is_true);
    ("showDescInLibList", is_true);
    ("debugCertDirectory", or_default (JSString DEFAULT_CERT_DIRECTORY));
    ("debugPort", or_default (JSString "8005"));
    ("debugSepPort", or_default (JSString "8008"));
    ("debugIsSecure", is_true);
    ("debugUpdateProductionFiles", is_true);
    ("debugEnableDebugTracing", is_true);
    ("readOnlyMode", is_true);
    ("quickConnect", true_or_undefined);
    ("defaultDeploymentMethod", or_default (JSString EmptyString));
    ("protectedPaths", or_default (JSArray []));
    ("showHiddenFiles", true_or_undefined);
    ("lastDownloadLocation", or_default (JSString os_homedir)) ].

(** One property of the literal: [k: rule(parameters.k)]. *)
Definition define (parameters : JS.Obj) (o : JS.Obj) (kr : string * Rule)
  : JS.Obj :=
  JS.assign (fst kr) (apply_rule (snd kr) (JS.prop parameters (fst kr))) o.

(** [initialize]: the spread of [parameters], then the properties of
    the literal. *)
Definition initialize (parameters : JS.Obj) : Parameters :=
  fold_left (define parameters) literal parameters.

Definition named (name : string) (conn : Parameters) : bool :=
  JS.strict_equals (JS.prop conn "name") (JSString name).

(** [load]: the configuration returned and, when the function writes the
    setting, the value written. *)
Definition load (settings : Settings) (name : string)
  : Parameters * option (list Parameters) :=
  let connections := getConnectionSettings settings in
  match find (named name) connections with
  | Some existingConfig => (initialize existingConfig, None)
  | None =>
      let config := initialize [("name", JSString name)] in
      (config, Some (connections ++ [config])%list)
  end.

End Initialize.

(** The setting after a call that wrote [written], or wrote nothing. *)
Definition after (settings : Settings) (written : option (list Parameters))
  : Settings :=
  match written with
  | Some connections => Some connections
  | None => settings
  end.

(** [update]: the value written to the setting, if any. *)
Definition update (settings : Settings) (parameters : Parameters)
  : option (list Parameters) :=
  if JS.truthy (JS.prop parameters "name") then
    Some (List.map
            (fun conn =>
               if JS.strict_equals (JS.prop conn "name")
                                   (JS.prop parameters "name")
               then JS.Object_assign conn parameters
               else conn)
            (getConnectionSettings settings))
  else None.

End ConnectionConfiguration.

(* ------------------------------------------------------------------ *)
(** ** [getWorkspaceFolder] and [launchDeploy] *)

Module Launch.

(** An entry of the menu of deployment methods. *)
Record MethodItem := mkItem {
  item_method : DeploymentMethod;
  item_label : string;
  item_description : string
}.

(** What [launchDeploy] and [setDeployLocation] read from the editor and
    from the instance, next to [Env]: the folders of the workspace, the
    answers of the two quick picks (a name, and the position of the entry
    picked in the menu), the stored deployment locations ([None] without
    storage), the configuration of the connection, the setting
    [connectionSettings], the user of the connection, the answers to the
    two messages that carry a button (given the message and the button)
    and the text entered in the input box (given the proposed value). *)
Record Workbench := mkWorkbench {
  workspace_workspaceFolders : option (list WorkspaceFolder);
  showQuickPick_workspace : list string -> option string;
  storage_getDeployment : option (JSMap.t string string);
  showQuickPick_method : list MethodItem -> string -> option nat;
  instance_getConfig : option JS.Obj;
  connectionSettings : ConnectionConfiguration.Settings;
  connection_currentUser : option string;
  showErrorMessage_answer : string -> string -> option string;
  showInformationMessage_answer : string -> string -> option string;
  showInputBox : option string -> option string
}.

(** [getWorkspaceFolder] *)
Definition getWorkspaceFolder (wb : Workbench) (workspaceIndex : option nat)
  : option WorkspaceFolder :=
  match workspaceIndex with
  | Some i =>
      match workspace_workspaceFolders wb with
      | Some workspaces =>
          find (fun dir => (wf_index dir =? i)%nat) workspaces
      | None => None
      end
  | None =>
      match workspace_workspaceFolders wb with
      | Some workspaces =>
          if (0 <? List.length workspaces)%nat then
            if (List.length workspaces =? 1)%nat then nth_error workspaces 0
            else
              match showQuickPick_workspace wb (List.map wf_name workspaces) with
              | Some chosen =>
                  if JSString.truthy chosen then
                    find (fun dir => String.eqb (wf_name dir) chosen) workspaces
                  else None
              | None => None
              end
          else None
      | None => None
      end
  end.

(** [workspaceChanges.get(folder)?.size || 0] *)
Definition changes_detected (folder : WorkspaceFolder) (wc : WorkspaceChanges)
  : nat :=
  match workspaceChanges_get folder wc with
  | Some changes => JSMap.size changes
  | None => 0
  end.

(** The array [methods] of [launchDeploy]. *)
Definition methods (md5sum : bool) (changes : nat) (git : bool)
  : list MethodItem :=
  ((if md5sum
    then [mkItem method_compare "Compare"
                 "Synchronizes using MD5 hash comparison"]
    else [])
   ++ [mkItem method_changed "Changes"
         (JSString.of_nat changes ++ " change"
          ++ (if (1 <? changes)%nat then "s" else EmptyString)
          ++ " detected since last upload. "
          ++ (if (changes =? 0)%nat then "Will skip deploy step."
              else EmptyString))]
   ++ (if git
       then [mkItem method_unstaged "Working Changes" "Unstaged changes in git";
             mkItem method_staged "Staged Changes" EmptyString]
       else [])
   ++ [mkItem method_all "All" "Every file in the local workspace"])%list.

(** [existingPaths ? existingPaths[folder.uri.fsPath] : ''] *)
Definition deployment_location (wb : Workbench) (folder : WorkspaceFolder)
  : option string :=
  match storage_getDeployment wb with
  | Some existingPaths =>
      JSMap.get String.eqb (fsPath (wf_uri folder)) existingPaths
  | None => Some EmptyString
  end.

(** [path.posix.join] of several segments. *)
Definition posix_join_all (env : Env) (first : string) (rest : list string)
  : string :=
  fold_left (path_posix_join env) rest first.

(** [buildPossibleDeploymentDirectory] *)
Definition buildPossibleDeploymentDirectory (env : Env) (wb : Workbench)
    (workspace : WorkspaceFolder) : string :=
  match connection_currentUser wb with
  | Some (String _ _ as user) =>
      posix_join_all env "/" ["home"; user; "builds"; wf_name workspace]
  | _ => posix_join_all env "/" ["tmp"; "builds"; wf_name workspace]
  end.

(** What a call of [setDeployLocation] leaves behind: the calls it made,
    how it settled, the locations handed to [storage.setDeployment] if
    any, whether [deployLocation] was fired, and the index handed to the
    command [code-for-ibmi.launchDeploy] if it was executed. *)
Record LocationRun := mkLocation {
  location_trace : list Op;
  location_outcome : Outcome unit;
  location_stored : option (JSMap.t string string);
  location_fired : bool;
  location_launch : option nat
}.

(** A truthy answer: a string that is not empty. *)
Definition answered (answer : option string) : bool :=
  match answer with
  | Some text => JSString.truthy text
  | None => false
  end.

(** [setDeployLocation]; [node_path] is [node?.path]. *)
Definition setDeployLocation (env : Env) (wb : Workbench)
    (node_path : option string) (workspaceFolder : option WorkspaceFolder)
    (value : option string) : LocationRun :=
  let nothing :=
    {| location_trace := [];
       location_outcome := Returned tt;
       location_stored := None;
       location_fired := false;
       location_launch := None |} in
  let path := if answered node_path then node_path else showInputBox wb value in
  match path with
  | Some (String _ _ as path) =>
      let chosenWorkspaceFolder :=
        match workspaceFolder with
        | Some folder => Some folder
        | None => getWorkspaceFolder wb None
        end in
      match storage_getDeployment wb, chosenWorkspaceFolder with
      | Some existingPaths, Some chosen =>
          match createRemoteDirectory env path with
          | (t, Returned _) =>
              let message := "Deployment location set to " ++ path in
              {| location_trace := (t ++ [op_showInformationMessage message])%list;
                 location_outcome := Returned tt;
                 location_stored :=
                   Some (JSMap.set String.eqb (fsPath (wf_uri chosen)) path
                                   existingPaths);
                 location_fired := true;
                 location_launch :=
                   if answered (showInformationMessage_answer wb message
                                                               "Deploy now")
                   then Some (wf_index chosen) else None |}
          | (t, Thrown e) =>
              {| location_trace := t;
                 location_outcome := Thrown e;
                 location_stored := None;
                 location_fired := false;
                 location_launch := None |}
          end
      | _, _ => nothing
      end
  | _ => nothing
  end.

(** What a call of [launchDeploy] leaves behind: the calls it made, its
    result, the registry, the configuration object of the connection, the
    value written to the setting [connectionSettings] if any, the
    argument of its call of [deploy] if it made one, and the call of
    [setDeployLocation] that it started without awaiting it, if any. *)
Record LaunchRun := mkLaunch {
  launch_trace : list Op;
  launch_result : Outcome (option nat);
  launch_changes : WorkspaceChanges;
  launch_config : option JS.Obj;
  launch_written : option (list ConnectionConfiguration.Parameters);
  launch_deployed : option DeploymentParameters;
  launch_started : option LocationRun
}.

(** A run that ends before [deploy] is called. *)
Definition idle (wb : Workbench) (wc : WorkspaceChanges) (t : list Op)
    (r : Outcome (option nat)) (started : option LocationRun) : LaunchRun :=
  {| launch_trace := t;
     launch_result := r;
     launch_changes := wc;
     launch_config := instance_getConfig wb;
     launch_written := None;
     launch_deployed := None;
     launch_started := started |}.

(** The block that sets the home directory of the connection: the calls
    made, the configuration object, and the setting written. *)
Definition set_home (wb : Workbench) (remotePath : string)
  : list Op * option JS.Obj * option (list ConnectionConfiguration.Parameters) :=
  match instance_getConfig wb with
  | Some config =>
      if startsWith remotePath "/"
         && negb (JS.strict_equals (JS.prop config "homeDirectory")
                                   (JSString remotePath))
      then
        let config' := JS.assign "homeDirectory" (JSString remotePath) config in
        ([op_showInformationMessage
            ("Home directory set to " ++ remotePath ++ " for deployment.")],
         Some config',
         ConnectionConfiguration.update (connectionSettings wb) config')
      else ([], Some config, None)
  | None => ([], None, None)
  end.

(** [launchDeploy].  The watch events delivered before the menu is built
    are [earlier]; [before] and [during] are those of [deploy].  In the
    branch of a folder without location, [setDeployLocation] is started
    when the message is answered, and not awaited: the function returns
    [undefined] whatever becomes of that call. *)
Definition launchDeploy (env : Env) (wb : Workbench)
    (workspaceIndex : option nat) (earlier before during : list WatchEvent)
    (wc : WorkspaceChanges) : LaunchRun :=
  let at_menu := watch_all env earlier wc in
  match getWorkspaceFolder wb workspaceIndex with
  | Some folder =>
      let ignoreRules := launchDeploy_ignoreRules env folder in
      match deployment_location wb folder with
      | Some (String _ _ as remotePath) =>
          match getConnection env with
          | (_, Returned connection) =>
              let menu :=
                methods (remoteFeatures_md5sum connection)
                        (changes_detected folder at_menu)
                        (match Tools_getGitAPI env with
                         | Some _ => true
                         | None => false
                         end) in
              match showQuickPick_method wb menu
                      ("Select deployment method to " ++ remotePath) with
              | Some picked =>
                  match nth_error menu picked with
                  | Some item =>
                      let '(t, config, written) := set_home wb remotePath in
                      let parameters :=
                        {| workspaceFolder := folder;
                           remotePath := remotePath;
                           ignoreRules := Some ignoreRules;
                           method := item_method item |} in
                      let run := deploy env parameters before during at_menu in
                      {| launch_trace := (t ++ run_trace run)%list;
                         launch_result :=
                           Returned (if run_result run
                                     then Some (wf_index folder) else None);
                         launch_changes := run_changes run;
                         launch_config := config;
                         launch_written := written;
                         launch_deployed := Some parameters;
                         launch_started := None |}
                  | None => idle wb at_menu [] (Returned None) None
                  end
              | None => idle wb at_menu [] (Returned None) None
              end
          | (_, Thrown e) => idle wb at_menu [] (Thrown e) None
          end
      | _ =>
          let message :=
            "Chosen location (" ++ fsPath (wf_uri folder)
            ++ ") is not configured for deployment." in
          idle wb at_menu
               [op_showErrorMessage message "Set deploy location"]
               (Returned None)
               (if answered (showErrorMessage_answer wb message
                                                     "Set deploy location")
                then Some (setDeployLocation env wb None (Some folder)
                             (Some (buildPossibleDeploymentDirectory env wb
                                                                     folder)))
                else None)
      end
  | None => idle wb at_menu [] (Returned None) None
  end.

End Launch.

Module SampleLaunch.
Import Launch.

(** A second folder that bears the name of [Sample.folder]. *)
Definition twin : WorkspaceFolder :=
  {| wf_uri := Sample.file "/v"; wf_name := "w"; wf_index := 1 |}.

Definition dev : JS.Obj :=
  [("name", JSString "dev"); ("homeDirectory", JSString "/home/a")].

Definition prod : JS.Obj :=
  [("name", JSString "prod"); ("homeDirectory", JSString "/home/b")].

(** A workbench with the two folders, where the user picks the name [w]
    and then the second entry of the menu; [/w] is deployed to [/r]. *)
Definition workbench : Workbench :=
  {| workspace_workspaceFolders := Some [Sample.folder; twin];
     showQuickPick_workspace := fun _ => Some "w";
     storage_getDeployment := Some [("/w", "/r")];
     showQuickPick_method := fun _ _ => Some 1;
     instance_getConfig := Some dev;
     connectionSettings := Some [dev; prod];
     connection_currentUser := Some "dev";
     showErrorMessage_answer := fun _ item => Some item;
     showInformationMessage_answer := fun _ _ => None;
     showInputBox := fun value => value |}.

End SampleLaunch.

(* ------------------------------------------------------------------ *)
(** ** Reading the synchronisation of two trees *)

(** The element of [localFiles] built for a file. *)
Definition local_file (parameters : DeploymentParameters) (file : Uri)
  : LocalFile :=
  {| lf_uri := file;
     lf_path :=
       backslashes_to_slashes
         (remove_first (localRoot parameters) (fsPath file)) |}.

(** The test that [findFiles] applies to a file. *)
Definition is_ignored (env : Env) (parameters : DeploymentParameters)
    (file : Uri) : bool :=
  match ignoreRules parameters with
  | Some rules =>
      ignores env rules
        (toRelative env (wf_uri (workspaceFolder parameters)) file)
  | None => false
  end.

(** The files that the search of [deployCompare] returns: those under
    the folder that the pattern [**/.git*] does not exclude. *)
Definition searched (env : Env) (parameters : DeploymentParameters)
  : list Uri :=
  workspace_findFiles env (fsPath (wf_uri (workspaceFolder parameters)))
                      "**/*" (Some "**/.git*") None.

(** A run of [deployCompare] that reaches the comparison: the session
    has [md5sum], the remote directory is not empty, and the hash listing
    is answered and parsed into [remoteMD5]. *)
Definition synchronizes (env : Env) (parameters : DeploymentParameters)
    (connection : Connection) (remoteMD5 : list MD5Entry) : Prop :=
  instance_getConnection env = Some connection
  /\ remoteFeatures_md5sum connection = true
  /\ (exists lsOut,
         sendCommand connection (Some (remotePath parameters)) "ls | wc -l"
         = Returned lsOut
         /\ stdout lsOut <> "0")
  /\ exists md5sumOut,
       sendCommand connection (Some (remotePath parameters)) md5sum_command
       = Returned md5sumOut
       /\ outcome (parse_remoteMD5 (stdout md5sumOut)) = Returned remoteMD5.

(** The remote calls of a run of [deployCompare] that carries out
    [plan] and nothing else. *)
Definition carries_out (env : Env) (parameters : DeploymentParameters)
    (plan : UploadPlan) : Prop :=
  filter is_remote (trace (deployCompare env parameters))
  = ([op_sendCommand (Some (remotePath parameters)) "ls | wc -l";
      op_sendCommand (Some (remotePath parameters)) md5sum_command]
     ++ plan_calls env parameters plan
     ++ [op_sendCommand (Some (remotePath parameters)) rmdir_command])%list.

(** The session and the client carry out everything asked of them. *)
Definition obliging (connection : Connection) : Prop :=
  answers connection
  /\ exists c, client connection = Some c
               /\ forall files, putFiles c files = Returned tt.

(** The local tree of the specification: every file under the folder. *)
Definition local_tree (env : Env) (parameters : DeploymentParameters)
  : list Uri :=
  workspace_findFiles env (fsPath (wf_uri (workspaceFolder parameters)))
                      "**/*" None None.

(** The plan in the words of the specification: an upload for every
    local file that is not ignored and whose relative path has no remote
    entry or one with another hash, a deletion for every remote entry
    whose relative path matches no local file. *)
Definition spec_plan (env : Env) (parameters : DeploymentParameters)
    (tree : list Uri) (remoteMD5 : list MD5Entry) : UploadPlan :=
  let files :=
    List.map (local_file parameters)
             (filter (fun file => negb (is_ignored env parameters file)) tree) in
  {| plan_uploads :=
       List.map (transfer_of parameters)
                (filter (needs_upload env remoteMD5) files);
     plan_deletions :=
       List.map md5_path
         (filter
            (fun remote =>
               negb (existsb
                       (fun file =>
                          String.eqb (md5_path remote)
                                     (lf_path (local_file parameters file)))
                       tree))
            remoteMD5) |}.

(** The reading of the specification under which every run of the
    comparison carries out the plan computed from the local tree. *)
Definition plan_is_diff_of_trees : Prop :=
  forall (env : Env) (parameters : DeploymentParameters)
         (connection : Connection) (remoteMD5 : list MD5Entry),
    synchronizes env parameters connection remoteMD5 ->
    obliging connection ->
    carries_out env parameters
      (spec_plan env parameters (local_tree env parameters) remoteMD5).

(** The relation between relative paths and content hashes of the local
    tree. *)
Definition tree_hashes (env : Env) (parameters : DeploymentParameters)
  : list (string * string) :=
  List.map (fun file => (lf_path (local_file parameters file), md5Hash env file))
           (local_tree env parameters).

(** The reading of the specification under which two trees with the
    same mapping from relative path to content hash give a run that
    deletes and transfers nothing. *)
Definition identical_trees_empty_plan : Prop :=
  forall (env : Env) (parameters : DeploymentParameters)
         (connection : Connection) (remoteMD5 : list MD5Entry),
    synchronizes env parameters connection remoteMD5 ->
    obliging connection ->
    is_mapping (tree_hashes env parameters) ->
    same_mapping (tree_hashes env parameters) (remote_hashes remoteMD5) ->
    carries_out env parameters {| plan_uploads := []; plan_deletions := [] |}.

Module SampleTree.

Definition build_log : Uri := Sample.file "/w/build.log".

(** The listing of a remote directory that holds [a.txt] and
    [build.log], with the hashes that the two files have locally. *)
Definition listing : string :=
  "a1  ./a.txt" ++ String LF "c3  ./build.log".

(** The folder [/w] holds [a.txt] and [build.log]; a rule that is a
    plain name ignores the file of this name. *)
Definition env : Env :=
  let e :=
    Sample.env (Some (Sample.connection "2" listing)) None
               [Sample.a_txt; build_log] Sample.digest in
  {| instance_getConnection := instance_getConnection e;
     Tools_getGitAPI := Tools_getGitAPI e;
     workspace_getWorkspaceFolder := workspace_getWorkspaceFolder e;
     workspace_findFiles := workspace_findFiles e;
     workspace_fs_readFile := workspace_fs_readFile e;
     readFileSync := readFileSync e;
     Crypto_md5_hex := Crypto_md5_hex e;
     path_relative := path_relative e;
     path_basename := path_basename e;
     path_dirname := path_dirname e;
     path_posix_join := path_posix_join e;
     ignores := fun ruleset relative => array_includes (rules ruleset) relative |}.

(** The rules of a folder whose ignore file names [build.log]. *)
Definition parameters : DeploymentParameters :=
  {| method := method_compare;
     workspaceFolder := Sample.folder;
     remotePath := "/r";
     ignoreRules := Some (add "build.log" (add ".git" (ignore true))) |}.

(** The scenario of the specification: [a.txt] and [b.txt] locally,
    [a.txt] with the same hash and [c.txt] remotely. *)
Definition scenario : Env :=
  Sample.env
    (Some (Sample.connection "2" ("a1  ./a.txt" ++ String LF "c3  ./c.txt")))
    None [Sample.a_txt; Sample.b_txt] Sample.digest.

End SampleTree.

(* ================================================================== *)
(** * Properties *)

Unset Implicit Arguments.

(** ** Strings *)

Lemma prefix_append (p t : string) : String.prefix p (p ++ t) = true.
Proof.
  induction p as [| c p IH]; simpl.
  - now destruct t.
  - destruct (ascii_dec c c) as [_ | ne]; [exact IH | now elim ne].
Qed.

Lemma includes_unfold (s sub : string) :
  includes s sub =
  if String.prefix sub s then true
  else match s with
       | EmptyString => false
       | String _ s' => includes s' sub
       end.
Proof. destruct s; reflexivity. Qed.

Lemma includes_append (pre sub post : string) :
  includes (pre ++ sub ++ post) sub = true.
Proof.
  induction pre as [| c pre IH].
  - rewrite includes_unfold. simpl (EmptyString ++ _).
    now rewrite prefix_append.
  - rewrite includes_unfold. cbn [append].
    destruct (String.prefix sub _); [reflexivity | exact IH].
Qed.

Lemma split_by_head (is_sep : ascii -> bool) (s t : string) (ts : list string) :
  split_by is_sep s = t :: ts -> exists post, s = t ++ post.
Proof.
  revert t ts; induction s as [| c s IH]; simpl; intros t ts E.
  - inversion E; subst. now exists EmptyString.
  - destruct (is_sep c).
    + inversion E; subst. now exists (String c s).
    + destruct (split_by is_sep s) as [| t' ts'] eqn:Es.
      * inversion E; subst. destruct s; simpl in Es.
        -- now exists EmptyString.
        -- destruct (is_sep a); [discriminate |].
           destruct (split_by is_sep s); discriminate.
      * inversion E; subst. destruct (IH _ _ eq_refl) as [post ->].
        now exists post.
Qed.

Lemma split_by_In (is_sep : ascii -> bool) (s seg : string) :
  In seg (split_by is_sep s) -> exists pre post, s = pre ++ seg ++ post.
Proof.
  revert seg; induction s as [| c s IH]; simpl; intros seg H.
  - destruct H as [<- | []]. now exists EmptyString, EmptyString.
  - destruct (is_sep c).
    + destruct H as [<- | H].
      * now exists EmptyString, (String c s).
      * destruct (IH _ H) as (pre & post & ->). now exists (String c pre), post.
    + destruct (split_by is_sep s) as [| t ts] eqn:Es.
      * destruct H as [<- | []]. exists EmptyString, s. reflexivity.
      * destruct H as [<- | H].
        -- destruct (split_by_head _ _ _ _ Es) as [post ->].
           now exists EmptyString, post.
        -- destruct (IH seg (or_intror H)) as (pre & post & ->).
           now exists (String c pre), post.
Qed.

Lemma under_vcs_directory_includes (fsPath : string) :
  under_vcs_directory fsPath = true -> includes fsPath ".git" = true.
Proof.
  unfold under_vcs_directory, path_components. intros H.
  apply existsb_exists in H. destruct H as (seg & Hin & Heq).
  apply String.eqb_eq in Heq. subst seg.
  destruct (split_by_In _ _ _ Hin) as (pre & post & ->).
  apply includes_append.
Qed.

(** ** Maps *)

Section JSMapFacts.
Context {K V : Type}.
Variable eqb : K -> K -> bool.

Lemma get_update (k : K) (f : V -> V) (m : JSMap.t K V) :
  JSMap.get eqb k (JSMap.update eqb k f m) = option_map f (JSMap.get eqb k m).
Proof.
  induction m as [| [k' v'] m IH]; simpl; [reflexivity |].
  destruct (eqb k k') eqn:E; simpl; rewrite E; [reflexivity | exact IH].
Qed.

Lemma get_delete (k : K) (m : JSMap.t K V) :
  JSMap.get eqb k (JSMap.delete eqb k m) = None.
Proof.
  induction m as [| [k' v'] m IH]; simpl; [reflexivity |].
  destruct (eqb k k') eqn:E; simpl; [exact IH | now rewrite E].
Qed.

Lemma In_set (k k' : K) (v v' : V) (m : JSMap.t K V) :
  In (k', v') (JSMap.set eqb k v m) -> (k', v') = (k, v) \/ In (k', v') m.
Proof.
  induction m as [| [k0 v0] m IH]; simpl.
  - intros [E | []]; left; now symmetry.
  - destruct (eqb k k0); simpl; intros [E | H]; auto.
    destruct (IH H); auto.
Qed.

Lemma In_delete (k k' : K) (v' : V) (m : JSMap.t K V) :
  In (k', v') (JSMap.delete eqb k m) -> In (k', v') m /\ eqb k k' = false.
Proof.
  unfold JSMap.delete. intros H. apply filter_In in H. destruct H as [H E].
  split; [exact H |]. simpl in E. now apply negb_true_iff in E.
Qed.

Lemma In_update (k k' : K) (f : V -> V) (v' : V) (m : JSMap.t K V) :
  In (k', v') (JSMap.update eqb k f m) ->
  (eqb k k' = false /\ In (k', v') m)
  \/ (eqb k k' = true /\ exists v0, In (k', v0) m /\ v' = f v0).
Proof.
  unfold JSMap.update. intros H. apply in_map_iff in H.
  destruct H as ([k0 v0] & E & H). simpl in E.
  destruct (eqb k k0) eqn:Ek; inversion E; subst.
  - right. split; [exact Ek |]. now exists v0.
  - left. now split.
Qed.

Hypothesis eqb_refl : forall k, eqb k k = true.

Lemma get_set (k : K) (v : V) (m : JSMap.t K V) :
  JSMap.get eqb k (JSMap.set eqb k v m) = Some v.
Proof.
  induction m as [| [k' v'] m IH]; simpl.
  - now rewrite eqb_refl.
  - destruct (eqb k k') eqn:E; simpl.
    + now rewrite eqb_refl.
    + now rewrite E.
Qed.

End JSMapFacts.

Lemma Uri_eqb_eq (a b : Uri) : Uri_eqb a b = true -> a = b.
Proof.
  destruct a, b. unfold Uri_eqb; simpl. intros H.
  apply andb_true_iff in H. destruct H as [H H3].
  apply andb_true_iff in H. destruct H as [H1 H2].
  apply String.eqb_eq in H1, H2, H3. now subst.
Qed.

Lemma Uri_eqb_refl (a : Uri) : Uri_eqb a a = true.
Proof. unfold Uri_eqb. now rewrite !String.eqb_refl. Qed.

Lemma WorkspaceFolder_eqb_eq (a b : WorkspaceFolder) :
  WorkspaceFolder_eqb a b = true -> a = b.
Proof.
  destruct a, b. unfold WorkspaceFolder_eqb; simpl. intros H.
  apply andb_true_iff in H. destruct H as [H H3].
  apply andb_true_iff in H. destruct H as [H1 H2].
  apply Uri_eqb_eq in H1. apply String.eqb_eq in H2.
  apply Nat.eqb_eq in H3. now subst.
Qed.

Lemma WorkspaceFolder_eqb_refl (a : WorkspaceFolder) :
  WorkspaceFolder_eqb a a = true.
Proof.
  unfold WorkspaceFolder_eqb.
  now rewrite Uri_eqb_refl, String.eqb_refl, Nat.eqb_refl.
Qed.

(** ** The change tracker *)

Lemma trackable_inv (uri : Uri) :
  trackable uri = true ->
  array_includes invalidFs (scheme uri) = false
  /\ includes (fsPath uri) ".git" = false.
Proof.
  unfold trackable. intros H. apply andb_true_iff in H.
  destruct H as [H1 H2]. now apply negb_true_iff in H1, H2.
Qed.

Lemma not_trackable_git (uri : Uri) :
  includes (fsPath uri) ".git" = true -> trackable uri = false.
Proof.
  unfold trackable. intros ->. now rewrite andb_false_r.
Qed.

Lemma getChangesMap_dropped (env : Env) (uri : Uri) (wc : WorkspaceChanges) :
  trackable uri = false -> getChangesMap env uri wc = (None, wc).
Proof. unfold getChangesMap. now intros ->. Qed.

Lemma with_changes_dropped (env : Env) (uri : Uri) (f : Changes -> Changes)
    (wc : WorkspaceChanges) :
  trackable uri = false -> with_changes env uri f wc = wc.
Proof.
  intros H. unfold with_changes. now rewrite getChangesMap_dropped.
Qed.

Lemma with_changes_get (env : Env) (uri : Uri) (f : Changes -> Changes)
    (wc : WorkspaceChanges) (wf : WorkspaceFolder) :
  trackable uri = true ->
  workspace_getWorkspaceFolder env uri = Some wf ->
  workspaceChanges_get wf (with_changes env uri f wc)
  = Some (f (match workspaceChanges_get wf wc with
             | Some changes => changes
             | None => JSMap.empty string Uri
             end)).
Proof.
  intros Ht Hw. unfold with_changes, getChangesMap. rewrite Ht, Hw.
  unfold workspaceChanges_get.
  destruct (JSMap.get WorkspaceFolder_eqb wf wc) as [changes |] eqn:E.
  - now rewrite get_update, E.
  - rewrite get_update, get_set; [reflexivity |].
    apply WorkspaceFolder_eqb_refl.
Qed.

Lemma tracked_empty (env : Env) : tracked env [].
Proof. intros wf changes k u []. Qed.

Lemma tracked_ensure (env : Env) (wf : WorkspaceFolder) (wc : WorkspaceChanges) :
  tracked env wc ->
  tracked env (JSMap.set WorkspaceFolder_eqb wf (JSMap.empty string Uri) wc).
Proof.
  intros T wf' changes k u Hin Hku.
  apply In_set in Hin. destruct Hin as [E | Hin].
  - inversion E; subst. destruct Hku.
  - exact (T _ _ _ _ Hin Hku).
Qed.

Lemma tracked_getChangesMap (env : Env) (uri : Uri) (wc : WorkspaceChanges) :
  tracked env wc -> tracked env (snd (getChangesMap env uri wc)).
Proof.
  intros T. unfold getChangesMap.
  destruct (trackable uri); [| exact T].
  destruct (workspace_getWorkspaceFolder env uri) as [wf |]; [| exact T].
  destruct (workspaceChanges_get wf wc); simpl; [exact T |].
  now apply tracked_ensure.
Qed.

Lemma getChangesMap_Some (env : Env) (uri : Uri) (wc wc' : WorkspaceChanges)
    (wf : WorkspaceFolder) :
  getChangesMap env uri wc = (Some wf, wc') ->
  trackable uri = true /\ workspace_getWorkspaceFolder env uri = Some wf.
Proof.
  unfold getChangesMap.
  destruct (trackable uri); [| discriminate].
  destruct (workspace_getWorkspaceFolder env uri) as [wf0 |]; [| discriminate].
  destruct (workspaceChanges_get wf0 wc); intros E; inversion E; now subst.
Qed.

(** A handler keeps the registry well formed when the function it applies
    to the map only adds the entry of the event's resource. *)
Lemma tracked_with_changes (env : Env) (uri : Uri) (f : Changes -> Changes)
    (wc : WorkspaceChanges) :
  (forall changes k u,
      In (k, u) (f changes) -> In (k, u) changes \/ (k, u) = (fsPath uri, uri)) ->
  tracked env wc -> tracked env (with_changes env uri f wc).
Proof.
  intros Hf T. unfold with_changes.
  pose proof (tracked_getChangesMap env uri wc T) as T'.
  destruct (getChangesMap env uri wc) as [[wf |] wc'] eqn:E; simpl in T';
    [| exact T'].
  apply getChangesMap_Some in E. destruct E as [Ht Hw].
  intros wf' changes k u Hin Hku.
  apply In_update in Hin. destruct Hin as [[_ Hin] | [Ek (c0 & Hin & ->)]].
  - exact (T' _ _ _ _ Hin Hku).
  - apply WorkspaceFolder_eqb_eq in Ek. subst wf'.
    destruct (Hf _ _ _ Hku) as [Hold | Enew].
    + exact (T' _ _ _ _ Hin Hold).
    + inversion Enew; subst. auto.
Qed.

Lemma tracked_watch (env : Env) (wc : WorkspaceChanges) (ev : WatchEvent) :
  tracked env wc -> tracked env (watch env wc ev).
Proof.
  intros T. destruct ev as [uri | uri [type |] | uri]; simpl.
  - apply tracked_with_changes; [| exact T].
    intros changes k u H. apply In_set in H. tauto.
  - unfold onDidCreate. destruct (N.eqb type FileType_File); [| exact T].
    apply tracked_with_changes; [| exact T].
    intros changes k u H. apply In_set in H. tauto.
  - exact T.
  - apply tracked_with_changes; [| exact T].
    intros changes k u H. apply In_delete in H. tauto.
Qed.

Lemma tracked_watch_all (env : Env) (evs : list WatchEvent) (wc : WorkspaceChanges) :
  tracked env wc -> tracked env (watch_all env evs wc).
Proof.
  revert wc. induction evs as [| ev evs IH]; intros wc T; simpl.
  - exact T.
  - apply IH. now apply tracked_watch.
Qed.

Lemma watch_all_app (env : Env) (evs1 evs2 : list WatchEvent) (wc : WorkspaceChanges) :
  watch_all env (evs1 ++ evs2) wc = watch_all env evs2 (watch_all env evs1 wc).
Proof. unfold watch_all. apply fold_left_app. Qed.

Lemma get_In (wf : WorkspaceFolder) (changes : Changes) (wc : WorkspaceChanges) :
  workspaceChanges_get wf wc = Some changes -> In (wf, changes) wc.
Proof.
  unfold workspaceChanges_get.
  induction wc as [| [wf' c'] wc IH]; simpl; [discriminate |].
  destruct (WorkspaceFolder_eqb wf wf') eqn:E.
  - intros H; inversion H; subst. apply WorkspaceFolder_eqb_eq in E.
    subst. now left.
  - intros H. right. now apply IH.
Qed.

Lemma changes_get_In (k : string) (u : Uri) (changes : Changes) :
  changes_get k changes = Some u -> In (k, u) changes.
Proof.
  unfold changes_get.
  induction changes as [| [k' u'] changes IH]; simpl; [discriminate |].
  destruct (String.eqb k k') eqn:E.
  - intros H; inversion H; subst. apply String.eqb_eq in E. subst. now left.
  - intros H. right. now apply IH.
Qed.

Lemma In_changes_get (k : string) (u : Uri) (changes : Changes) :
  In (k, u) changes -> exists u', changes_get k changes = Some u'.
Proof.
  unfold changes_get.
  induction changes as [| [k' u'] changes IH]; simpl; [intros [] |].
  intros [E | H].
  - inversion E; subst. rewrite String.eqb_refl. now exists u.
  - destruct (String.eqb k k'); [now exists u' | now apply IH].
Qed.

(** ** Traces *)

Lemma trace_bind {A B : Type} (m : M A) (k : A -> M B) :
  trace (bind m k)
  = (trace m ++ match outcome m with
                | Returned a => trace (k a)
                | Thrown _ => []
                end)%list.
Proof.
  destruct m as [t [a | e]]; simpl.
  - now destruct (k a).
  - now rewrite app_nil_r.
Qed.

Lemma outcome_bind {A B : Type} (m : M A) (k : A -> M B) :
  outcome (bind m k)
  = match outcome m with
    | Returned a => outcome (k a)
    | Thrown e => Thrown e
    end.
Proof.
  destruct m as [t [a | e]]; simpl; [now destruct (k a) | reflexivity].
Qed.

Lemma mapM_to_upload (env : Env) (parameters : DeploymentParameters)
    (uris : list Uri) :
  outcome (mapM (to_upload env parameters) uris)
  = Returned (List.map (upload_of env parameters) uris)
  /\ Forall (fun o => is_ui o = true) (trace (mapM (to_upload env parameters) uris)).
Proof.
  induction uris as [| uri uris [IHo IHt]]; simpl.
  - split; [reflexivity | constructor].
  - destruct (mapM (to_upload env parameters) uris) as [t r].
    simpl in IHo, IHt. subst r. simpl. split; [reflexivity |].
    constructor; [reflexivity |]. now rewrite app_nil_r.
Qed.

Lemma do_putFiles_trace (env : Env) (files : list Transfer) (o : Op) :
  In o (trace (do_putFiles env files)) -> o = op_putFiles files 5.
Proof.
  unfold do_putFiles, getClient, getConnection.
  destruct (instance_getConnection env) as [connection |]; simpl; [| tauto].
  destruct (client connection) as [c |]; simpl; [| tauto].
  destruct (putFiles c files); simpl; intros [E | []]; now symmetry.
Qed.

Lemma deployChanged_putFiles (env : Env) (parameters : DeploymentParameters)
    (wc : WorkspaceChanges) (files : list Transfer) (n : nat) :
  In (op_putFiles files n) (trace (deployChanged env parameters wc)) ->
  exists changes,
    workspaceChanges_get (workspaceFolder parameters) wc = Some changes
    /\ files = changed_transfers env parameters changes.
Proof.
  unfold deployChanged.
  destruct (workspaceChanges_get (workspaceFolder parameters) wc)
    as [changes |]; [| intros []].
  destruct (0 <? JSMap.size changes)%nat; [| intros []].
  rewrite trace_bind.
  destruct (mapM_to_upload env parameters (changedFiles env parameters changes))
    as [Ho Ht].
  rewrite Ho. intros H. apply in_app_or in H. destruct H as [H | H].
  - rewrite Forall_forall in Ht. apply Ht in H. discriminate.
  - apply do_putFiles_trace in H. inversion H; subst.
    exists changes. split; [reflexivity |].
    unfold changed_transfers. now rewrite map_map.
Qed.

Lemma changed_transfers_local (env : Env) (parameters : DeploymentParameters)
    (changes : Changes) (p : string) :
  In p (List.map local (changed_transfers env parameters changes)) ->
  exists k uri, In (k, uri) changes /\ p = fsPath uri.
Proof.
  unfold changed_transfers, changedFiles. rewrite map_map. simpl.
  intros H. apply in_map_iff in H. destruct H as (uri & <- & H).
  apply filter_In in H. destruct H as [H _].
  unfold JSMap.values in H. apply in_map_iff in H.
  destruct H as ([k u] & E & H). simpl in E. subst u.
  now exists k, uri.
Qed.

(** ** The change tracker: what is pending *)

Lemma recorded_tracked (env : Env) (wc : WorkspaceChanges) (p : string) (uri : Uri) :
  tracked env wc -> recorded p uri wc ->
  p = fsPath uri /\ trackable uri = true.
Proof.
  intros T (wf & changes & Hwf & Hin).
  destruct (T _ _ _ _ Hwf Hin) as (E & Ht & _). now split.
Qed.

Lemma not_recorded_after_delete (env : Env) (wc : WorkspaceChanges)
    (uri : Uri) (p : string) :
  tracked env wc -> ~ recorded p uri (watch env wc (DidDelete uri)).
Proof.
  intros T (wf & changes & Hwf & Hin). simpl in Hwf.
  unfold onDidDelete, with_changes in Hwf.
  pose proof (tracked_getChangesMap env uri wc T) as T'.
  destruct (getChangesMap env uri wc) as [[wf0 |] wc'] eqn:E; simpl in T'.
  - destruct (getChangesMap_Some _ _ _ _ _ E) as [Ht Hw].
    apply In_update in Hwf.
    destruct Hwf as [[Ek Hwf] | [Ek (c0 & Hwf & ->)]].
    + destruct (T' _ _ _ _ Hwf Hin) as (_ & _ & Hw').
      rewrite Hw in Hw'. inversion Hw'; subst.
      now rewrite WorkspaceFolder_eqb_refl in Ek.
    + apply In_delete in Hin. destruct Hin as [Hin Ek'].
      destruct (T' _ _ _ _ Hwf Hin) as (-> & _ & _).
      now rewrite String.eqb_refl in Ek'.
  - destruct (T' _ _ _ _ Hwf Hin) as (_ & Ht & Hw).
    unfold getChangesMap in E. rewrite Ht, Hw in E.
    destruct (workspaceChanges_get wf wc); discriminate.
Qed.

(** C9. Starting from the empty registry, after any sequence of watch
    events: an entry of the pending map is keyed by the [fsPath] of its
    resource, never lies under the [.git] directory and never has the
    scheme [member] or [streamfile]; a creation whose [stat] does not
    report a regular file (a directory, or a rejected [stat]) leaves the
    registry as it was, and one that reports a regular file makes a
    trackable resource pending; after a deletion no entry of the deleted
    resource is left, and the map of its folder has no entry at its
    path. *)
Theorem C9_change_tracker_invariant (env : Env) (evs : list WatchEvent) :
  let wc := watch_all env evs [] in
  (forall p uri,
      recorded p uri wc ->
      p = fsPath uri
      /\ under_vcs_directory p = false
      /\ array_includes invalidFs (scheme uri) = false)
  /\ (forall uri type,
         type <> Some FileType_File -> watch env wc (DidCreate uri type) = wc)
  /\ (forall uri wf,
         trackable uri = true ->
         workspace_getWorkspaceFolder env uri = Some wf ->
         is_pending wf uri (watch env wc (DidCreate uri (Some FileType_File))))
  /\ (forall uri p, ~ recorded p uri (watch env wc (DidDelete uri)))
  /\ (forall uri wf,
         trackable uri = true ->
         workspace_getWorkspaceFolder env uri = Some wf ->
         exists changes,
           workspaceChanges_get wf (watch env wc (DidDelete uri)) = Some changes
           /\ changes_get (fsPath uri) changes = None).
Proof.
  intros wc.
  assert (T : tracked env wc)
    by (apply tracked_watch_all, tracked_empty).
  repeat split.
  - now destruct (recorded_tracked env wc p uri T H).
  - destruct (recorded_tracked env wc p uri T H) as [-> Ht].
    destruct (under_vcs_directory (fsPath uri)) eqn:E; [| reflexivity].
    apply under_vcs_directory_includes in E.
    apply trackable_inv in Ht. destruct Ht as [_ Ht]. congruence.
  - destruct (recorded_tracked env wc p uri T H) as [_ Ht].
    now apply trackable_inv in Ht.
  - intros uri [type |] H; simpl; [| reflexivity].
    unfold onDidCreate. destruct (N.eqb type FileType_File) eqn:E; [| reflexivity].
    apply N.eqb_eq in E. now subst.
  - intros uri wf Ht Hw. simpl. unfold onDidCreate. simpl.
    unfold is_pending. rewrite (with_changes_get env uri _ wc wf Ht Hw).
    eexists. split; [reflexivity |]. apply get_set. apply String.eqb_refl.
  - intros uri p. now apply not_recorded_after_delete.
  - intros uri wf Ht Hw. simpl. unfold onDidDelete.
    rewrite (with_changes_get env uri _ wc wf Ht Hw).
    eexists. split; [reflexivity |]. apply get_delete.
Qed.

Lemma pending_recorded (wf : WorkspaceFolder) (wc : WorkspaceChanges) (p : string) :
  In p (pending wf wc) -> exists uri, recorded p uri wc.
Proof.
  unfold pending.
  destruct (workspaceChanges_get wf wc) as [changes |] eqn:E; [| intros []].
  unfold JSMap.keys. intros H. apply in_map_iff in H.
  destruct H as ([k u] & Ek & H). simpl in Ek. subst k.
  exists u, wf, changes. split; [now apply get_In | exact H].
Qed.

Lemma watch_dropped (env : Env) (wc : WorkspaceChanges) (ev : WatchEvent) :
  trackable (event_uri ev) = false -> watch env wc ev = wc.
Proof.
  destruct ev as [uri | uri [type |] | uri]; simpl; intros H.
  - now apply with_changes_dropped.
  - unfold onDidCreate. destruct (N.eqb type FileType_File); [| reflexivity].
    now apply with_changes_dropped.
  - reflexivity.
  - now apply with_changes_dropped.
Qed.

(** C10. A resource whose path contains [.git] anywhere: every watch
    event about it leaves the registry as it was, its path is never
    pending, and no [putFiles] of the "changed" strategy holds it. *)
Theorem C10_git_substring_never_pending (env : Env) (uri : Uri) :
  includes (fsPath uri) ".git" = true ->
  (forall ev wc, event_uri ev = uri -> watch env wc ev = wc)
  /\ (forall evs wf, ~ In (fsPath uri) (pending wf (watch_all env evs [])))
  /\ (forall evs parameters files n,
         In (op_putFiles files n)
            (trace (deployChanged env parameters (watch_all env evs []))) ->
         ~ In (fsPath uri) (List.map local files)).
Proof.
  intros Hgit.
  assert (T : forall evs, tracked env (watch_all env evs []))
    by (intros evs; apply tracked_watch_all, tracked_empty).
  repeat split.
  - intros ev wc <-. apply watch_dropped. now apply not_trackable_git.
  - intros evs wf H. apply pending_recorded in H. destruct H as [u H].
    destruct (recorded_tracked env _ _ _ (T evs) H) as [E Ht].
    apply trackable_inv in Ht. destruct Ht as [_ Ht]. congruence.
  - intros evs parameters files n H Hin.
    apply deployChanged_putFiles in H. destruct H as (changes & Hget & ->).
    apply changed_transfers_local in Hin. destruct Hin as (k & u & Hin & E).
    apply get_In in Hget.
    destruct (T evs _ _ _ _ Hget Hin) as (_ & Ht & _).
    apply trackable_inv in Ht. destruct Ht as [_ Ht]. congruence.
Qed.

Lemma C10_notes_gitbook :
  includes (fsPath Sample.notes_gitbook) ".git" = true
  /\ watch Sample.online [] (DidChange Sample.notes_gitbook) = [].
Proof.
  split; [reflexivity |].
  apply (C10_git_substring_never_pending Sample.online Sample.notes_gitbook);
    reflexivity.
Defined.

(** A session of the watcher on the sample workspace: a folder is
    created, a file of [.git] and a source member change, [a.txt] and
    [b.txt] change, [a.txt] is deleted, and [notes.gitbook] is created as
    a regular file.  Only [b.txt] is pending. *)
Example tracker_session :
  watch_all Sample.online
    [ DidCreate (Sample.file "/w/src") (Some FileType_Directory);
      DidChange Sample.git_config;
      DidChange Sample.member;
      DidChange Sample.a_txt;
      DidChange Sample.b_txt;
      DidDelete Sample.a_txt;
      DidCreate Sample.notes_gitbook (Some FileType_File) ]
    []
  = [(Sample.folder, [("/w/b.txt", Sample.b_txt)])].
Proof. reflexivity. Qed.

(** ** The orchestrator and the registry *)

Lemma deploy_result (env : Env) (parameters : DeploymentParameters)
    (before during : list WatchEvent) (wc : WorkspaceChanges) :
  run_result (deploy env parameters before during wc)
  = match outcome (deploy_try env parameters (watch_all env before wc)) with
    | Returned _ => true
    | Thrown _ => false
    end.
Proof.
  unfold deploy.
  now destruct (deploy_try env parameters (watch_all env before wc)) as [t [[] | e]].
Qed.

Lemma deploy_changes (env : Env) (parameters : DeploymentParameters)
    (before during : list WatchEvent) (wc : WorkspaceChanges) :
  run_changes (deploy env parameters before during wc)
  = if run_result (deploy env parameters before during wc)
    then clear_changes (workspaceFolder parameters)
           (watch_all env (before ++ during) wc)
    else watch_all env (before ++ during) wc.
Proof.
  unfold deploy. rewrite watch_all_app.
  now destruct (deploy_try env parameters (watch_all env before wc)) as [t [[] | e]].
Qed.

Lemma deploy_trace_snapshot (env : Env) (parameters : DeploymentParameters)
    (before during : list WatchEvent) (wc : WorkspaceChanges) :
  run_trace (deploy env parameters before during wc)
  = run_trace (deploy env parameters before [] wc)
  /\ run_result (deploy env parameters before during wc)
     = run_result (deploy env parameters before [] wc).
Proof.
  unfold deploy.
  now destruct (deploy_try env parameters (watch_all env before wc)) as [t [[] | e]].
Qed.

Lemma pending_clear (wf : WorkspaceFolder) (wc : WorkspaceChanges) :
  pending wf (clear_changes wf wc) = [].
Proof.
  unfold pending, clear_changes, workspaceChanges_get.
  rewrite get_update. now destruct (JSMap.get WorkspaceFolder_eqb wf wc).
Qed.

Lemma get_clear_other (wf wf' : WorkspaceFolder) (wc : WorkspaceChanges) :
  wf' <> wf ->
  workspaceChanges_get wf' (clear_changes wf wc) = workspaceChanges_get wf' wc.
Proof.
  intros Hne. unfold workspaceChanges_get, clear_changes.
  induction wc as [| [k c] wc IH]; simpl; [reflexivity |].
  destruct (WorkspaceFolder_eqb wf k) eqn:E; simpl.
  - apply WorkspaceFolder_eqb_eq in E. subst k.
    destruct (WorkspaceFolder_eqb wf' wf) eqn:E'; [| exact IH].
    apply WorkspaceFolder_eqb_eq in E'. contradiction.
  - destruct (WorkspaceFolder_eqb wf' k); [reflexivity | exact IH].
Qed.

(** C4. The registry after a call of [deploy] is the registry with the
    events that arrived meanwhile, with the map of the deployed folder
    emptied exactly when the call returns [true]; it returns [true]
    exactly when nothing was thrown.  A successful call leaves no pending
    path for the folder and does not touch the maps of the other folders;
    a failed call with no event meanwhile leaves the registry as it
    was. *)
Theorem C4_changes_cleared_on_success (env : Env)
    (parameters : DeploymentParameters) (before during : list WatchEvent)
    (wc : WorkspaceChanges) :
  let wf := workspaceFolder parameters in
  let r := deploy env parameters before during wc in
  let arrived := watch_all env (before ++ during) wc in
  run_changes r = (if run_result r then clear_changes wf arrived else arrived)
  /\ (run_result r = true <->
      exists t, deploy_try env parameters (watch_all env before wc) = (t, Returned tt))
  /\ (run_result r = true ->
      pending wf (run_changes r) = []
      /\ forall wf', wf' <> wf ->
           workspaceChanges_get wf' (run_changes r)
           = workspaceChanges_get wf' arrived)
  /\ (run_result r = false -> run_changes r = arrived)
  /\ (run_result (deploy env parameters [] [] wc) = false ->
      run_changes (deploy env parameters [] [] wc) = wc).
Proof.
  intros wf r arrived.
  assert (Hc : run_changes r
               = if run_result r then clear_changes wf arrived else arrived)
    by apply deploy_changes.
  split; [exact Hc |]. split; [| split; [| split]].
  - unfold r. rewrite deploy_result.
    destruct (deploy_try env parameters (watch_all env before wc)) as [t [[] | e]];
      simpl; split; intros H; try discriminate.
    + now exists t.
    + reflexivity.
    + destruct H as [t' H]. discriminate.
  - intros H. rewrite Hc, H. split; [apply pending_clear |].
    intros wf' Hne. now apply get_clear_other.
  - intros H. now rewrite Hc, H.
  - intros H. rewrite deploy_changes, H. reflexivity.
Qed.

Lemma C4_successful_run :
  pending Sample.folder
    (run_changes
       (deploy Sample.online (Sample.parameters method_changed "/r") [] []
          Sample.a_pending))
  = [].
Proof.
  apply (C4_changes_cleared_on_success Sample.online
           (Sample.parameters method_changed "/r") [] [] Sample.a_pending).
  reflexivity.
Defined.

(** ** Events that arrive during a deployment *)

Lemma is_pending_watch (env : Env) (wc : WorkspaceChanges) (ev : WatchEvent)
    (wf : WorkspaceFolder) :
  records ev = true ->
  trackable (event_uri ev) = true ->
  workspace_getWorkspaceFolder env (event_uri ev) = Some wf ->
  is_pending wf (event_uri ev) (watch env wc ev).
Proof.
  destruct ev as [uri | uri [type |] | uri]; simpl; intros Hr Ht Hw;
    try discriminate; unfold onDidChange, onDidCreate, is_pending;
    try rewrite Hr;
    rewrite (with_changes_get env uri _ wc wf Ht Hw);
    (eexists; split; [reflexivity |]; apply get_set; apply String.eqb_refl).
Qed.

Lemma C3_event_lost_on_success : ~ event_survives_deployment.
Proof.
  intros H.
  specialize (H Sample.online (Sample.parameters method_changed "/r")
                [] [] Sample.a_pending (DidChange Sample.c_txt)
                eq_refl eq_refl eq_refl).
  destruct H as (changes & Hget & Hc).
  vm_compute in Hget. inversion Hget; subst. discriminate.
Qed.

(** The registry stays well formed through a deployment: the final
    [clear] only removes entries. *)
Lemma tracked_deploy (env : Env) (parameters : DeploymentParameters)
    (before during : list WatchEvent) (wc : WorkspaceChanges) :
  tracked env wc ->
  tracked env (run_changes (deploy env parameters before during wc)).
Proof.
  intros T. rewrite deploy_changes.
  assert (T' : tracked env (watch_all env (before ++ during) wc))
    by now apply tracked_watch_all.
  destruct (run_result _); [| exact T'].
  intros wf changes k u Hin Hku. unfold clear_changes in Hin.
  apply In_update in Hin. destruct Hin as [[_ Hin] | [_ (c0 & _ & ->)]].
  - exact (T' _ _ _ _ Hin Hku).
  - destruct Hku.
Qed.

Lemma do_sendCommand_trace (env : Env) (directory : option string)
    (command : string) (o : Op) :
  In o (trace (do_sendCommand env directory command)) ->
  o = op_sendCommand directory command.
Proof.
  unfold do_sendCommand, getConnection.
  destruct (instance_getConnection env) as [connection |]; simpl; [| tauto].
  destruct (sendCommand connection directory command); simpl;
    intros [E | []]; now symmetry.
Qed.

Lemma deploy_transfer_in_try (env : Env) (parameters : DeploymentParameters)
    (before during : list WatchEvent) (wc : WorkspaceChanges) (o : Op) :
  is_transfer o = true ->
  In o (run_trace (deploy env parameters before during wc)) ->
  In o (trace (deploy_try env parameters (watch_all env before wc))).
Proof.
  intros Ho. unfold deploy.
  destruct (deploy_try env parameters (watch_all env before wc)) as [t [[] | e]];
    simpl; intros H; apply in_app_or in H; destruct H as [H | H]; auto;
    simpl in H; intuition (subst; discriminate).
Qed.

Lemma deploy_try_transfer (env : Env) (parameters : DeploymentParameters)
    (wc : WorkspaceChanges) (o : Op) :
  is_transfer o = true ->
  In o (trace (deploy_try env parameters wc)) ->
  In o (trace (match method parameters with
               | method_unstaged => deployGit env parameters working
               | method_staged => deployGit env parameters staged
               | method_changed => deployChanged env parameters wc
               | method_compare => deployCompare env parameters
               | method_all => deployAll env parameters
               end)).
Proof.
  intros Ho. unfold deploy_try. rewrite !trace_bind. simpl.
  intros [E | [E | H]]; try (subst; discriminate).
  apply in_app_or in H. destruct H as [H | H].
  - apply do_sendCommand_trace in H. subst. discriminate.
  - destruct (outcome (createRemoteDirectory env (remotePath parameters)));
      [| destruct H].
    apply in_app_or in H. destruct H as [H | H]; [exact H |].
    match type of H with
    | In _ (match ?x with _ => _ end) => destruct x
    end; simpl in H; intuition (subst; discriminate).
Qed.

(** C3 (amended). An event about a trackable resource of the deployed
    folder that arrives while [deploy] runs is recorded on arrival.  The
    calls and the result of the run are those of the run without the
    event: the "changed" strategy hands to [putFiles] the entries that
    were pending when the strategy started, after the remote directory
    was created.  When the run succeeds, the map of the folder is emptied
    at the end, the event included.  When the run fails the entry is
    still pending afterwards, and a later "changed" run that finds it
    pending, and whose filter accepts it, hands it to [putFiles]. *)
Theorem C3_event_during_deployment (env : Env)
    (parameters : DeploymentParameters) (before during : list WatchEvent)
    (wc : WorkspaceChanges) (ev : WatchEvent) :
  records ev = true ->
  trackable (event_uri ev) = true ->
  workspace_getWorkspaceFolder env (event_uri ev)
  = Some (workspaceFolder parameters) ->
  let wf := workspaceFolder parameters in
  let r := deploy env parameters before (during ++ [ev]) wc in
  is_pending wf (event_uri ev)
    (watch env (watch_all env (before ++ during) wc) ev)
  /\ run_trace r = run_trace (deploy env parameters before [] wc)
  /\ run_result r = run_result (deploy env parameters before [] wc)
  /\ (forall files n,
         method parameters = method_changed ->
         In (op_putFiles files n) (run_trace r) ->
         exists changes,
           workspaceChanges_get wf (watch_all env before wc) = Some changes
           /\ files = changed_transfers env parameters changes)
  /\ (run_result r = true -> pending wf (run_changes r) = [])
  /\ (run_result r = false ->
      is_pending wf (event_uri ev) (run_changes r)
      /\ forall changes,
           workspaceChanges_get wf (run_changes r) = Some changes ->
           changed_filter env parameters (event_uri ev) = true ->
           In (Upload_transfer (upload_of env parameters (event_uri ev)))
              (changed_transfers env parameters changes)).
Proof.
  intros Hr Ht Hw wf r.
  assert (Hp : is_pending wf (event_uri ev)
                 (watch env (watch_all env (before ++ during) wc) ev))
    by now apply is_pending_watch.
  split; [exact Hp |].
  split; [apply deploy_trace_snapshot |].
  split; [apply deploy_trace_snapshot |].
  split.
  - intros files n Hm H.
    apply deploy_transfer_in_try in H; [| reflexivity].
    apply deploy_try_transfer in H; [| reflexivity].
    rewrite Hm in H. now apply deployChanged_putFiles in H.
  - split.
    { intros Hok. unfold r. rewrite deploy_changes. fold r. rewrite Hok.
      apply pending_clear. }
    intros Hfail.
    assert (Hc : run_changes r
                 = watch env (watch_all env (before ++ during) wc) ev).
    { unfold r. rewrite deploy_changes. fold r. rewrite Hfail.
      rewrite app_assoc, watch_all_app. reflexivity. }
    rewrite Hc. split; [exact Hp |].
    intros changes Hget Hf.
    destruct Hp as (changes' & Hget' & Hin). fold wf in Hget'.
    rewrite Hget in Hget'. inversion Hget'; subst changes'.
    unfold changed_transfers.
    apply (in_map (fun uri => Upload_transfer (upload_of env parameters uri))).
    unfold changedFiles.
    apply filter_In. split; [| exact Hf].
    apply changes_get_In in Hin. unfold JSMap.values.
    apply in_map_iff. now exists (fsPath (event_uri ev), event_uri ev).
Qed.

Lemma C3_failed_run_keeps_event :
  is_pending Sample.folder Sample.c_txt
    (run_changes
       (deploy Sample.unreliable (Sample.parameters method_changed "/r")
          [] ([] ++ [DidChange Sample.c_txt]) Sample.a_pending)).
Proof.
  apply (C3_event_during_deployment Sample.unreliable
           (Sample.parameters method_changed "/r") [] [] Sample.a_pending
           (DidChange Sample.c_txt) eq_refl eq_refl eq_refl).
  reflexivity.
Defined.

(** A successful "changed" run: [a.txt] is pending when the run starts,
    [c.txt] changes while [putFiles] is awaited.
    The run transfers [a.txt] alone, succeeds, and leaves nothing
    pending. *)
Example changed_run_drops_late_event :
  let r := deploy Sample.online (Sample.parameters method_changed "/r")
                  [] [DidChange Sample.c_txt] Sample.a_pending in
  filter is_transfer (run_trace r)
  = [op_putFiles [ {| local := "/w/a.txt"; remote := "/r/a.txt" |} ] 5]
  /\ run_result r = true
  /\ run_changes r = [(Sample.folder, [])].
Proof. vm_compute. repeat split. Qed.

(** An event that arrives while the remote directory is being created is
    transferred by the run that is in flight. *)
Example changed_run_takes_early_event :
  let r := deploy Sample.online (Sample.parameters method_changed "/r")
                  [DidChange Sample.c_txt] [] Sample.a_pending in
  filter is_transfer (run_trace r)
  = [op_putFiles [ {| local := "/w/a.txt"; remote := "/r/a.txt" |};
                   {| local := "/w/c.txt"; remote := "/r/c.txt" |} ] 5].
Proof. vm_compute. reflexivity. Qed.

(** ** The synchronisation plan *)

Lemma compare_uploads_from (env : Env) (parameters : DeploymentParameters)
    (remoteMD5 : list MD5Entry) (files : list LocalFile) (acc : list Transfer) :
  fold_left (compare_step env parameters remoteMD5) files acc
  = (acc ++ List.map (transfer_of parameters)
                     (filter (needs_upload env remoteMD5) files))%list.
Proof.
  revert acc. induction files as [| file files IH]; intros acc; simpl.
  - now rewrite app_nil_r.
  - rewrite IH. unfold compare_step, needs_upload at 2.
    destruct (find_remote remoteMD5 file) as [e |]; simpl.
    + destruct (String.eqb (md5 e) (md5Hash env (lf_uri file))); simpl;
        [reflexivity | now rewrite <- app_assoc].
    + now rewrite <- app_assoc.
Qed.

Lemma compare_uploads_filter (env : Env) (parameters : DeploymentParameters)
    (files : list LocalFile) (remoteMD5 : list MD5Entry) :
  compare_uploads env parameters files remoteMD5
  = List.map (transfer_of parameters) (filter (needs_upload env remoteMD5) files).
Proof. unfold compare_uploads. now rewrite compare_uploads_from. Qed.

Lemma find_remote_None (remoteMD5 : list MD5Entry) (file : LocalFile) :
  find_remote remoteMD5 file = None
  <-> (forall e, In e remoteMD5 -> md5_path e <> lf_path file).
Proof.
  unfold find_remote. split.
  - intros H e He Heq.
    pose proof (find_none _ _ H e He) as Hn. simpl in Hn.
    rewrite Heq, String.eqb_refl in Hn. discriminate.
  - intros H. induction remoteMD5 as [| e r IH]; simpl; [reflexivity |].
    destruct (String.eqb (md5_path e) (lf_path file)) eqn:E.
    + apply String.eqb_eq in E. elim (H e (or_introl eq_refl) E).
    + apply IH. intros e' He'. apply H. now right.
Qed.

Lemma find_remote_Some (remoteMD5 : list MD5Entry) (file : LocalFile)
    (e : MD5Entry) :
  find_remote remoteMD5 file = Some e ->
  In e remoteMD5 /\ md5_path e = lf_path file.
Proof.
  unfold find_remote. intros H. apply find_some in H.
  destruct H as [H E]. now apply String.eqb_eq in E.
Qed.


Lemma compare_toDelete_In (files : list LocalFile) (remoteMD5 : list MD5Entry)
    (p : string) :
  In p (compare_toDelete files remoteMD5)
  <-> exists e, In e remoteMD5 /\ md5_path e = p
                /\ forall file, In file files -> lf_path file <> p.
Proof.
  unfold compare_toDelete. rewrite in_map_iff. split.
  - intros (e & <- & H). apply filter_In in H. destruct H as [He Hn].
    exists e. split; [exact He |]. split; [reflexivity |].
    intros file Hf Heq. apply negb_true_iff in Hn.
    assert (Ht : existsb (fun l => String.eqb (md5_path e) (lf_path l)) files = true).
    { apply existsb_exists. exists file. split; [exact Hf |].
      rewrite Heq. apply String.eqb_refl. }
    congruence.
  - intros (e & He & <- & Hn). exists e. split; [reflexivity |].
    apply filter_In. split; [exact He |]. apply negb_true_iff.
    destruct (existsb _ files) eqn:E; [| reflexivity].
    apply existsb_exists in E. destruct E as (file & Hf & Heq).
    apply String.eqb_eq in Heq. elim (Hn file Hf). now symmetry.
Qed.




Lemma filter_none {A : Type} (f : A -> bool) (l : list A) :
  (forall x, In x l -> f x = false) -> filter f l = [].
Proof.
  induction l as [| x l IH]; simpl; intros H; [reflexivity |].
  rewrite (H x (or_introl eq_refl)). apply IH. intros y Hy. apply H. now right.
Qed.

Lemma same_mapping_no_upload (env : Env) (parameters : DeploymentParameters)
    (files : list LocalFile) (remoteMD5 : list MD5Entry) :
  is_mapping (local_hashes env files) ->
  same_mapping (local_hashes env files) (remote_hashes remoteMD5) ->
  compare_uploads env parameters files remoteMD5 = [].
Proof.
  intros Hmap Hsame. rewrite compare_uploads_filter.
  replace (filter (needs_upload env remoteMD5) files) with (@nil LocalFile);
    [reflexivity |].
  symmetry. apply filter_none. intros file Hf.
  assert (Hl : In (lf_path file, md5Hash env (lf_uri file))
                  (local_hashes env files)).
  { unfold local_hashes. apply in_map_iff. now exists file. }
  unfold needs_upload.
  destruct (find_remote remoteMD5 file) as [e |] eqn:E.
  - apply find_remote_Some in E. destruct E as [He Hp].
    assert (Hr : In (md5_path e, md5 e) (remote_hashes remoteMD5)).
    { unfold remote_hashes. apply in_map_iff. now exists e. }
    apply Hsame in Hr. rewrite Hp in Hr.
    now rewrite (Hmap _ _ _ Hr Hl), String.eqb_refl.
  - apply Hsame in Hl. unfold remote_hashes in Hl. apply in_map_iff in Hl.
    destruct Hl as (e & Heq & He). inversion Heq.
    elim (proj1 (find_remote_None remoteMD5 file) E e He). assumption.
Qed.

Lemma same_mapping_no_deletion (env : Env) (files : list LocalFile)
    (remoteMD5 : list MD5Entry) :
  same_mapping (local_hashes env files) (remote_hashes remoteMD5) ->
  compare_toDelete files remoteMD5 = [].
Proof.
  intros Hsame. unfold compare_toDelete.
  replace (filter _ remoteMD5) with (@nil MD5Entry); [reflexivity |].
  symmetry. apply filter_none. intros e He. apply negb_false_iff.
  assert (Hr : In (md5_path e, md5 e) (remote_hashes remoteMD5)).
  { unfold remote_hashes. apply in_map_iff. now exists e. }
  apply Hsame in Hr. unfold local_hashes in Hr. apply in_map_iff in Hr.
  destruct Hr as (file & Heq & Hf). inversion Heq.
  apply existsb_exists. exists file. split; [exact Hf |].
  apply String.eqb_refl.
Qed.



(** ** Bulk transfer *)

Lemma deployAll_tick_run (t : TickCall) :
  exists tr,
    deployAll_tick t = (tr, Returned tt) /\ Forall (fun o => is_ui o = true) tr.
Proof.
  unfold deployAll_tick. destruct (tick_error t); simpl; eexists;
    (split; [reflexivity | repeat constructor]).
Qed.

Lemma mapM_deployAll_tick (ticks : list TickCall) :
  (exists done, outcome (mapM deployAll_tick ticks) = Returned done)
  /\ Forall (fun o => is_ui o = true) (trace (mapM deployAll_tick ticks)).
Proof.
  induction ticks as [| t ticks [[done IHo] IHt]]; simpl.
  - split; [now eexists | constructor].
  - destruct (deployAll_tick_run t) as (tr & -> & Ht).
    destruct (mapM deployAll_tick ticks) as [tr' r]. simpl in IHo, IHt.
    subst r. simpl. split; [now eexists |].
    rewrite app_nil_r. apply Forall_app. now split.
Qed.

Lemma is_ui_not_command (o : Op) : is_ui o = true -> is_remote_command o = false.
Proof. now destruct o. Qed.

Lemma is_ui_not_transfer (o : Op) : is_ui o = true -> is_transfer o = false.
Proof. now destruct o. Qed.

(** The calls of [deployAll]: the announcement, then, for an absolute
    target and a connected client, the directory transfer with the lines
    of its [tick]s and the closing report. *)
Lemma deployAll_trace (env : Env) (parameters : DeploymentParameters) (o : Op) :
  In o (trace (deployAll env parameters)) ->
  is_ui o = true
  \/ (o = op_putDirectory (fsPath (wf_uri (workspaceFolder parameters)))
                          (remotePath parameters) true 5
      /\ startsWith (remotePath parameters) "/" = true).
Proof.
  unfold deployAll. rewrite !trace_bind. simpl.
  intros [<- | [<- | H]]; [now left | now left |].
  destruct (startsWith (remotePath parameters) "/"); simpl in H.
  - unfold getClient, getConnection in *.
    destruct (instance_getConnection env) as [connection |]; simpl in H.
    + destruct (client connection) as [c |]; simpl in H.
      * destruct (putDirectory c _ _ _) as [ticks settled].
        destruct (mapM_deployAll_tick ticks) as [[done Ho] Ht].
        destruct (mapM deployAll_tick ticks) as [tr r]. simpl in Ho, Ht.
        subst r. rewrite Forall_forall in Ht.
        destruct settled as [b | e]; simpl in H;
          (destruct H as [<- | H]; [right; now split |]);
          left; rewrite ?app_nil_r in H;
          (apply in_app_or in H; destruct H as [H | H];
           [now apply Ht | simpl in H; intuition (subst; reflexivity)]).
      * left. intuition (subst; reflexivity).
    + left. intuition (subst; reflexivity).
  - left. intuition (subst; reflexivity).
Qed.

Lemma deployAll_no_command (env : Env) (parameters : DeploymentParameters) :
  filter is_remote_command (trace (deployAll env parameters)) = [].
Proof.
  apply filter_none. intros o H. apply deployAll_trace in H.
  destruct H as [H | (-> & _)]; [now apply is_ui_not_command | reflexivity].
Qed.

Lemma deployAll_putDirectory (env : Env) (parameters : DeploymentParameters)
    (connection : Connection) (c : Client) :
  instance_getConnection env = Some connection ->
  client connection = Some c ->
  startsWith (remotePath parameters) "/" = true ->
  In (op_putDirectory (fsPath (wf_uri (workspaceFolder parameters)))
                      (remotePath parameters) true 5)
     (trace (deployAll env parameters)).
Proof.
  intros Hc Hcl Habs. unfold deployAll, getClient, getConnection.
  rewrite Habs, Hc. simpl. rewrite Hcl. simpl.
  destruct (putDirectory c _ _ _) as [ticks settled].
  destruct (mapM deployAll_tick ticks) as [tr [done | e]];
    destruct settled; simpl; auto.
Qed.

Lemma deployAll_validate_false (env : Env) (parameters : DeploymentParameters)
    (localPath : string) :
  deployAll_validate env parameters localPath = false ->
  exists rules,
    ignoreRules parameters = Some rules
    /\ ignores env rules
         (path_relative env (fsPath (wf_uri (workspaceFolder parameters)))
                        localPath) = true.
Proof.
  unfold deployAll_validate.
  destruct (truthy _); [| discriminate].
  destruct (ignoreRules parameters) as [rules |]; [| discriminate].
  intros H. apply negb_false_iff in H. now exists rules.
Qed.

(** C2. When the [md5sum] feature is present and [ls | wc -l] answers
    [0], [deployCompare] is that one command, one log line and then
    [deployAll]: same outcome, no other remote command (in particular no
    hash listing), the directory transfer is started for an absolute
    target, and the predicate it receives rejects only ignored paths. *)
Theorem C2_empty_remote_delegates (env : Env) (parameters : DeploymentParameters)
    (connection : Connection) (lsOut : CommandResult) :
  instance_getConnection env = Some connection ->
  remoteFeatures_md5sum connection = true ->
  sendCommand connection (Some (remotePath parameters)) "ls | wc -l"
  = Returned lsOut ->
  stdout lsOut = "0" ->
  let ls := op_sendCommand (Some (remotePath parameters)) "ls | wc -l" in
  deployCompare env parameters
  = (emit ls ;;
     emit (op_deploymentLog_appendLine
             "Remote directory is empty; switching to 'deploy all'") ;;
     deployAll env parameters)
  /\ outcome (deployCompare env parameters) = outcome (deployAll env parameters)
  /\ filter is_remote_command (trace (deployCompare env parameters)) = [ls]
  /\ (forall directory,
         ~ In (op_sendCommand directory md5sum_command)
              (trace (deployCompare env parameters)))
  /\ (forall c,
         client connection = Some c ->
         startsWith (remotePath parameters) "/" = true ->
         In (op_putDirectory (fsPath (wf_uri (workspaceFolder parameters)))
                             (remotePath parameters) true 5)
            (trace (deployCompare env parameters)))
  /\ (forall localPath,
         deployAll_validate env parameters localPath = false ->
         exists rules,
           ignoreRules parameters = Some rules
           /\ ignores env rules
                (path_relative env (fsPath (wf_uri (workspaceFolder parameters)))
                               localPath) = true).
Proof.
  intros Hc Hmd5 Hls Hzero ls.
  assert (E : deployCompare env parameters
              = (emit ls ;;
                 emit (op_deploymentLog_appendLine
                         "Remote directory is empty; switching to 'deploy all'") ;;
                 deployAll env parameters)).
  { unfold deployCompare, do_sendCommand, getConnection.
    rewrite Hc. simpl. rewrite Hmd5, Hls. simpl. rewrite Hzero. simpl.
    now destruct (deployAll env parameters). }
  split; [exact E |]. rewrite E.
  assert (T : trace (emit ls ;;
                     emit (op_deploymentLog_appendLine
                             "Remote directory is empty; switching to 'deploy all'") ;;
                     deployAll env parameters)
              = ls :: op_deploymentLog_appendLine
                        "Remote directory is empty; switching to 'deploy all'"
                   :: trace (deployAll env parameters)).
  { simpl. now destruct (deployAll env parameters). }
  rewrite T. split; [| split; [| split; [| split]]].
  - simpl. now destruct (deployAll env parameters).
  - simpl. now rewrite deployAll_no_command.
  - intros directory [H | [H | H]]; try discriminate.
    apply deployAll_trace in H. destruct H as [H | [H _]]; discriminate.
  - intros c Hcl Habs. right. right.
    now apply (deployAll_putDirectory env parameters connection c).
  - apply deployAll_validate_false.
Qed.

Lemma C2_empty_directory_run :
  filter is_remote_command
    (trace (deployCompare
              (Sample.env (Some (Sample.connection "0" EmptyString)) None []
                          Sample.digest)
              (Sample.parameters method_compare "/r")))
  = [op_sendCommand (Some "/r") "ls | wc -l"].
Proof.
  apply (C2_empty_remote_delegates
           (Sample.env (Some (Sample.connection "0" EmptyString)) None []
                       Sample.digest)
           (Sample.parameters method_compare "/r")
           (Sample.connection "0" EmptyString)
           {| code := Some 0; stdout := "0"; stderr := EmptyString |});
    reflexivity.
Defined.

(** C8. With a target that does not start with [/], [deployAll] throws
    [Invalid deployment path] after the announcement and one log line,
    without any transfer; a deployment with the strategy "all" then
    fails, and its run holds no transfer either. *)
Theorem C8_relative_target_rejected (env : Env)
    (parameters : DeploymentParameters) :
  startsWith (remotePath parameters) "/" = false ->
  let name := path_basename env (path (wf_uri (workspaceFolder parameters))) in
  deployAll env parameters
  = ([op_withProgress ("Deploying " ++ name);
      op_progress_report (Some ("Deploying " ++ name)) None;
      op_deploymentLog_appendLine
        "Deployment cancelled. Not sure where to deploy workspace."],
     Thrown (Error "Invalid deployment path"))
  /\ filter is_transfer (trace (deployAll env parameters)) = []
  /\ (forall before during wc,
         method parameters = method_all ->
         run_result (deploy env parameters before during wc) = false
         /\ filter is_transfer
              (run_trace (deploy env parameters before during wc)) = []).
Proof.
  intros Hrel name.
  assert (E : deployAll env parameters
              = ([op_withProgress ("Deploying " ++ name);
                  op_progress_report (Some ("Deploying " ++ name)) None;
                  op_deploymentLog_appendLine
                    "Deployment cancelled. Not sure where to deploy workspace."],
                 Thrown (Error "Invalid deployment path"))).
  { unfold deployAll. now rewrite Hrel. }
  split; [exact E |]. split; [now rewrite E |].
  intros before during wc Hm. split.
  - rewrite deploy_result. unfold deploy_try. rewrite !outcome_bind. simpl.
    destruct (outcome (createRemoteDirectory env (remotePath parameters)));
      [| reflexivity].
    rewrite Hm, E. reflexivity.
  - apply filter_none. intros o H.
    destruct (is_transfer o) eqn:Ho; [| reflexivity].
    apply deploy_transfer_in_try in H; [| exact Ho].
    apply deploy_try_transfer in H; [| exact Ho].
    rewrite Hm, E in H. simpl in H.
    intuition (subst; discriminate).
Qed.

Lemma C8_relative_path :
  startsWith "relative/path" "/" = false
  /\ outcome (deployAll Sample.online (Sample.parameters method_all "relative/path"))
     = Thrown (Error "Invalid deployment path")
  /\ filter is_transfer
       (run_trace (deploy Sample.online
                     (Sample.parameters method_all "relative/path") [] [] []))
     = [].
Proof.
  split; [reflexivity |].
  destruct (C8_relative_target_rejected Sample.online
              (Sample.parameters method_all "relative/path") eq_refl)
    as (E & _ & H).
  split; [now rewrite E | now apply H].
Defined.

(** ** The git strategy *)

Lemma gitFiles_In (repository : Repository) (changeType : ChangeType)
    (change : Change) :
  In change (gitFiles repository changeType)
  <-> In change (changes_of repository changeType)
      /\ status change <> Status_DELETED.
Proof.
  unfold gitFiles, changes_of. rewrite filter_In. unfold not_deleted.
  rewrite negb_true_iff, N.eqb_neq. now destruct changeType.
Qed.

(** The runs of [deployGit] once a repository is selected. *)
Lemma deployGit_selected (env : Env) (parameters : DeploymentParameters)
    (changeType : ChangeType) (gitApi : GitAPI) (repository : Repository) :
  Tools_getGitAPI env = Some gitApi ->
  find_repository parameters gitApi = Some repository ->
  deployGit env parameters changeType
  = match gitFiles repository changeType with
    | [] =>
        emit (op_showWarningMessage
                ("No " ++ ChangeType_toString changeType ++ " changes to deploy."))
    | files =>
        uploads <- mapM (fun change => to_upload env parameters (change_uri change))
                        files ;;
        emit (op_showInformationMessage
                ("Deploying " ++ ChangeType_toString changeType
                 ++ " changes (" ++ of_nat (List.length uploads)
                 ++ ") to " ++ remotePath parameters)) ;;
        if startsWith (remotePath parameters) "/" then
          do_putFiles env (List.map Upload_transfer uploads)
        else throw (Error "Unable to determine where to upload workspace.")
    end.
Proof.
  intros Hapi Hrepo. unfold deployGit. rewrite Hapi.
  unfold find_repository in Hrepo. rewrite Hrepo.
  destruct (repositories gitApi) as [| r rs]; [discriminate |]. simpl.
  now destruct (gitFiles repository changeType).
Qed.

Lemma mapM_to_upload_changes (env : Env) (parameters : DeploymentParameters)
    (changes : list Change) :
  mapM (fun change => to_upload env parameters (change_uri change)) changes
  = mapM (to_upload env parameters) (List.map change_uri changes).
Proof.
  induction changes as [| c cs IH]; simpl; [reflexivity | now rewrite IH].
Qed.

Lemma deployGit_trace (env : Env) (parameters : DeploymentParameters)
    (changeType : ChangeType) (o : Op) :
  In o (trace (deployGit env parameters changeType)) ->
  is_ui o = true
  \/ exists gitApi repository,
       Tools_getGitAPI env = Some gitApi
       /\ find_repository parameters gitApi = Some repository
       /\ o = op_putFiles (git_transfers env parameters repository changeType) 5.
Proof.
  destruct (Tools_getGitAPI env) as [gitApi |] eqn:Hapi;
    [| unfold deployGit; rewrite Hapi; intros []].
  destruct (find_repository parameters gitApi) as [repository |] eqn:Hrepo.
  - rewrite (deployGit_selected env parameters changeType gitApi repository Hapi Hrepo).
    destruct (gitFiles repository changeType) as [| c cs] eqn:Hfiles.
    + simpl. intros [<- | []]. now left.
    + rewrite mapM_to_upload_changes, trace_bind.
      destruct (mapM_to_upload env parameters (List.map change_uri (c :: cs)))
        as [Ho Ht].
      rewrite Ho, trace_bind. simpl outcome. cbv iota.
      intros H. apply in_app_or in H. destruct H as [H | H].
      * left. rewrite Forall_forall in Ht. now apply Ht.
      * simpl in H. destruct H as [<- | H]; [now left |].
        destruct (startsWith (remotePath parameters) "/"); [| destruct H].
        apply do_putFiles_trace in H. right. exists gitApi, repository.
        split; [reflexivity |]. split; [exact Hrepo |]. subst o. f_equal.
        unfold git_transfers. rewrite Hfiles, !map_map. reflexivity.
  - unfold deployGit. rewrite Hapi.
    unfold find_repository in Hrepo. rewrite Hrepo.
    destruct (0 <? List.length (repositories gitApi))%nat; intros [].
Qed.

(** C5. In the git strategies the changes whose status is [6]
    ([Status.DELETED]) are removed before the uploads are built: the files
    handed to [putFiles] are those of the remaining changes of the
    selected repository; the strategy sends no remote command, so nothing
    is deleted remotely.  With one deleted and one other change, exactly
    the other one is handed to [putFiles]; when no change remains, the
    strategy returns normally after a warning, without any transfer. *)
Theorem C5_git_deleted_filtered (env : Env) (parameters : DeploymentParameters)
    (changeType : ChangeType) :
  (forall repository change,
      In change (gitFiles repository changeType)
      <-> In change (changes_of repository changeType)
          /\ status change <> Status_DELETED)
  /\ filter is_remote_command (trace (deployGit env parameters changeType)) = []
  /\ (forall files n,
         In (op_putFiles files n) (trace (deployGit env parameters changeType)) ->
         exists gitApi repository,
           Tools_getGitAPI env = Some gitApi
           /\ find_repository parameters gitApi = Some repository
           /\ files = git_transfers env parameters repository changeType)
  /\ (forall gitApi repository deleted modified,
         Tools_getGitAPI env = Some gitApi ->
         find_repository parameters gitApi = Some repository ->
         changes_of repository changeType = [deleted; modified] ->
         status deleted = Status_DELETED ->
         status modified <> Status_DELETED ->
         git_transfers env parameters repository changeType
         = [Upload_transfer (upload_of env parameters (change_uri modified))]
         /\ (startsWith (remotePath parameters) "/" = true ->
             (exists c, getClient env = ([], Returned c)) ->
             filter is_transfer (trace (deployGit env parameters changeType))
             = [op_putFiles
                  [Upload_transfer (upload_of env parameters (change_uri modified))]
                  5]))
  /\ (forall gitApi repository,
         Tools_getGitAPI env = Some gitApi ->
         find_repository parameters gitApi = Some repository ->
         gitFiles repository changeType = [] ->
         deployGit env parameters changeType
         = ([op_showWarningMessage
               ("No " ++ ChangeType_toString changeType ++ " changes to deploy.")],
            Returned tt)).
Proof.
  split; [intros; apply gitFiles_In |].
  split.
  { apply filter_none. intros o H. apply deployGit_trace in H.
    destruct H as [H | (g & r & _ & _ & ->)];
      [now apply is_ui_not_command | reflexivity]. }
  split.
  { intros files n H. apply deployGit_trace in H.
    destruct H as [H | (g & r & Hg & Hr & E)]; [discriminate |].
    inversion E; subst. now exists g, r. }
  split.
  - intros gitApi repository deleted modified Hapi Hrepo Hch Hdel Hmod.
    assert (Hfiles : gitFiles repository changeType = [modified]).
    { unfold gitFiles. fold (changes_of repository changeType).
      assert (E : (if match changeType with staged => true | working => false end
                   then indexChanges repository
                   else workingTreeChanges repository)
                  = changes_of repository changeType) by now destruct changeType.
      rewrite E, Hch. simpl. unfold not_deleted. rewrite Hdel. simpl.
      apply N.eqb_neq in Hmod. unfold Status_DELETED in Hmod. now rewrite Hmod. }
    split; [unfold git_transfers; now rewrite Hfiles |].
    intros Habs [c Hc].
    rewrite (deployGit_selected env parameters changeType gitApi repository
               Hapi Hrepo), Hfiles.
    simpl. rewrite Habs. unfold do_putFiles. rewrite Hc. simpl.
    reflexivity.
  - intros gitApi repository Hapi Hrepo Hfiles.
    now rewrite (deployGit_selected env parameters changeType gitApi repository
                   Hapi Hrepo), Hfiles.
Qed.

Lemma C5_deleted_and_modified :
  filter is_transfer
    (trace (deployGit SampleGit.env (Sample.parameters method_unstaged "/r")
                      working))
  = [op_putFiles [ {| local := "/w/b.txt"; remote := "/r/b.txt" |} ] 5].
Proof.
  destruct (C5_git_deleted_filtered SampleGit.env
              (Sample.parameters method_unstaged "/r") working)
    as (_ & _ & _ & H & _).
  apply (H {| repositories := [SampleGit.repository] |} SampleGit.repository
           {| change_uri := Sample.a_txt; status := Status_DELETED |}
           {| change_uri := Sample.b_txt; status := Status_MODIFIED |});
    try reflexivity.
  - discriminate.
  - now exists Sample.ssh.
Defined.

(** ** The ignore rules *)

Lemma C7_no_ignore_file_no_pattern : ~ ignore_file_always_ignored.
Proof.
  intros H. destruct (H Sample.online Sample.folder) as (_ & _ & Hin).
  vm_compute in Hin. intuition discriminate.
Qed.

(** C7 (amended). The rule set of [launchDeploy] is case-insensitive and
    starts with the pattern [.git].  When an ignore file is found, the
    lines of its content (carriage returns removed) follow, and the
    pattern of the ignore file itself comes last; when none is found,
    [.git] is the only rule. *)
Theorem C7_ignore_rules (env : Env) (folder : WorkspaceFolder) :
  let ig := launchDeploy_ignoreRules env folder in
  ignorecase ig = true
  /\ hd_error (rules ig) = Some ".git"
  /\ (gitignores env folder = [] -> rules ig = [".git"])
  /\ (forall gitignore others,
         gitignores env folder = gitignore :: others ->
         rules ig
         = ([".git"]
            ++ split_char LF
                 (replace_all_char CR EmptyString
                    (workspace_fs_readFile env gitignore))
            ++ [gitignore_pattern])%list).
Proof.
  unfold launchDeploy_ignoreRules. fold (gitignores env folder).
  destruct (gitignores env folder) as [| g rest]; simpl.
  - repeat split; try reflexivity. intros g rest H. discriminate.
  - repeat split; try reflexivity.
    + intros H. discriminate.
    + intros g' rest' H. now inversion H.
Qed.

Lemma C7_without_ignore_file :
  rules (launchDeploy_ignoreRules Sample.online Sample.folder) = [".git"].
Proof.
  apply (C7_ignore_rules Sample.online Sample.folder). reflexivity.
Defined.

(** ** The run of the synchronisation *)

Lemma mapM_silent {A B : Type} (f : A -> M B) (xs : list A) :
  (forall x, trace (f x) = []) -> trace (mapM f xs) = [].
Proof.
  intros Hf. induction xs as [| x xs IH]; simpl; [reflexivity |].
  rewrite trace_bind, Hf. simpl.
  destruct (outcome (f x)); [| reflexivity].
  rewrite trace_bind, IH. simpl.
  now destruct (outcome (mapM f xs)).
Qed.

Lemma parse_remoteMD5_silent (stdout : string) :
  trace (parse_remoteMD5 stdout) = [].
Proof.
  unfold parse_remoteMD5. apply mapM_silent. intros line.
  unfold toMD5Entry. destruct (split_spaces (trim line)) as [| p0 [| p1 ps]];
    reflexivity.
Qed.

Lemma synchronize_delete_trace (env : Env) (parameters : DeploymentParameters)
    (toDelete : list string) (o : Op) :
  In o (trace (synchronize_delete env parameters toDelete)) ->
  is_ui o = true
  \/ (toDelete <> []
      /\ o = op_sendCommand (Some (remotePath parameters))
                            ("rm -f " ++ join " " toDelete)).
Proof.
  unfold synchronize_delete. destruct toDelete as [| p ps].
  - simpl. intros [<- | []]. now left.
  - cbn [List.length Nat.ltb Nat.leb]. rewrite !trace_bind. simpl.
    intros [<- | [<- | H]]; [now left | now left |].
    apply in_app_or in H. destruct H as [H | H].
    + apply do_sendCommand_trace in H. right. now split.
    + destruct (outcome (do_sendCommand _ _ _)); destruct H.
Qed.

Lemma synchronize_upload_trace (env : Env) (uploads : list Transfer) (o : Op) :
  In o (trace (synchronize_upload env uploads)) ->
  is_ui o = true
  \/ (uploads <> []
      /\ (o = op_sendCommand None (mkdirs_command env uploads)
          \/ o = op_putFiles uploads 5)).
Proof.
  unfold synchronize_upload. destruct uploads as [| u us].
  - simpl. intros [<- | []]. now left.
  - cbn [List.length Nat.ltb Nat.leb]. rewrite !trace_bind. simpl.
    intros [<- | H]; [now left |].
    apply in_app_or in H. destruct H as [H | H].
    + apply do_sendCommand_trace in H. right. split; [discriminate | now left].
    + destruct (outcome (do_sendCommand _ _ _)); [| destruct H].
      simpl in H. destruct H as [<- | [<- | H]]; [now left | now left |].
      apply do_putFiles_trace in H. right. split; [discriminate | now right].
Qed.

(** Splitting [In o (trace (m ;; k))] into the calls of [m] and those of
    the continuation. *)
Ltac bind_step H :=
  rewrite trace_bind in H; apply in_app_or in H; destruct H as [H | H];
  [| cbn [outcome emit snd] in H; cbv beta iota in H].

(** A call emitted by the user-interface steps. *)
Ltac emitted H :=
  cbn [trace emit fst In] in H; destruct H as [<- | []]; now left.

(** The calls of the synchronisation are those of its plan: the hash
    listing, one [rm -f] for the deletions when there are any, one command
    creating the folders and one [putFiles] for the uploads when there are
    any, and the pruning of empty folders. *)
Lemma synchronize_executes_plan (env : Env) (parameters : DeploymentParameters)
    (connection : Connection) (md5sumOut : CommandResult)
    (remoteMD5 : list MD5Entry) (o : Op) :
  instance_getConnection env = Some connection ->
  sendCommand connection (Some (remotePath parameters)) md5sum_command
  = Returned md5sumOut ->
  outcome (parse_remoteMD5 (stdout md5sumOut)) = Returned remoteMD5 ->
  let plan :=
    compare_plan env parameters (localFiles env parameters) remoteMD5 in
  In o (trace (synchronize env parameters)) ->
  is_ui o = true
  \/ o = op_sendCommand (Some (remotePath parameters)) md5sum_command
  \/ (plan_deletions plan <> []
      /\ o = op_sendCommand (Some (remotePath parameters))
                            ("rm -f " ++ join " " (plan_deletions plan)))
  \/ (plan_uploads plan <> []
      /\ (o = op_sendCommand None (mkdirs_command env (plan_uploads plan))
          \/ o = op_putFiles (plan_uploads plan) 5))
  \/ o = op_sendCommand (Some (remotePath parameters)) rmdir_command.
Proof.
  intros Hc Hmd5 Hparse plan. unfold synchronize. intros H.
  assert (Hout : outcome (do_sendCommand env (Some (remotePath parameters))
                                         md5sum_command)
                 = Returned md5sumOut).
  { unfold do_sendCommand, getConnection. rewrite Hc. simpl. now rewrite Hmd5. }
  bind_step H; [emitted H |].
  bind_step H; [emitted H |].
  bind_step H; [emitted H |].
  bind_step H; [apply do_sendCommand_trace in H; auto |].
  rewrite Hout in H. cbv beta iota in H.
  bind_step H; [now rewrite parse_remoteMD5_silent in H |].
  rewrite Hparse in H. cbv beta iota in H.
  bind_step H; [emitted H |].
  bind_step H; [apply synchronize_delete_trace in H; tauto |].
  destruct (outcome (synchronize_delete _ _ _)); [| destruct H].
  bind_step H; [apply synchronize_upload_trace in H; tauto |].
  destruct (outcome (synchronize_upload _ _)); [| destruct H].
  bind_step H; [emitted H |].
  bind_step H; [apply do_sendCommand_trace in H; auto 6 |].
  destruct (outcome (do_sendCommand _ _ _)); [| destruct H].
  emitted H.
Qed.

(** With the same mapping on both sides, the synchronisation transfers
    and deletes nothing. *)
Corollary synchronize_same_mapping (env : Env) (parameters : DeploymentParameters)
    (connection : Connection) (md5sumOut : CommandResult)
    (remoteMD5 : list MD5Entry) (o : Op) :
  instance_getConnection env = Some connection ->
  sendCommand connection (Some (remotePath parameters)) md5sum_command
  = Returned md5sumOut ->
  outcome (parse_remoteMD5 (stdout md5sumOut)) = Returned remoteMD5 ->
  is_mapping (local_hashes env (localFiles env parameters)) ->
  same_mapping (local_hashes env (localFiles env parameters))
               (remote_hashes remoteMD5) ->
  In o (trace (synchronize env parameters)) ->
  is_ui o = true
  \/ o = op_sendCommand (Some (remotePath parameters)) md5sum_command
  \/ o = op_sendCommand (Some (remotePath parameters)) rmdir_command.
Proof.
  intros Hc Hmd5 Hparse Hmap Hsame H.
  apply (synchronize_executes_plan env parameters connection md5sumOut
           remoteMD5 o Hc Hmd5 Hparse) in H.
  unfold compare_plan in H. simpl in H.
  rewrite (same_mapping_no_upload env parameters _ _ Hmap Hsame) in H.
  rewrite (same_mapping_no_deletion env _ _ Hsame) in H.
  intuition congruence.
Qed.

(** The scenario of the specification, run through [deploy]: [a.txt] and
    [b.txt] locally, [a.txt] with the same hash and [c.txt] remotely. *)
Example compare_scenario_run :
  let listing := "a1  ./a.txt" ++ String LF "c3  ./c.txt" in
  let env :=
    Sample.env (Some (Sample.connection "2" listing)) None
               [Sample.a_txt; Sample.b_txt] Sample.digest in
  let r := deploy env (Sample.parameters method_compare "/r") [] [] [] in
  filter (fun o => is_remote_command o || is_transfer o) (run_trace r)
  = [ op_sendCommand None ("mkdir -p " ++ dquote ++ "/r" ++ dquote);
      op_sendCommand (Some "/r") "ls | wc -l";
      op_sendCommand (Some "/r") md5sum_command;
      op_sendCommand (Some "/r") "rm -f c.txt";
      op_sendCommand None "[ -d /r ] || mkdir -p /r";
      op_putFiles [ {| local := "/w/b.txt"; remote := "/r/b.txt" |} ] 5;
      op_sendCommand (Some "/r") rmdir_command ]
  /\ run_result r = true.
Proof. vm_compute. split; reflexivity. Qed.

(** A hash listing with a line of one field (an empty output, for a
    remote directory that holds folders only) makes [toMD5Entry] throw,
    and the deployment fails before any plan is computed. *)
Example compare_unparsable_listing :
  let env :=
    Sample.env (Some (Sample.connection "2" EmptyString)) None
               [Sample.a_txt] Sample.digest in
  let r := deploy env (Sample.parameters method_compare "/r") [] [] [] in
  run_result r = false
  /\ filter is_transfer (run_trace r) = [].
Proof. vm_compute. split; reflexivity. Qed.

(* ================================================================== *)
(** * Further properties of the deployment code *)

(** ** Parsing the hash listing *)

Lemma split_spaces_from_cons (skipping : bool) (s : string) :
  exists t ts, split_spaces_from skipping s = t :: ts.
Proof.
  revert skipping. induction s as [| c s IH]; intros skipping; simpl.
  - now eexists _, _.
  - destruct (is_space c).
    + destruct skipping; [apply IH | now eexists _, _].
    + destruct (IH false) as (t & ts & ->). now eexists _, _.
Qed.

Lemma split_no_space (skipping : bool) (q : string) :
  no_space q = true -> split_spaces_from skipping q = [q].
Proof.
  revert skipping. induction q as [| c q IH]; intros skipping H; simpl.
  - reflexivity.
  - simpl in H. apply andb_true_iff in H. destruct H as [Hc Hq].
    apply negb_true_iff in Hc. rewrite Hc. now rewrite (IH false Hq).
Qed.

(** A run of white space that is being skipped is skipped to its end. *)
Lemma split_skip (sep r : string) :
  all_space sep = true ->
  split_spaces_from true (sep ++ r) = split_spaces_from true r.
Proof.
  induction sep as [| c sep IH]; simpl; intros H; [reflexivity |].
  apply andb_true_iff in H. destruct H as [Hc Hs]. rewrite Hc. now apply IH.
Qed.

(** While a run is skipped, a field is read like a first field. *)
Lemma split_skip_field (r : string) :
  space_led r = false ->
  split_spaces_from true r = split_spaces_from false r.
Proof.
  destruct r as [| c r]; simpl; [discriminate |]. now intros ->.
Qed.

Lemma split_field (h r : string) :
  no_space h = true ->
  space_led r = true ->
  split_spaces_from false (h ++ r)
  = match r with
    | EmptyString => [h]
    | String _ r' => h :: split_spaces_from true r'
    end.
Proof.
  intros Hh Hr. induction h as [| c h IH]; simpl.
  - destruct r as [| d r]; [reflexivity |]. simpl in Hr. simpl. now rewrite Hr.
  - simpl in Hh. apply andb_true_iff in Hh. destruct Hh as [Hc Hh].
    apply negb_true_iff in Hc. rewrite Hc, (IH Hh). now destruct r.
Qed.

Lemma trimStart_no_space (s : string) : no_space s = true -> trimStart s = s.
Proof.
  destruct s as [| c s]; simpl; [reflexivity |]. intros H.
  apply andb_true_iff in H. destruct H as [Hc _].
  apply negb_true_iff in Hc. now rewrite Hc.
Qed.

Lemma trimEnd_no_space (s : string) : no_space s = true -> trimEnd s = s.
Proof.
  induction s as [| c s IH]; simpl; [reflexivity |]. intros H.
  apply andb_true_iff in H. destruct H as [Hc Hs].
  apply negb_true_iff in Hc. rewrite (IH Hs), Hc. now destruct s.
Qed.

Lemma trim_no_space (s : string) : no_space s = true -> trim s = s.
Proof.
  intros H. unfold trim. rewrite (trimStart_no_space s H).
  now apply trimEnd_no_space.
Qed.

(** The fields of a line: the first field, and the second one when the
    line has one. *)
Lemma split_two_fields (h sep q rest : string) :
  no_space h = true ->
  all_space sep = true -> sep <> EmptyString ->
  no_space q = true -> q <> EmptyString ->
  space_led rest = true ->
  exists others, split_spaces (h ++ sep ++ q ++ rest) = h :: q :: others.
Proof.
  intros Hh Hsep Hne Hq Hqne Hrest. unfold split_spaces.
  destruct sep as [| c sep]; [now elim Hne |].
  simpl in Hsep. apply andb_true_iff in Hsep. destruct Hsep as [Hc Hsep].
  rewrite (split_field h (String c sep ++ q ++ rest) Hh); [| exact Hc].
  cbn [append]. rewrite (split_skip sep _ Hsep).
  rewrite split_skip_field.
  - rewrite (split_field q rest Hq Hrest).
    destruct rest; now eexists.
  - destruct q as [| d q]; [now elim Hqne |]. simpl in *.
    apply andb_true_iff in Hq. destruct Hq as [Hd _].
    now apply negb_true_iff in Hd.
Qed.

(** X1. A line of the hash listing made of a hash, white space and a
    path yields the hash and the path without its first two characters
    (the [./] of [find]); what follows the first white space after the
    path is dropped, so a file name with a space is cut there. *)
Theorem toMD5Entry_fields (h sep q rest : string) :
  no_space h = true ->
  all_space sep = true -> sep <> EmptyString ->
  no_space q = true -> q <> EmptyString ->
  space_led rest = true ->
  toMD5Entry (h ++ sep ++ q ++ rest)
  = ret {| md5_path := substring_from 2 q; md5 := h |}.
Proof.
  intros Hh Hsep Hne Hq Hqne Hrest. unfold toMD5Entry.
  destruct (split_two_fields h sep q rest Hh Hsep Hne Hq Hqne Hrest)
    as [others ->].
  now rewrite (trim_no_space h Hh), (trim_no_space q Hq).
Qed.

Lemma toMD5Entry_md5sum_line :
  toMD5Entry "a1  ./src/a.txt"
  = ret {| md5_path := "src/a.txt"; md5 := "a1" |}
  /\ toMD5Entry "b2  ./my file.txt" = ret {| md5_path := "my"; md5 := "b2" |}.
Proof.
  split.
  - apply (toMD5Entry_fields "a1" "  " "./src/a.txt" EmptyString);
      (reflexivity || discriminate).
  - apply (toMD5Entry_fields "b2" "  " "./my" " file.txt");
      (reflexivity || discriminate).
Defined.

(** A line without white space has a single field. *)
Lemma toMD5Entry_one_field (line : string) :
  no_space line = true -> toMD5Entry line = throw undefined_trim.
Proof.
  intros H. unfold toMD5Entry, split_spaces. now rewrite (split_no_space false line H).
Qed.

Lemma toMD5Entry_outcome (line : string) :
  trace (toMD5Entry line) = []
  /\ ((exists e, outcome (toMD5Entry line) = Returned e)
      \/ outcome (toMD5Entry line) = Thrown undefined_trim).
Proof.
  unfold toMD5Entry. destruct (split_spaces line) as [| p0 [| p1 ps]]; simpl;
    split; auto. left. now eexists.
Qed.

Lemma mapM_toMD5Entry_thrown (lines : list string) (line : string) :
  In line lines -> no_space (trim line) = true ->
  outcome (mapM (fun l => toMD5Entry (trim l)) lines) = Thrown undefined_trim.
Proof.
  induction lines as [| l ls IH]; [intros [] |]. intros Hin Hns. simpl.
  rewrite outcome_bind.
  destruct (toMD5Entry_outcome (trim l)) as [_ [[e He] | He]]; rewrite He;
    [| reflexivity].
  destruct Hin as [-> | Hin].
  - rewrite (toMD5Entry_one_field _ Hns) in He. discriminate.
  - rewrite outcome_bind, (IH Hin Hns). reflexivity.
Qed.

Lemma parse_remoteMD5_thrown (stdout line : string) :
  In line (split_char LF stdout) -> no_space (trim line) = true ->
  parse_remoteMD5 stdout = ([], Thrown undefined_trim).
Proof.
  intros Hin Hns.
  pose proof (parse_remoteMD5_silent stdout) as Ht.
  pose proof (mapM_toMD5Entry_thrown _ _ Hin Hns) as Ho.
  unfold parse_remoteMD5 in *.
  destruct (mapM (fun l => toMD5Entry (trim l)) (split_char LF stdout)) as [t r].
  simpl in Ht, Ho. now subst.
Qed.

Lemma do_sendCommand_connected (env : Env) (connection : Connection)
    (directory : option string) (command : string) :
  instance_getConnection env = Some connection ->
  do_sendCommand env directory command
  = ([op_sendCommand directory command],
     sendCommand connection directory command).
Proof.
  intros Hc. unfold do_sendCommand, getConnection. rewrite Hc. simpl.
  now destruct (sendCommand connection directory command).
Qed.

(** X2. When a line of the hash listing has a single field (an empty
    line, as in the empty listing of a remote directory that holds
    folders only), [deployCompare] stops with the [TypeError] of
    [toMD5Entry] right after the listing command: nothing is compared,
    deleted or transferred, and a deployment with the strategy "compare"
    fails. *)
Theorem compare_unparsable_listing_fails (env : Env)
    (parameters : DeploymentParameters) (connection : Connection)
    (lsOut md5sumOut : CommandResult) (line : string) :
  instance_getConnection env = Some connection ->
  remoteFeatures_md5sum connection = true ->
  sendCommand connection (Some (remotePath parameters)) "ls | wc -l"
  = Returned lsOut ->
  stdout lsOut <> "0" ->
  sendCommand connection (Some (remotePath parameters)) md5sum_command
  = Returned md5sumOut ->
  In line (split_char LF (stdout md5sumOut)) ->
  no_space (trim line) = true ->
  let name := path_basename env (path (wf_uri (workspaceFolder parameters))) in
  deployCompare env parameters
  = ([op_sendCommand (Some (remotePath parameters)) "ls | wc -l";
      op_withProgress ("Synchronizing " ++ name);
      op_deploymentLog_appendLine "Starting MD5 synchronization transfer";
      op_progress_report (Some "creating remote MD5 hash list") None;
      op_sendCommand (Some (remotePath parameters)) md5sum_command],
     Thrown undefined_trim)
  /\ (forall before during wc,
         method parameters = method_compare ->
         run_result (deploy env parameters before during wc) = false).
Proof.
  intros Hc Hmd5 Hls Hne Hsum Hin Hns name.
  assert (E : deployCompare env parameters
              = ([op_sendCommand (Some (remotePath parameters)) "ls | wc -l";
                  op_withProgress ("Synchronizing " ++ name);
                  op_deploymentLog_appendLine "Starting MD5 synchronization transfer";
                  op_progress_report (Some "creating remote MD5 hash list") None;
                  op_sendCommand (Some (remotePath parameters)) md5sum_command],
                 Thrown undefined_trim)).
  { unfold deployCompare, synchronize.
    rewrite !(do_sendCommand_connected env connection _ _ Hc).
    unfold getConnection. rewrite Hc. simpl. rewrite Hmd5, Hls. simpl.
    apply String.eqb_neq in Hne. rewrite Hne, Hsum. simpl.
    now rewrite (parse_remoteMD5_thrown _ _ Hin Hns). }
  split; [exact E |].
  intros before during wc Hm. rewrite deploy_result. unfold deploy_try.
  rewrite !outcome_bind. simpl.
  destruct (outcome (createRemoteDirectory env (remotePath parameters)));
    [| reflexivity].
  now rewrite Hm, E.
Qed.

Lemma compare_empty_listing_fails :
  run_result
    (deploy (Sample.env (Some (Sample.connection "2" EmptyString)) None
                        [Sample.a_txt] Sample.digest)
            (Sample.parameters method_compare "/r") [] [] [])
  = false.
Proof.
  apply (compare_unparsable_listing_fails
           (Sample.env (Some (Sample.connection "2" EmptyString)) None
                       [Sample.a_txt] Sample.digest)
           (Sample.parameters method_compare "/r")
           (Sample.connection "2" EmptyString)
           {| code := Some 0; stdout := "2"; stderr := EmptyString |}
           {| code := Some 0; stdout := EmptyString; stderr := EmptyString |}
           EmptyString);
    try reflexivity.
  - discriminate.
  - now left.
Defined.

(** ** What a run never does *)

Section TraceInvariant.
Variable P : Op -> Prop.

Lemma Forall_trace_bind {A B : Type} (m : M A) (k : A -> M B) :
  Forall P (trace m) -> (forall a, Forall P (trace (k a))) ->
  Forall P (trace (bind m k)).
Proof.
  intros Hm Hk. rewrite trace_bind. apply Forall_app. split; [exact Hm |].
  destruct (outcome m); [apply Hk | constructor].
Qed.

Lemma Forall_trace_emit (o : Op) : P o -> Forall P (trace (emit o)).
Proof. intros H. repeat constructor. exact H. Qed.

Lemma Forall_trace_sendCommand (env : Env) (directory : option string)
    (command : string) :
  P (op_sendCommand directory command) ->
  Forall P (trace (do_sendCommand env directory command)).
Proof.
  intros H. apply Forall_forall. intros o Ho.
  apply do_sendCommand_trace in Ho. now subst.
Qed.

Lemma Forall_trace_putFiles (env : Env) (files : list Transfer) :
  P (op_putFiles files 5) -> Forall P (trace (do_putFiles env files)).
Proof.
  intros H. apply Forall_forall. intros o Ho.
  apply do_putFiles_trace in Ho. now subst.
Qed.

Lemma Forall_trace_mapM {A B : Type} (f : A -> M B) (xs : list A) :
  (forall x, Forall P (trace (f x))) -> Forall P (trace (mapM f xs)).
Proof.
  intros Hf. induction xs as [| x xs IH]; simpl; [constructor |].
  apply Forall_trace_bind; [apply Hf |]. intros y.
  apply Forall_trace_bind; [exact IH |]. intros ys. constructor.
Qed.

Lemma Forall_trace_try_catch {A : Type} (m : M A) (h : JSError -> M A) :
  Forall P (trace m) -> (forall e, Forall P (trace (h e))) ->
  Forall P (trace (try_catch m h)).
Proof.
  intros Hm Hh. destruct m as [t [a | e]]; simpl in *; [exact Hm |].
  specialize (Hh e). destruct (h e) as [t' r]. simpl in *.
  apply Forall_app. now split.
Qed.

Lemma Forall_trace_getConnection (env : Env) :
  Forall P (trace (getConnection env)).
Proof.
  unfold getConnection. destruct (instance_getConnection env); constructor.
Qed.

End TraceInvariant.

(** Walks through a strategy, leaving one goal per call it can make. *)
Ltac each_call :=
  repeat first
    [ apply Forall_trace_sendCommand
    | apply Forall_trace_putFiles
    | apply Forall_trace_getConnection
    | apply Forall_trace_emit
    | apply Forall_trace_bind; [| intros]
    | apply Forall_trace_mapM; intros
    | apply Forall_trace_try_catch; [| intros]
    | apply Forall_nil
    | match goal with
      | |- Forall _ (trace (if ?b then _ else _)) => destruct b
      | |- Forall _ (trace (match ?x with _ => _ end)) => destruct x
      | |- Forall _ (trace (let (_, _) := ?x in _)) => destruct x
      end ].

(** The calls that every strategy is made of satisfy [P] when each kind
    of call does. *)
Lemma strategy_calls (P : Op -> Prop) (env : Env)
    (parameters : DeploymentParameters) (wc : WorkspaceChanges) :
  (forall o, is_button o = false -> o <> op_deploymentLog_clear -> P o) ->
  Forall P
    (trace (createRemoteDirectory env (remotePath parameters) ;;
            match method parameters with
            | method_unstaged => deployGit env parameters working
            | method_staged => deployGit env parameters staged
            | method_changed => deployChanged env parameters wc
            | method_compare => deployCompare env parameters
            | method_all => deployAll env parameters
            end ;;
            emit (op_deploymentLog_appendLine "Deployment finished.") ;;
            emit (op_showInformationMessage "Deployment finished."))).
Proof.
  intros HP.
  unfold createRemoteDirectory, deployGit, deployChanged, deployCompare,
    deployAll, synchronize, synchronize_delete, synchronize_upload,
    parse_remoteMD5, toMD5Entry, to_upload, deployAll_tick, getClient.
  each_call; (apply HP; [reflexivity | discriminate]).
Qed.

(** X3. Every call of [deploy] clears the log and sets the button to
    its working text first, restores the button text last, and writes the
    button nowhere in between, whatever the strategy does and whether it
    fails or not. *)
Theorem deploy_busy_indicator (env : Env) (parameters : DeploymentParameters)
    (before during : list WatchEvent) (wc : WorkspaceChanges) :
  exists mid,
    run_trace (deploy env parameters before during wc)
    = ([op_deploymentLog_clear; op_button_text BUTTON_WORKING]
       ++ mid ++ [op_button_text BUTTON_BASE])%list
    /\ Forall (fun o => is_button o = false) mid.
Proof.
  unfold deploy, deploy_try.
  pose proof (strategy_calls (fun o => is_button o = false) env parameters
                (watch_all env before wc) (fun o H _ => H)) as H.
  destruct (bind (createRemoteDirectory env (remotePath parameters)) _)
    as [t [[] | e]]; simpl in *.
  - exists t. now split.
  - eexists (t ++ [_; _])%list. split.
    + now rewrite <- app_assoc.
    + apply Forall_app. split; [exact H |]. now repeat constructor.
Qed.

(** ** Failing and idle runs *)

(** X4. Without a connection, a deployment fails at once, whatever the
    strategy: the log is cleared, the error [Please connect to an IBM i]
    is shown and logged, the button is restored, no command or transfer
    is attempted, and the registry is only what the watcher made of
    it. *)
Theorem deploy_not_connected (env : Env) (parameters : DeploymentParameters)
    (before during : list WatchEvent) (wc : WorkspaceChanges) :
  instance_getConnection env = None ->
  deploy env parameters before during wc
  = {| run_trace :=
         [op_deploymentLog_clear;
          op_button_text BUTTON_WORKING;
          op_showErrorMessage "Deployment failed." "View Log";
          op_deploymentLog_appendLine
            "Deployment failed: Error: Please connect to an IBM i";
          op_button_text BUTTON_BASE];
       run_result := false;
       run_changes := watch_all env (before ++ during) wc |}.
Proof.
  intros H. unfold deploy, deploy_try, createRemoteDirectory, do_sendCommand,
    getConnection. rewrite H. simpl. now rewrite watch_all_app.
Qed.

Lemma deploy_offline :
  run_result
    (deploy Sample.offline (Sample.parameters method_all "/r") [] []
            Sample.a_pending)
  = false.
Proof.
  now rewrite (deploy_not_connected Sample.offline
                 (Sample.parameters method_all "/r") [] [] Sample.a_pending
                 eq_refl).
Defined.

(** X5. When the host lacks [md5sum], [deployCompare] throws before it
    sends any command; a deployment with the strategy "compare" then
    fails after the creation of the target directory, its only remote
    call. *)
Theorem compare_without_md5sum (env : Env) (parameters : DeploymentParameters)
    (connection : Connection) :
  instance_getConnection env = Some connection ->
  remoteFeatures_md5sum connection = false ->
  deployCompare env parameters
  = throw (Error
      "Cannot synchronize using MD5 comparison: 'md5sum' command not availabe on host.")
  /\ (forall before during wc,
         method parameters = method_compare ->
         let r := deploy env parameters before during wc in
         run_result r = false
         /\ filter (fun o => is_remote_command o || is_transfer o) (run_trace r)
            = [op_sendCommand None
                 ("mkdir -p " ++ dquote ++ remotePath parameters ++ dquote)]).
Proof.
  intros Hc Hmd5.
  assert (E : deployCompare env parameters
              = throw (Error
                  "Cannot synchronize using MD5 comparison: 'md5sum' command not availabe on host.")).
  { unfold deployCompare, getConnection. rewrite Hc. simpl. now rewrite Hmd5. }
  split; [exact E |]. intros before during wc Hm r. unfold r, deploy, deploy_try.
  unfold createRemoteDirectory.
  rewrite (do_sendCommand_connected env connection _ _ Hc), Hm, E.
  destruct (sendCommand connection None _); simpl; now split.
Qed.

Lemma compare_without_md5sum_sample :
  run_result
    (deploy (Sample.env
               (Some {| remoteFeatures_md5sum := false;
                        client := Some Sample.ssh;
                        sendCommand :=
                          sendCommand (Sample.connection "2" EmptyString) |})
               None [] Sample.digest)
            (Sample.parameters method_compare "/r") [] [] [])
  = false.
Proof.
  apply (compare_without_md5sum
           (Sample.env
              (Some {| remoteFeatures_md5sum := false;
                       client := Some Sample.ssh;
                       sendCommand :=
                         sendCommand (Sample.connection "2" EmptyString) |})
              None [] Sample.digest)
           (Sample.parameters method_compare "/r") _ eq_refl eq_refl).
  reflexivity.
Defined.

Lemma deployChanged_idle (env : Env) (parameters : DeploymentParameters)
    (wc : WorkspaceChanges) :
  pending (workspaceFolder parameters) wc = [] ->
  deployChanged env parameters wc = ret tt.
Proof.
  unfold pending, deployChanged.
  destruct (workspaceChanges_get (workspaceFolder parameters) wc)
    as [changes |]; [| reflexivity].
  destruct changes as [| kv changes]; [reflexivity | discriminate].
Qed.

(** X6. When nothing is pending for the folder as the "changed"
    strategy starts, the strategy makes no call at all and returns
    normally; if the target directory could be created, the deployment
    succeeds with that creation as its only remote call. *)
Theorem changed_nothing_pending (env : Env) (parameters : DeploymentParameters)
    (before during : list WatchEvent) (wc : WorkspaceChanges)
    (connection : Connection) (created : CommandResult) :
  pending (workspaceFolder parameters) (watch_all env before wc) = [] ->
  method parameters = method_changed ->
  instance_getConnection env = Some connection ->
  sendCommand connection None
    ("mkdir -p " ++ dquote ++ remotePath parameters ++ dquote)
  = Returned created ->
  deployChanged env parameters (watch_all env before wc) = ret tt
  /\ run_result (deploy env parameters before during wc) = true
  /\ filter (fun o => is_remote_command o || is_transfer o)
       (run_trace (deploy env parameters before during wc))
     = [op_sendCommand None
          ("mkdir -p " ++ dquote ++ remotePath parameters ++ dquote)].
Proof.
  intros Hp Hm Hc Hmk.
  pose proof (deployChanged_idle env parameters _ Hp) as E.
  split; [exact E |].
  unfold deploy, deploy_try, createRemoteDirectory.
  rewrite (do_sendCommand_connected env connection _ _ Hc), Hmk, Hm, E.
  simpl. now split.
Qed.

Lemma changed_nothing_pending_sample :
  run_result
    (deploy Sample.online (Sample.parameters method_changed "/r")
            [DidChange Sample.a_txt; DidDelete Sample.a_txt] [] [])
  = true.
Proof.
  apply (changed_nothing_pending Sample.online
           (Sample.parameters method_changed "/r")
           [DidChange Sample.a_txt; DidDelete Sample.a_txt] [] []
           (Sample.connection "2" EmptyString)
           {| code := Some 0; stdout := EmptyString; stderr := EmptyString |});
    reflexivity.
Defined.

(** ** Remote commands *)

Lemma deployChanged_no_command (env : Env) (parameters : DeploymentParameters)
    (wc : WorkspaceChanges) :
  Forall (fun o => is_remote_command o = false)
         (trace (deployChanged env parameters wc)).
Proof.
  unfold deployChanged, to_upload. each_call; reflexivity.
Qed.

(** X7. Apart from the creation of the target directory, only the
    strategy "compare" runs commands on the remote host: with any other
    strategy every remote command of a deployment is that [mkdir -p]. *)
Theorem only_compare_runs_commands (env : Env)
    (parameters : DeploymentParameters) (before during : list WatchEvent)
    (wc : WorkspaceChanges) (o : Op) :
  method parameters <> method_compare ->
  In o (run_trace (deploy env parameters before during wc)) ->
  is_remote_command o = true ->
  o = op_sendCommand None
        ("mkdir -p " ++ dquote ++ remotePath parameters ++ dquote).
Proof.
  intros Hm Hin Ho.
  assert (Hs : Forall (fun o => is_remote_command o = false)
                 (trace (match method parameters with
                         | method_unstaged => deployGit env parameters working
                         | method_staged => deployGit env parameters staged
                         | method_changed =>
                             deployChanged env parameters (watch_all env before wc)
                         | method_compare => deployCompare env parameters
                         | method_all => deployAll env parameters
                         end))).
  { apply Forall_forall. intros x Hx.
    destruct (method parameters); try (now elim Hm).
    - apply deployAll_trace in Hx. destruct Hx as [Hx | [-> _]];
        [now apply is_ui_not_command | reflexivity].
    - pose proof (deployChanged_no_command env parameters
                    (watch_all env before wc)) as F.
      rewrite Forall_forall in F. now apply F.
    - apply deployGit_trace in Hx.
      destruct Hx as [Hx | (g & r & _ & _ & ->)];
        [now apply is_ui_not_command | reflexivity].
    - apply deployGit_trace in Hx.
      destruct Hx as [Hx | (g & r & _ & _ & ->)];
        [now apply is_ui_not_command | reflexivity]. }
  rewrite Forall_forall in Hs.
  unfold deploy, deploy_try in Hin.
  assert (Ht : In o (trace (createRemoteDirectory env (remotePath parameters)))
               \/ (is_remote_command o = false)).
  { destruct (bind (emit op_deploymentLog_clear) _) as [t r] eqn:E.
    assert (Hin' : In o t \/ is_remote_command o = false).
    { destruct r as [[] | e]; simpl in Hin; apply in_app_or in Hin;
        destruct Hin as [Hin | Hin]; auto; right; simpl in Hin;
        intuition (subst; reflexivity). }
    destruct Hin' as [Hin' | Hin']; [| now right].
    assert (Et : t = trace (bind (emit op_deploymentLog_clear)
                   (fun _ => bind (emit (op_button_text BUTTON_WORKING))
                   (fun _ => bind (createRemoteDirectory env (remotePath parameters))
                   (fun _ => bind (match method parameters with
                         | method_unstaged => deployGit env parameters working
                         | method_staged => deployGit env parameters staged
                         | method_changed =>
                             deployChanged env parameters (watch_all env before wc)
                         | method_compare => deployCompare env parameters
                         | method_all => deployAll env parameters
                         end)
                   (fun _ => bind (emit (op_deploymentLog_appendLine "Deployment finished."))
                   (fun _ => emit (op_showInformationMessage "Deployment finished."))))))))
      by now rewrite E.
    rewrite Et in Hin'. clear Et E.
    bind_step Hin'; [right; cbn [trace emit fst In] in Hin'; intuition (subst; reflexivity) |].
    bind_step Hin'; [right; cbn [trace emit fst In] in Hin'; intuition (subst; reflexivity) |].
    bind_step Hin'; [now left |].
    destruct (outcome (createRemoteDirectory _ _)); [| destruct Hin'].
    bind_step Hin'; [right; now apply Hs |].
    match type of Hin' with
    | In _ (match ?x with _ => _ end) => destruct x; [| destruct Hin']
    end.
    right. bind_step Hin';
      cbn [trace emit fst In] in Hin'; intuition (subst; reflexivity). }
  destruct Ht as [Ht | Ht]; [| congruence].
  unfold createRemoteDirectory in Ht. now apply do_sendCommand_trace in Ht.
Qed.

Lemma changed_run_creates_directory_only :
  let parameters := Sample.parameters method_changed "/r" in
  let run := deploy Sample.online parameters [] [] Sample.a_pending in
  let mkdir := op_sendCommand None ("mkdir -p " ++ dquote ++ "/r" ++ dquote) in
  method parameters <> method_compare
  /\ In mkdir (run_trace run)
  /\ is_remote_command mkdir = true
  /\ mkdir
     = op_sendCommand None
         ("mkdir -p " ++ dquote ++ remotePath parameters ++ dquote).
Proof.
  intros parameters run mkdir.
  assert (Hm : method parameters <> method_compare) by discriminate.
  assert (Hin : In mkdir (run_trace run)) by (vm_compute; tauto).
  split; [exact Hm |]. split; [exact Hin |]. split; [reflexivity |].
  exact (only_compare_runs_commands Sample.online parameters [] []
           Sample.a_pending mkdir Hm Hin eq_refl).
Defined.

(** ** The filter of the "changed" strategy *)

(** X8. Each file that [deployChanged] hands to [putFiles] belongs to a
    resource pending for the folder, five transfers at a time.  With
    ignore rules and a non-empty relative path the resource is not
    ignored; otherwise (no rules, or the folder itself) its base name
    holds no dot: a file with an extension is left out. *)
Theorem changed_uploads_pass_filter (env : Env)
    (parameters : DeploymentParameters) (wc : WorkspaceChanges)
    (files : list Transfer) (n : nat) (f : Transfer) :
  In (op_putFiles files n) (trace (deployChanged env parameters wc)) ->
  In f files ->
  n = 5
  /\ exists changes uri,
       workspaceChanges_get (workspaceFolder parameters) wc = Some changes
       /\ In uri (JSMap.values changes)
       /\ f = Upload_transfer (upload_of env parameters uri)
       /\ let relative :=
            toRelative env (wf_uri (workspaceFolder parameters)) uri in
          match ignoreRules parameters with
          | Some rules =>
              if truthy relative then ignores env rules relative = false
              else includes (path_basename env (path uri)) "." = false
          | None => includes (path_basename env (path uri)) "." = false
          end.
Proof.
  intros H Hf.
  assert (Hn : n = 5).
  { unfold deployChanged in H.
    destruct (workspaceChanges_get _ wc) as [changes |]; [| destruct H].
    destruct (0 <? JSMap.size changes)%nat; [| destruct H].
    rewrite trace_bind in H. apply in_app_or in H. destruct H as [H | H].
    - destruct (mapM_to_upload env parameters (changedFiles env parameters changes))
        as [_ Ht].
      rewrite Forall_forall in Ht. apply Ht in H. discriminate.
    - destruct (outcome (mapM _ _)); [| destruct H].
      apply do_putFiles_trace in H. now inversion H. }
  split; [exact Hn |].
  apply deployChanged_putFiles in H. destruct H as (changes & Hget & ->).
  unfold changed_transfers in Hf. apply in_map_iff in Hf.
  destruct Hf as (uri & <- & Hin). unfold changedFiles in Hin.
  apply filter_In in Hin. destruct Hin as [Hin Hfilter].
  exists changes, uri. repeat split; try assumption.
  unfold changed_filter in Hfilter. cbv zeta.
  destruct (ignoreRules parameters) as [rules |].
  - destruct (truthy _); now apply negb_true_iff in Hfilter.
  - destruct (truthy _); now apply negb_true_iff in Hfilter.
Qed.

(** Without ignore rules, of [a.txt] and [Makefile] only the file
    without an extension is transferred. *)
Lemma changed_without_rules_drops_extensions :
  let parameters :=
    {| method := method_changed; workspaceFolder := Sample.folder;
       remotePath := "/r"; ignoreRules := None |} in
  let wc :=
    [(Sample.folder,
      [("/w/a.txt", Sample.a_txt); ("/w/Makefile", Sample.file "/w/Makefile")])] in
  filter is_transfer (trace (deployChanged Sample.online parameters wc))
  = [op_putFiles [ {| local := "/w/Makefile"; remote := "/r/Makefile" |} ] 5]
  /\ exists changes uri,
       workspaceChanges_get Sample.folder wc = Some changes
       /\ In uri (JSMap.values changes)
       /\ {| local := "/w/Makefile"; remote := "/r/Makefile" |}
          = Upload_transfer (upload_of Sample.online parameters uri)
       /\ includes (path_basename Sample.online (path uri)) "." = false.
Proof.
  split; [reflexivity |].
  apply (changed_uploads_pass_filter Sample.online
           {| method := method_changed; workspaceFolder := Sample.folder;
              remotePath := "/r"; ignoreRules := None |}
           [(Sample.folder,
             [("/w/a.txt", Sample.a_txt);
              ("/w/Makefile", Sample.file "/w/Makefile")])]
           [ {| local := "/w/Makefile"; remote := "/r/Makefile" |} ] 5
           {| local := "/w/Makefile"; remote := "/r/Makefile" |}).
  - vm_compute. auto.
  - now left.
Defined.

(** ** Errors of the git strategies *)

(** X9. The git strategies throw, before any call, [No repositories are
    open.] when the git extension is missing or has no repository, and
    [No repository found for] the folder when no repository is rooted at
    the folder. *)
Theorem deployGit_no_repository (env : Env) (parameters : DeploymentParameters)
    (changeType : ChangeType) :
  (Tools_getGitAPI env = None
   \/ Tools_getGitAPI env = Some {| repositories := [] |} ->
   deployGit env parameters changeType
   = throw (Error "No repositories are open."))
  /\ (forall gitApi,
         Tools_getGitAPI env = Some gitApi ->
         repositories gitApi <> [] ->
         find_repository parameters gitApi = None ->
         deployGit env parameters changeType
         = throw (Error ("No repository found for "
                         ++ fsPath (wf_uri (workspaceFolder parameters))))).
Proof.
  split.
  - intros [H | H]; unfold deployGit; now rewrite H.
  - intros gitApi Hapi Hne Hfind. unfold deployGit. rewrite Hapi.
    unfold find_repository in Hfind. rewrite Hfind.
    destruct (repositories gitApi); [now elim Hne | reflexivity].
Qed.

Lemma deployGit_other_repository :
  deployGit
    (Sample.env None
       (Some {| repositories :=
                  [ {| rootUri := Sample.file "/elsewhere";
                       indexChanges := []; workingTreeChanges := [] |} ] |})
       [] Sample.digest)
    (Sample.parameters method_staged "/r") staged
  = throw (Error "No repository found for /w").
Proof.
  destruct (deployGit_no_repository
              (Sample.env None
                 (Some {| repositories :=
                            [ {| rootUri := Sample.file "/elsewhere";
                                 indexChanges := []; workingTreeChanges := [] |} ] |})
                 [] Sample.digest)
              (Sample.parameters method_staged "/r") staged) as [_ H].
  apply (H {| repositories :=
                [ {| rootUri := Sample.file "/elsewhere";
                     indexChanges := []; workingTreeChanges := [] |} ] |});
    (reflexivity || discriminate).
Defined.


(** X10. When the target is not absolute, a git strategy that has
    changes to deploy logs an [UPLOADING] line for each change, in
    order, announces the deployment with the number of changes and the
    target, and then throws [Unable to determine where to upload
    workspace.]: these are all its calls, so no transfer is started. *)
Theorem deployGit_relative_target (env : Env) (parameters : DeploymentParameters)
    (changeType : ChangeType) (gitApi : GitAPI) (repository : Repository) :
  Tools_getGitAPI env = Some gitApi ->
  find_repository parameters gitApi = Some repository ->
  gitFiles repository changeType <> [] ->
  startsWith (remotePath parameters) "/" = false ->
  deployGit env parameters changeType
  = ((List.map
        (fun change =>
           op_deploymentLog_appendLine
             ("UPLOADING: " ++ fsPath (change_uri change) ++ " -> "
              ++ path_posix_join env (remotePath parameters)
                   (toRelative env (wf_uri (workspaceFolder parameters))
                               (change_uri change))))
        (gitFiles repository changeType)
      ++ [op_showInformationMessage
            ("Deploying " ++ ChangeType_toString changeType ++ " changes ("
             ++ of_nat (List.length (gitFiles repository changeType))
             ++ ") to " ++ remotePath parameters)])%list,
     Thrown (Error "Unable to determine where to upload workspace."))
  /\ filter is_transfer (trace (deployGit env parameters changeType)) = []
  /\ filter is_remote_command (trace (deployGit env parameters changeType)) = [].
Proof.
  intros Hapi Hrepo Hne Hrel.
  rewrite (deployGit_selected env parameters changeType gitApi repository
             Hapi Hrepo).
  destruct (gitFiles repository changeType) as [| c cs] eqn:Hfiles;
    [now elim Hne |].
  rewrite Hrel.
  assert (Hlog : forall changes,
             mapM (fun change => to_upload env parameters (change_uri change))
                  changes
             = (List.map
                  (fun change =>
                     op_deploymentLog_appendLine
                       ("UPLOADING: " ++ fsPath (change_uri change) ++ " -> "
                        ++ path_posix_join env (remotePath parameters)
                             (toRelative env
                                (wf_uri (workspaceFolder parameters))
                                (change_uri change))))
                  changes,
                Returned (List.map
                            (fun change =>
                               upload_of env parameters (change_uri change))
                            changes))).
  { induction changes as [| u us IH]; [reflexivity |].
    cbn [mapM]. rewrite IH. unfold to_upload.
    cbn [bind emit ret app]. now rewrite app_nil_r. }
  rewrite Hlog. cbn [bind emit throw]. rewrite length_map, app_nil_r.
  split; [reflexivity |]. cbn [trace fst].
  split; apply filter_none; intros o Ho; apply in_app_or in Ho;
    destruct Ho as [Ho | [<- | []]]; try reflexivity;
    apply in_map_iff in Ho; now destruct Ho as (u & <- & _).
Qed.

Lemma deployGit_relative_target_sample :
  deployGit SampleGit.env (Sample.parameters method_unstaged "builds/w") working
  = ([op_deploymentLog_appendLine "UPLOADING: /w/b.txt -> builds/w/b.txt";
      op_showInformationMessage "Deploying working changes (1) to builds/w"],
     Thrown (Error "Unable to determine where to upload workspace.")).
Proof.
  apply (deployGit_relative_target SampleGit.env
           (Sample.parameters method_unstaged "builds/w") working
           {| repositories := [SampleGit.repository] |} SampleGit.repository);
    (reflexivity || discriminate).
Defined.

(** ** Bulk transfer: file failures and session failures *)

Lemma mapM_ticks (ticks : list TickCall) :
  outcome (mapM deployAll_tick ticks) = Returned (List.map (fun _ => tt) ticks)
  /\ filter is_log_line (trace (mapM deployAll_tick ticks))
     = List.map (fun t => op_deploymentLog_appendLine (tick_log t)) ticks
  /\ filter is_remote (trace (mapM deployAll_tick ticks)) = [].
Proof.
  induction ticks as [| t ticks (IHo & IHl & IHr)]; [now repeat split |].
  cbn [mapM]. destruct (mapM deployAll_tick ticks) as [tr r].
  simpl in IHo, IHl, IHr. subst r.
  unfold deployAll_tick.
  destruct (tick_error t) eqn:E;
    cbn [bind emit ret app fst snd trace outcome List.map];
    rewrite app_nil_r; cbn [filter is_log_line is_remote is_remote_command
                            is_transfer orb];
    rewrite IHl, IHr; (split; [reflexivity |]); (split; [| reflexivity]);
    f_equal; unfold tick_log; now rewrite E.
Qed.

(** X11. A directory transfer that settles normally makes [deployAll]
    return normally, whatever it reports: the failure of single files
    (and a result of [false]) only shows in the log, which gets one
    [SUCCESS] or [FAILED] line per transferred file, in order. *)
Theorem deployAll_file_failures_tolerated (env : Env)
    (parameters : DeploymentParameters) (connection : Connection)
    (c : Client) (ticks : list TickCall) (all_sent : bool) :
  instance_getConnection env = Some connection ->
  client connection = Some c ->
  startsWith (remotePath parameters) "/" = true ->
  putDirectory c (fsPath (wf_uri (workspaceFolder parameters)))
               (remotePath parameters) (deployAll_validate env parameters)
  = (ticks, Returned all_sent) ->
  outcome (deployAll env parameters) = Returned tt
  /\ filter is_log_line (trace (deployAll env parameters))
     = List.map (fun t => op_deploymentLog_appendLine (tick_log t)) ticks
  /\ filter is_remote (trace (deployAll env parameters))
     = [op_putDirectory (fsPath (wf_uri (workspaceFolder parameters)))
                        (remotePath parameters) true 5].
Proof.
  intros Hc Hcl Habs Hput. unfold deployAll, getClient, getConnection.
  rewrite Habs, Hc. cbn [bind ret emit app]. rewrite Hcl.
  cbn [bind ret emit app]. rewrite Hput.
  destruct (mapM_ticks ticks) as (Ho & Hl & Hr).
  destruct (mapM deployAll_tick ticks) as [tr r]. simpl in Ho, Hl, Hr. subst r.
  cbn [bind settle emit try_catch app fst snd trace outcome].
  cbn [filter is_log_line is_remote is_remote_command is_transfer orb].
  rewrite !filter_app, Hl, Hr. cbn [filter is_log_line is_remote
    is_remote_command is_transfer orb app].
  now rewrite app_nil_r.
Qed.

Lemma deployAll_one_file_failed :
  let c :=
    {| putFiles := fun _ => Returned tt;
       putDirectory := fun _ _ _ =>
         ([ {| tick_localPath := "/w/a.txt"; tick_remotePath := "/r/a.txt";
               tick_error := None |};
            {| tick_localPath := "/w/b.txt"; tick_remotePath := "/r/b.txt";
               tick_error := Some (Error "Permission denied") |} ],
          Returned false) |} in
  let env :=
    Sample.env (Some (Sample.connection_with c "2" EmptyString)) None []
               Sample.digest in
  outcome (deployAll env (Sample.parameters method_all "/r")) = Returned tt
  /\ filter is_log_line (trace (deployAll env (Sample.parameters method_all "/r")))
     = [op_deploymentLog_appendLine "SUCCESS: /w/a.txt -> /r/a.txt";
        op_deploymentLog_appendLine
          "FAILED: /w/b.txt -> /r/b.txt: Permission denied"].
Proof.
  intros c env.
  destruct (deployAll_file_failures_tolerated env
              (Sample.parameters method_all "/r")
              (Sample.connection_with c "2" EmptyString) c _ false
              eq_refl eq_refl eq_refl eq_refl) as (Ho & Hl & _).
  split; [exact Ho | exact Hl].
Defined.

(** X12. When the directory transfer itself is rejected, [deployAll]
    reports [Deployment failed.] as its last call and throws the very
    error of the transfer; when no client is connected it does the same
    with [Please connect to an IBM i], without starting a transfer. *)
Theorem deployAll_rethrows (env : Env) (parameters : DeploymentParameters)
    (connection : Connection) :
  instance_getConnection env = Some connection ->
  startsWith (remotePath parameters) "/" = true ->
  (forall c ticks e,
      client connection = Some c ->
      putDirectory c (fsPath (wf_uri (workspaceFolder parameters)))
                   (remotePath parameters) (deployAll_validate env parameters)
      = (ticks, Thrown e) ->
      outcome (deployAll env parameters) = Thrown e
      /\ last (trace (deployAll env parameters)) op_deploymentLog_clear
         = op_progress_report (Some "Deployment failed.") None)
  /\ (client connection = None ->
      outcome (deployAll env parameters)
      = Thrown (Error "Please connect to an IBM i")
      /\ filter is_remote (trace (deployAll env parameters)) = []
      /\ last (trace (deployAll env parameters)) op_deploymentLog_clear
         = op_progress_report (Some "Deployment failed.") None).
Proof.
  intros Hc Habs. split.
  - intros c ticks e Hcl Hput. unfold deployAll, getClient, getConnection.
    rewrite Habs, Hc. cbn [bind ret emit app]. rewrite Hcl.
    cbn [bind ret emit app]. rewrite Hput.
    destruct (mapM_ticks ticks) as (Ho & _ & _).
    destruct (mapM deployAll_tick ticks) as [tr r]. simpl in Ho. subst r.
    cbn [bind settle emit throw try_catch app fst snd trace outcome].
    split; [reflexivity |].
    rewrite app_nil_r.
    change (op_withProgress ?a :: op_progress_report ?b ?c :: ?d :: (tr ++ ?l)%list)
      with ([op_withProgress a; op_progress_report b c; d] ++ (tr ++ l))%list.
    now rewrite !app_assoc, last_last.
  - intros Hcl. unfold deployAll, getClient, getConnection.
    rewrite Habs, Hc. cbn [bind ret emit app]. rewrite Hcl.
    now repeat split.
Qed.

Lemma deployAll_session_lost :
  outcome (deployAll Sample.unreliable (Sample.parameters method_all "/r"))
  = Thrown (Error "Connection lost").
Proof.
  destruct (deployAll_rethrows Sample.unreliable
              (Sample.parameters method_all "/r")
              (Sample.connection_with Sample.broken_ssh "2" EmptyString)
              eq_refl eq_refl) as [H _].
  apply (H Sample.broken_ssh [] (Error "Connection lost") eq_refl eq_refl).
Defined.

(** ** Carrying out the plan *)

Lemma do_sendCommand_answered (env : Env) (connection : Connection)
    (directory : option string) (command : string) :
  instance_getConnection env = Some connection ->
  answers connection ->
  exists result,
    do_sendCommand env directory command
    = ([op_sendCommand directory command], Returned result).
Proof.
  intros Hc Ha. destruct (Ha directory command) as [result Hr].
  exists result. now rewrite (do_sendCommand_connected env connection _ _ Hc), Hr.
Qed.

Lemma synchronize_delete_run (env : Env) (parameters : DeploymentParameters)
    (connection : Connection) (toDelete : list string) :
  instance_getConnection env = Some connection ->
  answers connection ->
  outcome (synchronize_delete env parameters toDelete) = Returned tt
  /\ filter is_remote (trace (synchronize_delete env parameters toDelete))
     = match toDelete with
       | [] => []
       | _ => [op_sendCommand (Some (remotePath parameters))
                              ("rm -f " ++ join " " toDelete)]
       end.
Proof.
  intros Hc Ha. unfold synchronize_delete.
  destruct toDelete as [| p ps]; [now split |].
  cbn [List.length Nat.ltb Nat.leb].
  destruct (do_sendCommand_answered env connection
              (Some (remotePath parameters))
              ("rm -f " ++ join " " (p :: ps)) Hc Ha) as [result ->].
  now split.
Qed.

Lemma synchronize_upload_run (env : Env) (connection : Connection)
    (c : Client) (uploads : list Transfer) :
  instance_getConnection env = Some connection ->
  answers connection ->
  client connection = Some c ->
  putFiles c uploads = Returned tt ->
  outcome (synchronize_upload env uploads) = Returned tt
  /\ filter is_remote (trace (synchronize_upload env uploads))
     = match uploads with
       | [] => []
       | _ => [op_sendCommand None (mkdirs_command env uploads);
               op_putFiles uploads 5]
       end.
Proof.
  intros Hc Ha Hcl Hput. unfold synchronize_upload.
  destruct uploads as [| u us]; [now split |].
  cbn [List.length Nat.ltb Nat.leb].
  destruct (do_sendCommand_answered env connection None
              (mkdirs_command env (u :: us)) Hc Ha) as [result ->].
  unfold do_putFiles, getClient, getConnection. rewrite Hc.
  cbn [bind ret emit app]. rewrite Hcl. cbn [bind ret emit settle app].
  rewrite Hput. now split.
Qed.

(** X13. When the session answers every command and the transfer
    succeeds, the synchronisation returns normally and its remote calls
    are, in this order: the hash listing, the single [rm -f] of the
    deletions if there are any, the folder creation and the single
    [putFiles] of the uploads if there are any, and the pruning of empty
    folders. *)
Theorem synchronize_order (env : Env) (parameters : DeploymentParameters)
    (connection : Connection) (c : Client) (md5sumOut : CommandResult)
    (remoteMD5 : list MD5Entry) :
  instance_getConnection env = Some connection ->
  answers connection ->
  client connection = Some c ->
  sendCommand connection (Some (remotePath parameters)) md5sum_command
  = Returned md5sumOut ->
  outcome (parse_remoteMD5 (stdout md5sumOut)) = Returned remoteMD5 ->
  let plan :=
    compare_plan env parameters (localFiles env parameters) remoteMD5 in
  putFiles c (plan_uploads plan) = Returned tt ->
  outcome (synchronize env parameters) = Returned tt
  /\ filter is_remote (trace (synchronize env parameters))
     = ([op_sendCommand (Some (remotePath parameters)) md5sum_command]
        ++ plan_calls env parameters plan
        ++ [op_sendCommand (Some (remotePath parameters)) rmdir_command])%list.
Proof.
  intros Hc Ha Hcl Hsum Hparse plan Hput. unfold synchronize.
  rewrite (do_sendCommand_connected env connection _ md5sum_command Hc), Hsum.
  cbn [bind emit ret app].
  pose proof (parse_remoteMD5_silent (stdout md5sumOut)) as Hsilent.
  destruct (parse_remoteMD5 (stdout md5sumOut)) as [tp rp].
  simpl in Hsilent, Hparse. subst tp rp.
  cbn [bind emit ret app].
  destruct (synchronize_delete_run env parameters connection
              (compare_toDelete (localFiles env parameters) remoteMD5) Hc Ha)
    as [Hdo Hdt].
  destruct (synchronize_upload_run env connection c
              (compare_uploads env parameters (localFiles env parameters)
                               remoteMD5) Hc Ha Hcl Hput)
    as [Huo Hut].
  destruct (do_sendCommand_answered env connection
              (Some (remotePath parameters)) rmdir_command Hc Ha)
    as [pruned ->].
  destruct (synchronize_delete env parameters _) as [td rd].
  destruct (synchronize_upload env _) as [tu ru].
  simpl in Hdo, Hdt, Huo, Hut. subst rd ru.
  cbn [bind emit ret app fst snd trace outcome].
  split; [reflexivity |].
  cbn [filter is_remote is_remote_command is_transfer orb].
  rewrite !filter_app, Hdt, Hut.
  cbn [filter is_remote is_remote_command is_transfer orb app].
  unfold plan_calls, plan, compare_plan. cbn [plan_deletions plan_uploads].
  f_equal.
  destruct (compare_toDelete _ _); destruct (compare_uploads _ _ _ _);
    reflexivity.
Qed.

Lemma synchronize_order_sample :
  let listing := "a1  ./a.txt" ++ String LF "c3  ./c.txt" in
  let env :=
    Sample.env (Some (Sample.connection "2" listing)) None
               [Sample.a_txt; Sample.b_txt] Sample.digest in
  filter is_remote (trace (synchronize env (Sample.parameters method_compare "/r")))
  = [ op_sendCommand (Some "/r") md5sum_command;
      op_sendCommand (Some "/r") "rm -f c.txt";
      op_sendCommand None "[ -d /r ] || mkdir -p /r";
      op_putFiles [ {| local := "/w/b.txt"; remote := "/r/b.txt" |} ] 5;
      op_sendCommand (Some "/r") rmdir_command ].
Proof.
  intros listing env.
  apply (synchronize_order env (Sample.parameters method_compare "/r")
           (Sample.connection "2" listing) Sample.ssh
           {| code := Some 0; stdout := listing; stderr := EmptyString |}
           [ {| md5_path := "a.txt"; md5 := "a1" |};
             {| md5_path := "c.txt"; md5 := "c3" |} ]);
    try reflexivity.
  intros directory command. now eexists.
Defined.

(** ** Folders of the uploads *)

Lemma dedup_In (xs : list string) (x : string) :
  In x (dedup xs) <-> In x xs.
Proof.
  induction xs as [| y ys IH]; simpl; [tauto |].
  rewrite filter_In, IH. split.
  - intros [E | [H _]]; auto.
  - intros [E | H]; [now left |].
    destruct (String.eqb y x) eqn:Eyx.
    + apply String.eqb_eq in Eyx. now left.
    + right. split; [exact H |]. reflexivity.
Qed.

Lemma dedup_NoDup (xs : list string) : NoDup (dedup xs).
Proof.
  induction xs as [| y ys IH]; simpl; constructor.
  - intros H. apply filter_In in H. destruct H as [_ H].
    now rewrite String.eqb_refl in H.
  - now apply NoDup_filter.
Qed.

(** X14. The command that creates the remote folders before the upload
    names the parent folder of every upload, and names each folder
    once. *)
Theorem mkdirs_each_folder_once (env : Env) (uploads : list Transfer) :
  let folders := dedup (List.map (fun u => path_dirname env (remote u)) uploads) in
  mkdirs_command env uploads
  = join ";" (List.map (fun folder =>
                          "[ -d " ++ folder ++ " ] || mkdir -p " ++ folder)
                       folders)
  /\ NoDup folders
  /\ (forall u, In u uploads -> In (path_dirname env (remote u)) folders)
  /\ (forall folder, In folder folders ->
        exists u, In u uploads /\ folder = path_dirname env (remote u)).
Proof.
  intros folders. split; [reflexivity |]. split; [apply dedup_NoDup |]. split.
  - intros u Hu. apply dedup_In.
    now apply (in_map (fun u => path_dirname env (remote u))).
  - intros folder H. unfold folders in H.
    apply (proj1 (dedup_In _ _)) in H. apply in_map_iff in H.
    destruct H as (u & <- & Hu). now exists u.
Qed.

(** ** Deletions against uploads *)

Lemma append_cancel (a b c : string) : a ++ b = a ++ c -> b = c.
Proof.
  induction a as [| x a IH]; simpl; [tauto |]. intros H. inversion H. auto.
Qed.

(** X15. A plan never deletes what it uploads: the remote path of an
    upload is never the target directory followed by a deleted path, and
    no deleted path is the relative path of a local file. *)
Theorem plan_deletes_no_upload (env : Env) (parameters : DeploymentParameters)
    (files : list LocalFile) (remoteMD5 : list MD5Entry) (p : string) :
  let plan := compare_plan env parameters files remoteMD5 in
  In p (plan_deletions plan) ->
  (forall file, In file files -> lf_path file <> p)
  /\ (forall t, In t (plan_uploads plan) ->
        remote t <> remotePath parameters ++ "/" ++ p).
Proof.
  intros plan Hp. apply compare_toDelete_In in Hp.
  destruct Hp as (e & _ & _ & Hnone). split; [exact Hnone |].
  intros t Ht. unfold plan, compare_plan in Ht. simpl in Ht.
  rewrite compare_uploads_filter in Ht. apply in_map_iff in Ht.
  destruct Ht as (file & <- & Hf). apply filter_In in Hf.
  destruct Hf as [Hf _]. simpl. intros E.
  apply append_cancel in E. apply (append_cancel "/") in E.
  exact (Hnone file Hf E).
Qed.

Lemma plan_deletes_no_upload_sample :
  let plan :=
    compare_plan (Sample.env None None [] Sample.digest)
      (Sample.parameters method_compare "/r")
      [ {| lf_uri := Sample.b_txt; lf_path := "b.txt" |} ]
      [ {| md5_path := "c.txt"; md5 := "c3" |} ] in
  let upload := {| local := "/w/b.txt"; remote := "/r/b.txt" |} in
  plan_deletions plan = ["c.txt"]
  /\ plan_uploads plan = [upload]
  /\ remote upload <> "/r/c.txt".
Proof.
  intros plan upload. split; [reflexivity |]. split; [reflexivity |].
  apply (proj2 (plan_deletes_no_upload (Sample.env None None [] Sample.digest)
                  (Sample.parameters method_compare "/r")
                  [ {| lf_uri := Sample.b_txt; lf_path := "b.txt" |} ]
                  [ {| md5_path := "c.txt"; md5 := "c3" |} ] "c.txt"
                  (or_introl eq_refl))).
  now left.
Defined.

(** ** One entry per path, one map per folder *)

Section JSMapKeys.
Context {K V : Type}.
Variable eqb : K -> K -> bool.
Hypothesis eqb_eq : forall a b, eqb a b = true -> a = b.
Hypothesis eqb_refl : forall a, eqb a a = true.

Lemma keys_set_In (k k' : K) (v : V) (m : JSMap.t K V) :
  In k' (JSMap.keys (JSMap.set eqb k v m)) -> k' = k \/ In k' (JSMap.keys m).
Proof.
  unfold JSMap.keys. intros H. apply in_map_iff in H.
  destruct H as ([k0 v0] & <- & H). apply In_set in H.
  destruct H as [E | H]; [inversion E; now left |].
  right. now apply (in_map fst) in H.
Qed.

Lemma keys_set_NoDup (k : K) (v : V) (m : JSMap.t K V) :
  NoDup (JSMap.keys m) -> NoDup (JSMap.keys (JSMap.set eqb k v m)).
Proof.
  induction m as [| [k0 v0] m IH]; simpl; intros H.
  - repeat constructor. intros [].
  - inversion H as [| ? ? Hnotin Hm]; subst.
    destruct (eqb k k0) eqn:E; simpl.
    + apply eqb_eq in E. subst k0. now constructor.
    + constructor; [| now apply IH].
      intros Hin. apply keys_set_In in Hin. destruct Hin as [-> | Hin].
      * now rewrite eqb_refl in E.
      * contradiction.
Qed.

Lemma keys_delete_NoDup (k : K) (m : JSMap.t K V) :
  NoDup (JSMap.keys m) -> NoDup (JSMap.keys (JSMap.delete eqb k m)).
Proof.
  unfold JSMap.delete, JSMap.keys.
  induction m as [| [k0 v0] m IH]; simpl; intros H; [constructor |].
  inversion H as [| ? ? Hnotin Hm]; subst.
  destruct (negb (eqb k k0)); simpl; [| now apply IH].
  constructor; [| now apply IH].
  intros Hin. apply Hnotin. apply in_map_iff in Hin.
  destruct Hin as (kv & E & Hin). apply filter_In in Hin.
  apply in_map_iff. exists kv. tauto.
Qed.

Lemma keys_update (k : K) (f : V -> V) (m : JSMap.t K V) :
  JSMap.keys (JSMap.update eqb k f m) = JSMap.keys m.
Proof.
  unfold JSMap.keys, JSMap.update. rewrite map_map. apply map_ext.
  intros [k0 v0]. simpl. now destruct (eqb k k0).
Qed.

Lemma get_update_other (k k' : K) (f : V -> V) (m : JSMap.t K V) :
  k' <> k ->
  JSMap.get eqb k' (JSMap.update eqb k f m) = JSMap.get eqb k' m.
Proof.
  intros Hne. induction m as [| [k0 v0] m IH]; simpl; [reflexivity |].
  destruct (eqb k' k0) eqn:E'.
  - apply eqb_eq in E'. subst k0. destruct (eqb k k') eqn:E; simpl.
    + apply eqb_eq in E. now elim Hne.
    + now rewrite eqb_refl.
  - destruct (eqb k k0); simpl; now rewrite E'.
Qed.

Lemma get_set_other (k k' : K) (v : V) (m : JSMap.t K V) :
  k' <> k ->
  JSMap.get eqb k' (JSMap.set eqb k v m) = JSMap.get eqb k' m.
Proof.
  intros Hne. induction m as [| [k0 v0] m IH]; simpl.
  - destruct (eqb k' k) eqn:E; [| reflexivity].
    apply eqb_eq in E. now elim Hne.
  - destruct (eqb k k0) eqn:E; simpl.
    + apply eqb_eq in E. subst k0.
      destruct (eqb k' k) eqn:E'; [| reflexivity].
      apply eqb_eq in E'. now elim Hne.
    + destruct (eqb k' k0); [reflexivity | exact IH].
Qed.

End JSMapKeys.

Lemma String_eqb_true (a b : string) : String.eqb a b = true -> a = b.
Proof. apply String.eqb_eq. Qed.

Lemma single_entries_with_changes (env : Env) (uri : Uri)
    (f : Changes -> Changes) (wc : WorkspaceChanges) :
  (forall changes, NoDup (JSMap.keys changes) -> NoDup (JSMap.keys (f changes))) ->
  single_entries wc -> single_entries (with_changes env uri f wc).
Proof.
  intros Hf [Hk Hm]. unfold with_changes, getChangesMap.
  destruct (trackable uri); [| now split].
  destruct (workspace_getWorkspaceFolder env uri) as [wf |]; [| now split].
  assert (S : single_entries
                (match workspaceChanges_get wf wc with
                 | Some _ => wc
                 | None => JSMap.set WorkspaceFolder_eqb wf
                             (JSMap.empty string Uri) wc
                 end)).
  { destruct (workspaceChanges_get wf wc); [now split |]. split.
    - apply keys_set_NoDup;
        [apply WorkspaceFolder_eqb_eq | apply WorkspaceFolder_eqb_refl | exact Hk].
    - intros wf' changes Hin. apply In_set in Hin.
      destruct Hin as [E | Hin]; [inversion E; constructor | eauto]. }
  destruct (workspaceChanges_get wf wc); destruct S as [Sk Sm]; split;
    try (now rewrite keys_update);
    intros wf' changes Hin; apply In_update in Hin;
    destruct Hin as [[_ Hin] | [_ (c0 & Hin & ->)]]; eauto.
Qed.

Lemma single_entries_watch (env : Env) (wc : WorkspaceChanges) (ev : WatchEvent) :
  single_entries wc -> single_entries (watch env wc ev).
Proof.
  intros S. destruct ev as [uri | uri [type |] | uri]; simpl.
  - apply single_entries_with_changes; [| exact S]. intros changes.
    apply keys_set_NoDup; [apply String_eqb_true | apply String.eqb_refl].
  - unfold onDidCreate. destruct (N.eqb type FileType_File); [| exact S].
    apply single_entries_with_changes; [| exact S]. intros changes.
    apply keys_set_NoDup; [apply String_eqb_true | apply String.eqb_refl].
  - exact S.
  - apply single_entries_with_changes; [| exact S]. intros changes.
    apply keys_delete_NoDup.
Qed.

Lemma single_entries_watch_all (env : Env) (evs : list WatchEvent)
    (wc : WorkspaceChanges) :
  single_entries wc -> single_entries (watch_all env evs wc).
Proof.
  revert wc. induction evs as [| ev evs IH]; intros wc S; simpl; [exact S |].
  apply IH. now apply single_entries_watch.
Qed.

Lemma NoDup_map_filter {A B : Type} (f : A -> B) (p : A -> bool) (l : list A) :
  NoDup (List.map f l) -> NoDup (List.map f (filter p l)).
Proof.
  induction l as [| x l IH]; simpl; intros H; [constructor |].
  inversion H as [| ? ? Hnotin Hl]; subst.
  destruct (p x); simpl; [| now apply IH].
  constructor; [| now apply IH].
  intros Hin. apply Hnotin. apply in_map_iff in Hin.
  destruct Hin as (y & E & Hy). apply filter_In in Hy.
  apply in_map_iff. exists y. tauto.
Qed.

(** X16. After any sequence of watch events the registry holds one map
    per folder and every pending path once, however often a file was
    changed; so the "changed" strategy hands every local path to
    [putFiles] at most once. *)
Theorem pending_once (env : Env) (evs : list WatchEvent) :
  let wc := watch_all env evs [] in
  NoDup (JSMap.keys wc)
  /\ (forall wf, NoDup (pending wf wc))
  /\ (forall parameters files n,
         In (op_putFiles files n) (trace (deployChanged env parameters wc)) ->
         NoDup (List.map local files)).
Proof.
  intros wc.
  assert (S : single_entries wc).
  { apply single_entries_watch_all. split; [constructor | intros ? ? []]. }
  assert (T : tracked env wc) by (apply tracked_watch_all, tracked_empty).
  destruct S as [Sk Sm]. split; [exact Sk |]. split.
  - intros wf. unfold pending.
    destruct (workspaceChanges_get wf wc) as [changes |] eqn:E; [| constructor].
    apply get_In in E. eauto.
  - intros parameters files n H. apply deployChanged_putFiles in H.
    destruct H as (changes & Hget & ->). apply get_In in Hget.
    unfold changed_transfers, changedFiles. rewrite map_map. simpl.
    apply NoDup_map_filter. unfold JSMap.values. rewrite map_map.
    replace (List.map (fun x => fsPath (snd x)) changes)
      with (JSMap.keys changes); [eauto |].
    unfold JSMap.keys. apply map_ext_in. intros [k u] Hin. simpl.
    now destruct (T _ _ _ _ Hget Hin).
Qed.

(** ** Events and folders *)

(** X17. A watch event touches at most the map of the folder that holds
    its resource: an event about a resource outside every workspace
    folder leaves the registry as it was, and any other event leaves the
    maps of all other folders as they were. *)
Theorem watch_touches_one_folder (env : Env) (wc : WorkspaceChanges)
    (ev : WatchEvent) :
  (workspace_getWorkspaceFolder env (event_uri ev) = None ->
   watch env wc ev = wc)
  /\ (forall wf wf',
         workspace_getWorkspaceFolder env (event_uri ev) = Some wf ->
         wf' <> wf ->
         workspaceChanges_get wf' (watch env wc ev)
         = workspaceChanges_get wf' wc).
Proof.
  assert (D : forall uri f,
             workspace_getWorkspaceFolder env uri = None ->
             with_changes env uri f wc = wc).
  { intros uri f H. unfold with_changes, getChangesMap. rewrite H.
    now destruct (trackable uri). }
  assert (O : forall uri f wf wf',
             workspace_getWorkspaceFolder env uri = Some wf -> wf' <> wf ->
             workspaceChanges_get wf' (with_changes env uri f wc)
             = workspaceChanges_get wf' wc).
  { intros uri f wf wf' H Hne. unfold with_changes, getChangesMap. rewrite H.
    destruct (trackable uri); [| reflexivity].
    unfold workspaceChanges_get.
    destruct (JSMap.get WorkspaceFolder_eqb wf wc).
    - apply get_update_other;
        [apply WorkspaceFolder_eqb_eq | apply WorkspaceFolder_eqb_refl | exact Hne].
    - rewrite get_update_other;
        [| apply WorkspaceFolder_eqb_eq | apply WorkspaceFolder_eqb_refl | exact Hne].
      apply get_set_other; [apply WorkspaceFolder_eqb_eq | exact Hne]. }
  split.
  - destruct ev as [uri | uri [type |] | uri]; simpl; intros H;
      unfold onDidChange, onDidCreate, onDidDelete;
      try destruct (N.eqb type FileType_File); auto.
  - intros wf wf' H Hne.
    destruct ev as [uri | uri [type |] | uri]; simpl in *;
      unfold onDidChange, onDidCreate, onDidDelete;
      try destruct (N.eqb type FileType_File); eauto.
Qed.

(** ** Characters of rules, paths and hashes *)

Lemma has_char_append (c : ascii) (a b : string) :
  has_char c (a ++ b) = has_char c a || has_char c b.
Proof.
  induction a as [| d a IH]; simpl; [reflexivity |].
  now rewrite IH, orb_assoc.
Qed.

Lemma replace_all_char_free (c : ascii) (r s : string) :
  has_char c r = false -> has_char c (replace_all_char c r s) = false.
Proof.
  intros Hr. induction s as [| d s IH]; simpl; [reflexivity |].
  destruct (Ascii.eqb c d) eqn:E.
  - now rewrite has_char_append, Hr, IH.
  - simpl. now rewrite E.
Qed.

Lemma replace_all_char_removes (c : ascii) (s : string) :
  has_char c (replace_all_char c EmptyString s) = false.
Proof. now apply replace_all_char_free. Qed.

Lemma split_char_pieces (sep : ascii) (s seg : string) :
  In seg (split_char sep s) -> has_char sep seg = false.
Proof.
  unfold split_char. revert seg. induction s as [| c s IH]; simpl; intros seg H.
  - destruct H as [<- | []]. reflexivity.
  - destruct (Ascii.eqb sep c) eqn:E.
    + destruct H as [<- | H]; [reflexivity | now apply IH].
    + destruct (split_by (Ascii.eqb sep) s) as [| t ts] eqn:Es.
      * destruct H as [<- | []]. simpl. now rewrite E.
      * destruct H as [<- | H].
        -- simpl. rewrite E. apply IH. now left.
        -- apply IH. now right.
Qed.

Lemma split_char_within (sep c : ascii) (s seg : string) :
  In seg (split_char sep s) -> has_char c s = false -> has_char c seg = false.
Proof.
  intros H Hs. apply split_by_In in H. destruct H as (pre & post & ->).
  rewrite !has_char_append in Hs.
  apply orb_false_iff in Hs. destruct Hs as [_ Hs].
  now apply orb_false_iff in Hs.
Qed.

Lemma join_split_char (sep : ascii) (s : string) :
  join (String sep EmptyString) (split_char sep s) = s.
Proof.
  unfold split_char. induction s as [| c s IH]; simpl; [reflexivity |].
  destruct (Ascii.eqb sep c) eqn:E.
  - apply Ascii.eqb_eq in E. subst c.
    destruct (split_by (Ascii.eqb sep) s) as [| t ts] eqn:Es.
    + destruct s; simpl in Es; [discriminate |].
      destruct (Ascii.eqb sep a); [discriminate |].
      destruct (split_by (Ascii.eqb sep) s); discriminate.
    + change (String sep (join (String sep EmptyString) (t :: ts)) = String sep s).
      now rewrite IH.
  - destruct (split_by (Ascii.eqb sep) s) as [| t ts] eqn:Es.
    + destruct s; simpl in Es; [discriminate |].
      destruct (Ascii.eqb sep a); [discriminate |].
      destruct (split_by (Ascii.eqb sep) s); discriminate.
    + destruct ts as [| t' ts']; simpl in *; now rewrite IH.
Qed.

(** X18. When an ignore file is found, the rules taken from it are its
    lines: joined by line feeds they give back its content without the
    carriage returns, and no rule of the set holds a carriage return or a
    line feed. *)
Theorem ignore_rules_are_lines (env : Env) (folder : WorkspaceFolder)
    (gitignore : Uri) (others : list Uri) :
  gitignores env folder = gitignore :: others ->
  exists lines,
    rules (launchDeploy_ignoreRules env folder)
    = ([".git"] ++ lines ++ [gitignore_pattern])%list
    /\ join (String LF EmptyString) lines
       = replace_all_char CR EmptyString (workspace_fs_readFile env gitignore)
    /\ forall rule,
         In rule (rules (launchDeploy_ignoreRules env folder)) ->
         has_char CR rule = false /\ has_char LF rule = false.
Proof.
  intros H. unfold launchDeploy_ignoreRules. fold (gitignores env folder).
  rewrite H. simpl.
  exists (split_char LF
            (replace_all_char CR EmptyString (workspace_fs_readFile env gitignore))).
  split; [reflexivity |]. split; [apply join_split_char |].
  intros rule [<- | Hin]; [now split |].
  apply in_app_or in Hin. destruct Hin as [Hin | [<- | []]]; [| now split].
  split.
  - apply (split_char_within LF CR _ _ Hin). apply replace_all_char_removes.
  - now apply (split_char_pieces LF _ _ Hin).
Qed.

Lemma ignore_rules_crlf_file :
  let env :=
    {| instance_getConnection := None;
       Tools_getGitAPI := None;
       workspace_getWorkspaceFolder := fun _ => None;
       workspace_findFiles := fun _ _ _ _ => [Sample.file "/w/.gitignore"];
       workspace_fs_readFile := fun _ =>
         "node_modules" ++ String CR (String LF "*.log");
       readFileSync := fun p => p;
       Crypto_md5_hex := Sample.digest;
       path_relative := fun _ to => to;
       path_basename := fun p => p;
       path_dirname := fun p => p;
       path_posix_join := fun a b => a ++ "/" ++ b;
       ignores := fun _ _ => false |} in
  rules (launchDeploy_ignoreRules env Sample.folder)
  = [".git"; "node_modules"; "*.log"; "**/.gitignore"]
  /\ forall rule,
       In rule (rules (launchDeploy_ignoreRules env Sample.folder)) ->
       has_char CR rule = false /\ has_char LF rule = false.
Proof.
  intros env. split; [reflexivity |].
  destruct (ignore_rules_are_lines env Sample.folder
              (Sample.file "/w/.gitignore") [] eq_refl) as (lines & _ & _ & H).
  exact H.
Defined.

Lemma backslashes_to_slashes_none (s : string) :
  has_char backslash (backslashes_to_slashes s) = false.
Proof.
  unfold backslashes_to_slashes. now apply replace_all_char_free.
Qed.

Lemma substring_from_append (a b : string) :
  substring_from (String.length a) (a ++ b) = b.
Proof. induction a as [| c a IH]; simpl; [now destruct b | exact IH]. Qed.

Lemma remove_first_prefix (pat rest : string) :
  remove_first pat (pat ++ rest) = rest.
Proof.
  assert (U : remove_first pat (pat ++ rest)
              = if String.prefix pat (pat ++ rest)
                then substring_from (String.length pat) (pat ++ rest)
                else match pat ++ rest with
                     | EmptyString => EmptyString
                     | String c s' => String c (remove_first pat s')
                     end)
    by now destruct (pat ++ rest).
  rewrite U, prefix_append. apply substring_from_append.
Qed.

(** X19. The relative paths that the strategies compute hold no
    backslash.  A local file found under the folder is compared under
    the part of its path that follows the folder and its separator ([/]
    when the folder path starts with [/], a backslash otherwise), with
    every backslash turned into a slash. *)
Theorem relative_paths_use_slashes (env : Env)
    (parameters : DeploymentParameters) :
  (forall root file, has_char backslash (toRelative env root file) = false)
  /\ (forall file,
         In file (localFiles env parameters) ->
         has_char backslash (lf_path file) = false)
  /\ (forall uri rel,
         In uri (findFiles env parameters "**/*" (Some "**/.git*")) ->
         fsPath uri = localRoot parameters ++ rel ->
         In {| lf_uri := uri; lf_path := backslashes_to_slashes rel |}
            (localFiles env parameters)).
Proof.
  split; [| split].
  - intros root file. apply backslashes_to_slashes_none.
  - intros file H. unfold localFiles in H. apply in_map_iff in H.
    destruct H as (uri & <- & _). apply backslashes_to_slashes_none.
  - intros uri rel H E. unfold localFiles. apply in_map_iff.
    exists uri. split; [| exact H]. now rewrite E, remove_first_prefix.
Qed.

Lemma relative_path_windows :
  let folder :=
    {| wf_uri := {| scheme := "file"; path := "/c:/w";
                    fsPath := "c:" ++ String backslash "w" |};
       wf_name := "w"; wf_index := 0 |} in
  let uri :=
    {| scheme := "file"; path := "/c:/w/src/a.txt";
       fsPath := "c:" ++ String backslash "w" ++ String backslash "src"
                 ++ String backslash "a.txt" |} in
  let parameters :=
    {| method := method_compare; workspaceFolder := folder;
       remotePath := "/r"; ignoreRules := None |} in
  In {| lf_uri := uri; lf_path := "src/a.txt" |}
     (localFiles (Sample.env None None [uri] Sample.digest) parameters).
Proof.
  intros folder uri parameters.
  apply (relative_paths_use_slashes (Sample.env None None [uri] Sample.digest)
           parameters) with (rel := "src" ++ String backslash "a.txt").
  - now left.
  - reflexivity.
Defined.

Lemma lower_char_not_upper (c : ascii) :
  has_upper (String (lower_char c) EmptyString) = false.
Proof.
  destruct c as [[] [] [] [] [] [] [] []]; reflexivity.
Qed.

Lemma toLowerCase_not_upper (s : string) : has_upper (toLowerCase s) = false.
Proof.
  induction s as [| c s IH]; simpl; [reflexivity |].
  pose proof (lower_char_not_upper c) as H. simpl in H.
  rewrite orb_false_r in H. now rewrite H, IH.
Qed.

(** X20. A local hash never holds a capital letter.  So when the remote
    entry found for a local file carries a hash with a capital letter,
    the file is uploaded, whatever its content. *)
Theorem uppercase_remote_hash_uploads (env : Env)
    (remoteMD5 : list MD5Entry) (file : LocalFile) (e : MD5Entry) :
  has_upper (md5Hash env (lf_uri file)) = false
  /\ (find_remote remoteMD5 file = Some e ->
      has_upper (md5 e) = true ->
      needs_upload env remoteMD5 file = true).
Proof.
  assert (L : has_upper (md5Hash env (lf_uri file)) = false)
    by apply toLowerCase_not_upper.
  split; [exact L |]. intros Hfind Hup. unfold needs_upload. rewrite Hfind.
  apply negb_true_iff. apply String.eqb_neq. intros E. rewrite E in Hup.
  congruence.
Qed.

Lemma uppercase_remote_hash_sample :
  needs_upload
    (Sample.env None None [] (fun _ => "0A1B"))
    [ {| md5_path := "a.txt"; md5 := "0A1B" |} ]
    {| lf_uri := Sample.a_txt; lf_path := "a.txt" |}
  = true.
Proof.
  apply (uppercase_remote_hash_uploads
           (Sample.env None None [] (fun _ => "0A1B"))
           [ {| md5_path := "a.txt"; md5 := "0A1B" |} ]
           {| lf_uri := Sample.a_txt; lf_path := "a.txt" |}
           {| md5_path := "a.txt"; md5 := "0A1B" |});
    reflexivity.
Defined.

(* ================================================================== *)
(** * Properties of the stored connections *)

Module ConnectionManagerFacts.
Import ConnectionManager.

(** What [findIndex] finds: the first connection with the name, all
    slots before it holding objects with other names. *)
Lemma findIndex_from_found (from : nat) (name : string)
    (connections : Connections) (i : nat) :
  findIndex_from from name connections = Returned (Some i) ->
  exists k conn,
    i = from + k
    /\ nth_error connections k = Some (Some conn)
    /\ name_is name conn = true
    /\ unused name (firstn k connections).
Proof.
  revert from. induction connections as [| [c |] rest IH]; simpl; intros from H;
    try discriminate.
  destruct (name_is name c) eqn:E.
  - inversion H; subst. exists 0, c. rewrite Nat.add_0_r.
    repeat split; try assumption. intros conn [].
  - destruct (IH _ H) as (k & conn & -> & Hnth & Hname & Hbefore).
    exists (S k), conn. repeat split; try assumption; [lia |].
    intros conn' [Ec | Hin]; [inversion Ec; now subst | now apply Hbefore].
Qed.

Lemma findIndex_from_none (from : nat) (name : string)
    (connections : Connections) :
  findIndex_from from name connections = Returned None ->
  dense connections /\ unused name connections.
Proof.
  revert from. induction connections as [| [c |] rest IH]; simpl; intros from H;
    try discriminate.
  - split; [constructor | intros conn []].
  - destruct (name_is name c) eqn:E; [discriminate |].
    destruct (IH _ H) as [Hd Hu]. split.
    + constructor; [discriminate | exact Hd].
    + intros conn [Ec | Hin]; [inversion Ec; now subst | now apply Hu].
Qed.

Lemma findIndex_from_app (from : nat) (name : string)
    (connections : Connections) (conn : JS.Obj) :
  findIndex_from from name (connections ++ [Some conn])%list
  = match findIndex_from from name connections with
    | Returned None =>
        if name_is name conn
        then Returned (Some (from + List.length connections))
        else Returned None
    | found => found
    end.
Proof.
  revert from. induction connections as [| [c |] rest IH]; simpl; intros from.
  - rewrite Nat.add_0_r. now destruct (name_is name conn).
  - destruct (name_is name c); [reflexivity |].
    rewrite IH. rewrite Nat.add_succ_r. reflexivity.
  - reflexivity.
Qed.

Lemma findIndex_from_bound (from : nat) (name : string)
    (connections : Connections) (i : nat) :
  findIndex_from from name connections = Returned (Some i) ->
  from <= i < from + List.length connections.
Proof.
  intros H. destruct (findIndex_from_found _ _ _ _ H) as (k & conn & -> & Hn & _).
  assert (k < List.length connections) by (apply nth_error_Some; congruence).
  lia.
Qed.

(** X21. After [storeNew], a lookup by name gives what it gave before
    when it found a connection or failed; otherwise it gives the new
    connection, at the index that [storeNew] returned (the former length
    of the list), when the new connection has the name.  So a connection
    stored under a name already in use is never found by its name. *)
Theorem storeNew_getByName (setting : Setting) (conn : JS.Obj) (name : string) :
  let stored := fst (storeNew setting conn) in
  let written := snd (storeNew setting conn) in
  index stored = List.length (getAll setting)
  /\ data stored = conn
  /\ getByName written name
     = match getByName setting name with
       | Returned None =>
           if name_is name conn then Returned (Some stored) else Returned None
       | found => found
       end.
Proof.
  cbv zeta. unfold storeNew. simpl fst. simpl snd.
  split; [reflexivity |]. split; [reflexivity |].
  unfold getByName, findIndex. cbn [getAll].
  rewrite findIndex_from_app.
  destruct (findIndex_from 0 name (getAll setting)) as [[i |] | e] eqn:E.
  - pose proof (findIndex_from_bound _ _ _ _ E) as Hb.
    destruct (findIndex_from_found _ _ _ _ E) as (k & c & -> & Hn & _).
    rewrite nth_error_app1 by lia. simpl in *. now rewrite Hn.
  - destruct (name_is name conn); [| reflexivity]. simpl.
    rewrite nth_error_app2 by lia. now rewrite Nat.sub_diag.
  - reflexivity.
Qed.

Lemma nth_error_splice_one {A : Type} (i : nat) (xs : list A) (j : nat) :
  nth_error (splice_one i xs) j
  = if (j <? i)%nat then nth_error xs j else nth_error xs (S j).
Proof.
  revert i j. induction xs as [| x xs IH]; intros i j.
  - destruct i, j; simpl; try reflexivity; now destruct (_ <? _)%nat.
  - destruct i as [| i]; [reflexivity |].
    destruct j as [| j]; [reflexivity |]. simpl. rewrite IH.
    reflexivity.
Qed.

Lemma length_splice_one {A : Type} (i : nat) (xs : list A) :
  i < List.length xs -> S (List.length (splice_one i xs)) = List.length xs.
Proof.
  revert i. induction xs as [| x xs IH]; intros i H; simpl in *; [lia |].
  destruct i as [| i]; [reflexivity |]. simpl. rewrite IH; lia.
Qed.

Lemma findIndex_from_unused (from : nat) (name : string)
    (connections : Connections) :
  dense connections -> unused name connections ->
  findIndex_from from name connections = Returned None.
Proof.
  revert from. induction connections as [| [c |] rest IH]; intros from Hd Hu;
    simpl; [reflexivity | |].
  - rewrite (Hu c (or_introl eq_refl)). apply IH.
    + now inversion Hd.
    + intros conn Hin. apply Hu. now right.
  - inversion Hd as [| ? ? Hc _]. now elim Hc.
Qed.

(** X22. [deleteByName] writes nothing when no connection has the name;
    otherwise it removes the first connection with the name and nothing
    else: the list gets one shorter, and when that connection was the
    only one with the name in a list without holes, the name is no
    longer found. *)
Theorem deleteByName_first (setting : Setting) (name : string) :
  (getByName setting name = Returned None ->
   deleteByName setting name = Returned setting)
  /\ (forall stored,
         getByName setting name = Returned (Some stored) ->
         let written := Some (splice_one (index stored) (getAll setting)) in
         deleteByName setting name = Returned written
         /\ S (List.length (getAll written)) = List.length (getAll setting)
         /\ (dense (getAll setting) ->
             unused name (skipn (S (index stored)) (getAll setting)) ->
             getByName written name = Returned None)).
Proof.
  unfold getByName, deleteByName, findIndex. split.
  - destruct (findIndex_from 0 name (getAll setting)) as [[i |] | e] eqn:E;
      try discriminate; [| reflexivity].
    destruct (findIndex_from_found _ _ _ _ E) as (k & conn & -> & Hn & _).
    simpl. rewrite Hn. discriminate.
  - intros stored.
    destruct (findIndex_from 0 name (getAll setting)) as [[i |] | e] eqn:E;
      try discriminate.
    destruct (findIndex_from_found _ _ _ _ E) as (k & conn & -> & Hn & _ & Hbefore).
    cbn [Nat.add]. rewrite Hn. intros H. inversion H; subst.
    cbn [index getAll]. split; [reflexivity |].
    assert (Hk : k < List.length (getAll setting))
      by (apply nth_error_Some; congruence).
    split; [now apply length_splice_one |].
    intros Hd Hafter.
    rewrite findIndex_from_unused; [reflexivity | |].
    + apply Forall_forall. intros c Hc. apply In_nth_error in Hc.
      destruct Hc as [j Hj]. rewrite nth_error_splice_one in Hj.
      unfold dense in Hd. rewrite Forall_forall in Hd.
      destruct (j <? k)%nat; apply Hd; eapply nth_error_In; eassumption.
    + intros c Hc. apply In_nth_error in Hc. destruct Hc as [j Hj].
      rewrite nth_error_splice_one in Hj.
      destruct (j <? k)%nat eqn:Ejk.
      * apply Nat.ltb_lt in Ejk. apply Hbefore.
        apply (nth_error_In _ j). rewrite nth_error_firstn.
        apply Nat.ltb_lt in Ejk. now rewrite Ejk.
      * apply Nat.ltb_ge in Ejk. apply Hafter.
        apply (nth_error_In _ (j - k)). rewrite nth_error_skipn.
        replace (S k + (j - k)) with (S j) by lia. exact Hj.
Qed.

Lemma deleteByName_sample :
  let dev := [("name", JSString "dev"); ("host", JSString "pub400")] in
  let prod := [("name", JSString "prod"); ("host", JSString "ibmi")] in
  deleteByName (Some [Some dev; Some prod]) "dev" = Returned (Some [Some prod])
  /\ getByName (Some [Some prod]) "dev" = Returned None.
Proof.
  intros dev prod.
  destruct (deleteByName_first (Some [Some dev; Some prod]) "dev") as [_ H].
  destruct (H {| index := 0; data := dev |} eq_refl) as (E & _ & G).
  split; [exact E |]. apply G.
  - repeat constructor; discriminate.
  - intros conn [Ec | []]. now inversion Ec.
Defined.

Lemma store_at_nth (i : nat) (conn : JS.Obj) (connections : Connections) :
  nth_error (store_at i conn connections) i = Some (Some conn).
Proof.
  revert connections. induction i as [| i IH]; intros [| c rest]; simpl; auto.
Qed.

Lemma store_at_other (i j : nat) (conn : JS.Obj) (connections : Connections) :
  j <> i -> j < List.length connections ->
  nth_error (store_at i conn connections) j = nth_error connections j.
Proof.
  revert j connections. induction i as [| i IH]; intros [| j] [| c rest] Hne Hlt;
    simpl in *; try lia; try reflexivity.
  apply IH; lia.
Qed.

Lemma store_at_length (i : nat) (conn : JS.Obj) (connections : Connections) :
  List.length (store_at i conn connections)
  = Nat.max (S i) (List.length connections).
Proof.
  revert connections. induction i as [| i IH]; intros [| c rest]; simpl;
    try reflexivity.
  - now rewrite IH.
  - now rewrite IH.
Qed.

(** X23. [updateByIndex] stores the connection at the index (past the
    end the list is extended) and strips the password of every stored
    connection, the one it was given included: no connection of the
    written setting has a password, and the other connections are
    otherwise unchanged. *)
Theorem updateByIndex_strips_passwords (setting : Setting) (i : nat)
    (conn : JS.Obj) :
  exists written,
    updateByIndex setting i conn = Some written
    /\ List.length written = Nat.max (S i) (List.length (getAll setting))
    /\ nth_error written i = Some (Some (JS.remove "password" conn))
    /\ (forall j,
           j <> i -> j < List.length (getAll setting) ->
           nth_error written j
           = option_map (option_map (JS.remove "password"))
                        (nth_error (getAll setting) j))
    /\ (forall c, In (Some c) written -> JS.prop c "password" = JSUndefined).
Proof.
  unfold updateByIndex, strip_passwords. eexists. split; [reflexivity |].
  split; [now rewrite length_map, store_at_length |].
  split; [now rewrite nth_error_map, store_at_nth |].
  split.
  - intros j Hne Hlt. rewrite nth_error_map, store_at_other by assumption.
    reflexivity.
  - intros c Hin. apply in_map_iff in Hin. destruct Hin as ([c0 |] & E & _);
      [| discriminate].
    inversion E. unfold JS.prop, JS.remove. now rewrite get_delete.
Qed.

Lemma append_length (a b : string) :
  String.length (a ++ b) = String.length a + String.length b.
Proof. induction a as [| c a IH]; simpl; [reflexivity | now rewrite IH]. Qed.

Lemma connectionKey_injective (a b : string) :
  connectionKey a = connectionKey b -> a = b.
Proof.
  unfold connectionKey. revert b. induction a as [| x a IH]; intros [| y b] H.
  - reflexivity.
  - apply (f_equal String.length) in H. simpl in H.
    rewrite append_length in H. simpl in H. lia.
  - apply (f_equal String.length) in H. simpl in H.
    rewrite append_length in H. simpl in H. lia.
  - simpl in H. inversion H. f_equal. now apply IH.
Qed.

Lemma get_delete_other_key (k k' : string) (m : JSMap.t string string) :
  k' <> k ->
  JSMap.get String.eqb k' (JSMap.delete String.eqb k m)
  = JSMap.get String.eqb k' m.
Proof.
  intros Hne. unfold JSMap.delete.
  induction m as [| [k0 v0] m IH]; simpl; [reflexivity |].
  destruct (String.eqb k k0) eqn:E; simpl.
  - apply String.eqb_eq in E. subst k0.
    apply String.eqb_neq in Hne. now rewrite Hne.
  - destruct (String.eqb k' k0); [reflexivity | exact IH].
Qed.

(** X24. The password of a connection is kept under a key of its own:
    a stored password is read back, a deleted one is gone, and storing or
    deleting the password of one connection leaves the password read for
    any other connection name as it was. *)
Theorem stored_password_round_trip (secrets : Secrets)
    (connectionName password other : string) :
  getStoredPassword (setStoredPassword secrets connectionName password)
                    connectionName
  = Some password
  /\ getStoredPassword (deleteStoredPassword secrets connectionName)
                       connectionName
     = None
  /\ (other <> connectionName ->
      getStoredPassword (setStoredPassword secrets connectionName password)
                        other
      = getStoredPassword secrets other
      /\ getStoredPassword (deleteStoredPassword secrets connectionName) other
         = getStoredPassword secrets other).
Proof.
  unfold getStoredPassword, setStoredPassword, deleteStoredPassword.
  split; [apply get_set, String.eqb_refl |]. split; [apply get_delete |].
  intros Hne.
  assert (Hk : connectionKey other <> connectionKey connectionName)
    by (intros E; apply Hne; now apply connectionKey_injective).
  split.
  - apply get_set_other; [apply String_eqb_true | exact Hk].
  - now apply get_delete_other_key.
Qed.

End ConnectionManagerFacts.

(* ================================================================== *)
(** * Properties of objects *)

Module JSFacts.

Lemma get_None_keys (k : string) (o : JS.Obj) :
  JSMap.get String.eqb k o = None <-> ~ In k (JSMap.keys o).
Proof.
  unfold JSMap.keys. induction o as [| [k0 v0] o IH]; simpl; [tauto |].
  destruct (String.eqb k k0) eqn:E.
  - apply String.eqb_eq in E. subst. split; [discriminate | tauto].
  - apply String.eqb_neq in E. rewrite IH. split; [| tauto].
    intros H [H0 | H0]; [now elim E | tauto].
Qed.

Lemma get_insert_index (i : N) (k : string) (v : JSValue) (o : JS.Obj) :
  JSMap.get String.eqb k o = None ->
  JSMap.get String.eqb k (JS.insert_index i k v o) = Some v.
Proof.
  induction o as [| [k0 v0] o IH]; simpl.
  - now rewrite String.eqb_refl.
  - destruct (String.eqb k k0) eqn:E; [discriminate |]. intros H.
    destruct (JS.array_index k0) as [j |]; [destruct (j <? i)%N |]; simpl;
      rewrite ?E, ?String.eqb_refl; auto.
Qed.

Lemma get_insert_index_other (i : N) (k k' : string) (v : JSValue)
    (o : JS.Obj) :
  k' <> k ->
  JSMap.get String.eqb k' (JS.insert_index i k v o) = JSMap.get String.eqb k' o.
Proof.
  intros Hne. apply String.eqb_neq in Hne.
  induction o as [| [k0 v0] o IH]; simpl; [now rewrite Hne |].
  destruct (JS.array_index k0) as [j |]; [destruct (j <? i)%N |]; simpl;
    rewrite ?Hne, ?IH; reflexivity.
Qed.

Lemma keys_insert_index (i : N) (k : string) (v : JSValue) (o : JS.Obj) :
  ~ In k (JSMap.keys o) -> NoDup (JSMap.keys o) ->
  NoDup (JSMap.keys (JS.insert_index i k v o))
  /\ forall k', In k' (JSMap.keys (JS.insert_index i k v o)) ->
                k' = k \/ In k' (JSMap.keys o).
Proof.
  unfold JSMap.keys. induction o as [| [k0 v0] o IH]; simpl; intros Hk Hnd.
  - split; [constructor; [tauto | constructor] |].
    intros k' [H | []]. now left.
  - inversion Hnd as [| ? ? Hnotin Ho]; subst.
    assert (Hfront : NoDup (k :: k0 :: List.map fst o)
                     /\ forall k', In k' (k :: k0 :: List.map fst o) ->
                                   k' = k \/ k0 = k' \/ In k' (List.map fst o)).
    { split; [constructor; [exact Hk | exact Hnd] |].
      intros k' [H | H]; [now left; symmetry | now right]. }
    destruct (JS.array_index k0) as [j |]; [destruct (j <? i)%N |]; simpl;
      try exact Hfront.
    destruct IH as [IHn IHi]; [tauto | exact Ho |]. split.
    + constructor; [| exact IHn]. intros H. apply IHi in H.
      destruct H as [H | H]; [subst; tauto | tauto].
    + intros k' [H | H]; [tauto |]. apply IHi in H. tauto.
Qed.

(** The three facts about [o.k = v] that the proofs below rest on. *)
Lemma get_assign (k : string) (v : JSValue) (o : JS.Obj) :
  JSMap.get String.eqb k (JS.assign k v o) = Some v.
Proof.
  unfold JS.assign. destruct (JSMap.get String.eqb k o) eqn:G.
  - apply get_set. apply String.eqb_refl.
  - destruct (JS.array_index k);
      [now apply get_insert_index | apply get_set; apply String.eqb_refl].
Qed.

Lemma get_assign_other (k k' : string) (v : JSValue) (o : JS.Obj) :
  k' <> k ->
  JSMap.get String.eqb k' (JS.assign k v o) = JSMap.get String.eqb k' o.
Proof.
  intros Hne. unfold JS.assign.
  destruct (JSMap.get String.eqb k o);
    [| destruct (JS.array_index k); [now apply get_insert_index_other |]];
    (apply get_set_other; [apply String_eqb_true | exact Hne]).
Qed.

Lemma keys_assign_NoDup (k : string) (v : JSValue) (o : JS.Obj) :
  NoDup (JSMap.keys o) -> NoDup (JSMap.keys (JS.assign k v o)).
Proof.
  intros Hnd. unfold JS.assign.
  destruct (JSMap.get String.eqb k o) eqn:G;
    [| destruct (JS.array_index k);
       [apply keys_insert_index; [now apply get_None_keys | exact Hnd] |]];
    (apply keys_set_NoDup;
     first [apply String_eqb_true | apply String.eqb_refl | exact Hnd]).
Qed.

Lemma assign_same (k : string) (v : JSValue) (o : JS.Obj) :
  JSMap.get String.eqb k o = Some v -> JS.assign k v o = o.
Proof.
  intros G. unfold JS.assign. rewrite G. revert G.
  induction o as [| [k0 v0] o IH]; simpl; [discriminate |].
  destruct (String.eqb k k0) eqn:E.
  - apply String.eqb_eq in E. intros H. inversion H. now subst.
  - intros H. now rewrite (IH H).
Qed.

End JSFacts.

(* ================================================================== *)
(** * Properties of the connection settings *)

Module ConnectionConfigurationFacts.
Import ConnectionConfiguration.

(** Assigning the properties of a list, one after the other. *)
Definition assign_all (l : list (string * JSValue)) (o : JS.Obj) : JS.Obj :=
  fold_left (fun o kv => JS.assign (fst kv) (snd kv) o) l o.

Lemma get_assign_all (l : list (string * JSValue)) (o : JS.Obj) (k : string) :
  NoDup (JSMap.keys l) ->
  JSMap.get String.eqb k (assign_all l o)
  = match JSMap.get String.eqb k l with
    | Some v => Some v
    | None => JSMap.get String.eqb k o
    end.
Proof.
  unfold assign_all. revert o.
  induction l as [| [k0 v0] l IH]; intros o Hnd; simpl; [reflexivity |].
  inversion Hnd as [| ? ? Hnotin Hl]; subst. rewrite (IH _ Hl).
  destruct (String.eqb k k0) eqn:E.
  - apply String.eqb_eq in E. subst k0.
    apply JSFacts.get_None_keys in Hnotin. rewrite Hnotin.
    apply JSFacts.get_assign.
  - destruct (JSMap.get String.eqb k l); [reflexivity |].
    apply JSFacts.get_assign_other.
    intros ->. now rewrite String.eqb_refl in E.
Qed.

Lemma apply_rule_idempotent (r : Rule) (v : JSValue) :
  apply_rule r (apply_rule r v) = apply_rule r v.
Proof.
  destruct r as [| d | |]; simpl.
  - reflexivity.
  - unfold JS.or. destruct (JS.truthy v) eqn:E; [now rewrite E |].
    now destruct (JS.truthy d).
  - now destruct (JS.strict_equals v (JSBool true)).
  - now destruct (JS.strict_equals v (JSBool true) || JS.strict_equals v JSUndefined).
Qed.

Lemma or_defined (v d : JSValue) : d <> JSUndefined -> JS.or v d <> JSUndefined.
Proof.
  intros Hd. unfold JS.or. destruct (JS.truthy v) eqn:E; [| exact Hd].
  intros ->. discriminate.
Qed.

Section InitializeFacts.
Variable DEFAULT_CERT_DIRECTORY : string.
Variable os_homedir : string.

Local Notation "'literal'" := (literal DEFAULT_CERT_DIRECTORY os_homedir).
Local Notation "'initialize'" :=
  (ConnectionConfiguration.initialize DEFAULT_CERT_DIRECTORY os_homedir).
Local Notation "'load'" :=
  (ConnectionConfiguration.load DEFAULT_CERT_DIRECTORY os_homedir).

(** The properties that the literal defines, with their values. *)
Definition defined_by (parameters : JS.Obj) : list (string * JSValue) :=
  List.map (fun kr => (fst kr, apply_rule (snd kr) (JS.prop parameters (fst kr))))
           literal.

Lemma initialize_assign_all (parameters : JS.Obj) :
  initialize parameters = assign_all (defined_by parameters) parameters.
Proof.
  unfold ConnectionConfiguration.initialize, assign_all, defined_by.
  generalize parameters at 2 4. generalize literal. intros l.
  induction l as [| kr l IH]; intros o; simpl; [reflexivity | apply IH].
Qed.

Lemma literal_keys_NoDup : NoDup (List.map fst literal).
Proof.
  apply (NoDup_nodup string_dec) || idtac.
  repeat (constructor; [simpl; intuition discriminate |]). constructor.
Qed.

Lemma defined_by_keys (parameters : JS.Obj) :
  JSMap.keys (defined_by parameters) = List.map fst literal.
Proof. unfold JSMap.keys, defined_by. now rewrite map_map. Qed.

Lemma get_defined_by (parameters : JS.Obj) (k : string) (r : Rule) :
  In (k, r) literal ->
  JSMap.get String.eqb k (defined_by parameters)
  = Some (apply_rule r (JS.prop parameters k)).
Proof.
  pose proof literal_keys_NoDup as Hnd. unfold defined_by.
  induction literal as [| [k0 r0] l IH]; simpl; [intros [] |].
  simpl in Hnd. inversion Hnd as [| ? ? Hnotin Hl]; subst.
  intros [E | Hin].
  - inversion E; subst. now rewrite String.eqb_refl.
  - destruct (String.eqb k k0) eqn:Ek; [| now apply IH].
    apply String.eqb_eq in Ek. subst k0. elim Hnotin.
    apply in_map_iff. now exists (k, r).
Qed.

Lemma get_defined_by_none (parameters : JS.Obj) (k : string) :
  ~ In k (List.map fst literal) ->
  JSMap.get String.eqb k (defined_by parameters) = None.
Proof.
  unfold defined_by. induction literal as [| [k0 r0] l IH]; simpl; [reflexivity |].
  intros H. destruct (String.eqb k k0) eqn:E.
  - apply String.eqb_eq in E. elim H. now left.
  - apply IH. tauto.
Qed.

Lemma prop_initialize (parameters : JS.Obj) (k : string) (r : Rule) :
  In (k, r) literal ->
  JSMap.get String.eqb k (initialize parameters)
  = Some (apply_rule r (JS.prop parameters k)).
Proof.
  intros H. rewrite initialize_assign_all, get_assign_all.
  - now rewrite (get_defined_by parameters k r H).
  - rewrite defined_by_keys. apply literal_keys_NoDup.
Qed.

Lemma initialize_fixed (o : JS.Obj) (l : list (string * Rule)) :
  (forall k r, In (k, r) l ->
     JSMap.get String.eqb k o = Some (apply_rule r (JS.prop o k))) ->
  fold_left (define o) l o = o.
Proof.
  intros H. induction l as [| [k r] l IH]; simpl; [reflexivity |].
  unfold define at 2. simpl.
  rewrite JSFacts.assign_same by (apply H; now left).
  apply IH. intros k' r' Hin. apply H. now right.
Qed.

Lemma initialize_property (parameters : JS.Obj) (k : string) (r : Rule) :
  In (k, r) literal ->
  JS.prop (initialize parameters) k = apply_rule r (JS.prop parameters k).
Proof.
  intros H. unfold JS.prop at 1. now rewrite (prop_initialize _ k r H).
Qed.

Lemma initialize_again (parameters : JS.Obj) :
  initialize (initialize parameters) = initialize parameters.
Proof.
  unfold ConnectionConfiguration.initialize at 1.
  apply initialize_fixed. intros k r H.
  rewrite (prop_initialize _ k r H), (initialize_property _ k r H).
  now rewrite apply_rule_idempotent.
Qed.

(** X25. [initialize] completes a configuration once and for all:
    initialising its result again changes nothing.  Each property of the
    literal gets the value of its rule, so every one of them but [name]
    is defined, and the properties that the literal does not name are
    kept as they are. *)
Theorem initialize_idempotent (parameters : JS.Obj) :
  initialize (initialize parameters) = initialize parameters
  /\ (forall k r,
         In (k, r) literal ->
         JS.prop (initialize parameters) k = apply_rule r (JS.prop parameters k))
  /\ (forall k,
         In k (List.map fst literal) -> k <> "name" ->
         JS.prop (initialize parameters) k <> JSUndefined)
  /\ (forall k,
         ~ In k (List.map fst literal) ->
         JS.prop (initialize parameters) k = JS.prop parameters k).
Proof.
  split; [apply initialize_again |].
  split; [apply initialize_property | split].
  - intros k Hin Hname. apply in_map_iff in Hin.
    destruct Hin as ([k0 r] & E & Hin). simpl in E. subst k0.
    rewrite (initialize_property _ k r Hin).
    simpl in Hin.
    repeat (destruct Hin as [E | Hin];
            [inversion E; subst;
             try (now elim Hname);
             try (apply or_defined; discriminate);
             try (simpl; discriminate) |]).
    destruct Hin.
  - intros k H. unfold JS.prop.
    rewrite initialize_assign_all, get_assign_all
      by (rewrite defined_by_keys; apply literal_keys_NoDup).
    now rewrite get_defined_by_none.
Qed.

Lemma named_string (name : string) (conn : Parameters) :
  named name conn = true -> JS.prop conn "name" = JSString name.
Proof.
  unfold named. destruct (JS.prop conn "name"); simpl; try discriminate.
  intros H. apply String.eqb_eq in H. now subst.
Qed.

Lemma find_app_none {A : Type} (p : A -> bool) (l : list A) (x : A) :
  find p l = None -> find p (l ++ [x]) = if p x then Some x else None.
Proof.
  induction l as [| y l IH]; simpl; [reflexivity |].
  destruct (p y); [discriminate | exact IH].
Qed.

(** X26. [load] returns a configuration that bears the name asked for.
    It writes the setting only when no stored configuration has the
    name, appending the one it returns; loading the same name again then
    returns the same configuration and writes nothing. *)
Theorem load_twice (settings : Settings) (name : string) :
  let config := fst (load settings name) in
  let written := snd (load settings name) in
  JS.prop config "name" = JSString name
  /\ (written = None
      \/ (find (named name) (getConnectionSettings settings) = None
          /\ written
             = Some (getConnectionSettings settings ++ [config])%list))
  /\ load (after settings written) name = (config, None).
Proof.
  cbv zeta. unfold ConnectionConfiguration.load.
  destruct (find (named name) (getConnectionSettings settings))
    as [existing |] eqn:E; cbn [fst snd after].
  - split; [| split; [now left |]].
    + rewrite (initialize_property existing "name" as_given) by now left.
      apply find_some in E. now apply named_string.
    + now rewrite E.
  - assert (N : JS.prop (initialize [("name", JSString name)]) "name"
                = JSString name).
    { now rewrite (initialize_property _ "name" as_given) by now left. }
    split; [exact N |]. split; [right; split; reflexivity |].
    cbn [getConnectionSettings]. rewrite (find_app_none _ _ _ E).
    unfold named at 1. rewrite N. cbn [JS.strict_equals].
    rewrite String.eqb_refl, initialize_again. reflexivity.
Qed.

End InitializeFacts.

(** X27. [update] writes nothing for a configuration without a name.
    Otherwise it writes the stored list with the same length and order,
    in which every configuration that bears the name has taken over all
    the properties of the given one and kept its other properties, and
    every other configuration is untouched; when no stored configuration
    bears the name, the list is written back as it was. *)
Theorem update_same_name (settings : Settings) (parameters : Parameters) :
  (JS.truthy (JS.prop parameters "name") = false ->
   update settings parameters = None)
  /\ (JS.truthy (JS.prop parameters "name") = true ->
      NoDup (JSMap.keys parameters) ->
      exists written,
        update settings parameters = Some written
        /\ List.length written = List.length (getConnectionSettings settings)
        /\ forall i conn,
             nth_error (getConnectionSettings settings) i = Some conn ->
             exists conn',
               nth_error written i = Some conn'
               /\ if JS.strict_equals (JS.prop conn "name")
                                      (JS.prop parameters "name")
                  then forall k,
                      JSMap.get String.eqb k conn'
                      = match JSMap.get String.eqb k parameters with
                        | Some v => Some v
                        | None => JSMap.get String.eqb k conn
                        end
                  else conn' = conn).
Proof.
  unfold update. split; [now intros -> |]. intros -> Hnd.
  eexists. split; [reflexivity |]. split; [apply length_map |].
  intros i conn Hnth. eexists.
  split; [rewrite nth_error_map; unfold Parameters in *; now rewrite Hnth |].
  destruct (JS.strict_equals _ _); [| reflexivity].
  intros k. now apply (get_assign_all parameters conn k).
Qed.

Lemma update_sample :
  let stored :=
    [ [("name", JSString "dev"); ("homeDirectory", JSString "/home/a")];
      [("name", JSString "prod"); ("homeDirectory", JSString "/home/b")] ] in
  update (Some stored)
         [("name", JSString "dev"); ("homeDirectory", JSString "/builds/w")]
  = Some [ [("name", JSString "dev"); ("homeDirectory", JSString "/builds/w")];
           [("name", JSString "prod"); ("homeDirectory", JSString "/home/b")] ]
  /\ exists written,
       update (Some stored)
              [("name", JSString "dev"); ("homeDirectory", JSString "/builds/w")]
       = Some written
       /\ List.length written = 2.
Proof.
  intros stored. split; [reflexivity |].
  destruct (update_same_name (Some stored)
              [("name", JSString "dev"); ("homeDirectory", JSString "/builds/w")])
    as [_ H].
  destruct H as (written & E & L & _); [reflexivity | |].
  - repeat constructor; simpl; intuition discriminate.
  - now exists written.
Defined.

End ConnectionConfigurationFacts.

(* ================================================================== *)
(** * Properties of [getWorkspaceFolder] and [launchDeploy] *)

Module LaunchFacts.
Import Launch.

Lemma find_first {A : Type} (p : A -> bool) (l : list A) (x : A) :
  find p l = Some x ->
  exists skipped rest,
    l = (skipped ++ x :: rest)%list
    /\ p x = true
    /\ forall y, In y skipped -> p y = false.
Proof.
  induction l as [| a l IH]; simpl; [discriminate |].
  destruct (p a) eqn:E.
  - intros H. inversion H. subst. exists [], l. repeat split; [exact E |].
    intros y [].
  - intros H. destruct (IH H) as (skipped & rest & -> & Hx & Hs).
    exists (a :: skipped), rest. repeat split; [exact Hx |].
    intros y [<- | Hy]; [exact E | now apply Hs].
Qed.

(** X28. The folder that [getWorkspaceFolder] returns is a folder of the
    workspace.  With an index it is the first folder that has this index.
    Without one it is the only folder of the workspace or, when there are
    several, the first folder that bears the name picked, which is not
    empty: of two folders with the same name the second is never
    returned, nor is a folder without name. *)
Theorem getWorkspaceFolder_first_match (wb : Workbench)
    (workspaceIndex : option nat) (folder : WorkspaceFolder) :
  getWorkspaceFolder wb workspaceIndex = Some folder ->
  exists workspaces skipped rest,
    workspace_workspaceFolders wb = Some workspaces
    /\ workspaces = (skipped ++ folder :: rest)%list
    /\ match workspaceIndex with
       | Some i =>
           wf_index folder = i
           /\ forall dir, In dir skipped -> wf_index dir <> i
       | None =>
           workspaces = [folder]
           \/ ((1 < List.length workspaces)%nat
               /\ showQuickPick_workspace wb (List.map wf_name workspaces)
                  = Some (wf_name folder)
               /\ wf_name folder <> EmptyString
               /\ forall dir, In dir skipped -> wf_name dir <> wf_name folder)
       end.
Proof.
  unfold getWorkspaceFolder.
  destruct (workspace_workspaceFolders wb) as [workspaces |];
    [| destruct workspaceIndex; discriminate].
  destruct workspaceIndex as [i |].
  - intros H. apply find_first in H.
    destruct H as (skipped & rest & -> & Hx & Hs).
    exists (skipped ++ folder :: rest)%list, skipped, rest.
    repeat split; [now apply Nat.eqb_eq |].
    intros dir Hd. apply Hs in Hd. now apply Nat.eqb_neq.
  - destruct workspaces as [| w0 [| w1 ws]]; simpl; [discriminate | |].
    + intros H. inversion H. subst.
      exists [folder], [], []. repeat split. now left.
    + destruct (showQuickPick_workspace wb _) as [chosen |] eqn:Q;
        [| discriminate].
      destruct (JSString.truthy chosen) eqn:T; [| discriminate].
      intros H.
      change (find (fun dir => String.eqb (wf_name dir) chosen)
                   (w0 :: w1 :: ws) = Some folder) in H.
      apply find_first in H. destruct H as (skipped & rest & E & Hx & Hs).
      apply String.eqb_eq in Hx. subst chosen.
      exists (w0 :: w1 :: ws), skipped, rest.
      split; [reflexivity |]. split; [exact E |]. right.
      split; [simpl; lia |]. split; [exact Q |].
      split; [intros E0; now rewrite E0 in T |].
      intros dir Hd. apply Hs in Hd. intros E0. rewrite E0 in Hd.
      now rewrite String.eqb_refl in Hd.
Qed.

Lemma getWorkspaceFolder_same_name :
  getWorkspaceFolder SampleLaunch.workbench None = Some Sample.folder
  /\ exists workspaces skipped rest,
       workspace_workspaceFolders SampleLaunch.workbench = Some workspaces
       /\ workspaces = (skipped ++ Sample.folder :: rest)%list
       /\ (workspaces = [Sample.folder]
           \/ ((1 < List.length workspaces)%nat
               /\ showQuickPick_workspace SampleLaunch.workbench
                    (List.map wf_name workspaces)
                  = Some (wf_name Sample.folder)
               /\ wf_name Sample.folder <> EmptyString
               /\ forall dir, In dir skipped ->
                    wf_name dir <> wf_name Sample.folder)).
Proof.
  split; [reflexivity |].
  exact (getWorkspaceFolder_first_match SampleLaunch.workbench None
           Sample.folder eq_refl).
Defined.





Lemma update_In_written (settings : ConnectionConfiguration.Settings)
    (parameters conn : JS.Obj) (written : list JS.Obj) :
  ConnectionConfiguration.update settings parameters = Some written ->
  In conn written ->
  exists stored,
    In stored (ConnectionConfiguration.getConnectionSettings settings)
    /\ conn
       = if JS.strict_equals (JS.prop stored "name") (JS.prop parameters "name")
         then JS.Object_assign stored parameters
         else stored.
Proof.
  unfold ConnectionConfiguration.update.
  destruct (JS.truthy _); [| discriminate].
  intros E Hin. inversion E. subst written. apply in_map_iff in Hin.
  destruct Hin as (stored & <- & Hin). now exists stored.
Qed.

Lemma strict_equals_eq (a b : JSValue) :
  JS.strict_equals a b = true -> a = b.
Proof.
  destruct a, b; simpl; try discriminate; intros H; try reflexivity.
  - now apply Bool.eqb_prop in H; subst.
  - now apply Z.eqb_eq in H; subst.
  - now apply String.eqb_eq in H; subst.
Qed.

Lemma set_home_absolute (wb : Workbench) (remotePath : string)
    (config : JS.Obj) :
  instance_getConfig wb = Some config ->
  startsWith remotePath "/" = true ->
  set_home wb remotePath
  = if JS.strict_equals (JS.prop config "homeDirectory") (JSString remotePath)
    then ([], Some config, None)
    else
      let config' := JS.assign "homeDirectory" (JSString remotePath) config in
      ([op_showInformationMessage
          ("Home directory set to " ++ remotePath ++ " for deployment.")],
       Some config',
       ConnectionConfiguration.update (connectionSettings wb) config').
Proof.
  intros G S. unfold set_home. rewrite G, S.
  now destruct (JS.strict_equals _ _).
Qed.

(** X30. When [launchDeploy] deploys to an absolute path and the
    connection has a configuration, the configuration leaves with this
    path as its home directory and its other properties unchanged.  The
    setting is written only when the home directory was another one, and
    then every stored configuration that bears the name of the connection
    has the path as its home directory too. *)
Theorem launchDeploy_home_directory (env : Env) (wb : Workbench)
    (workspaceIndex : option nat) (earlier before during : list WatchEvent)
    (wc : WorkspaceChanges) (parameters : DeploymentParameters)
    (config : JS.Obj) :
  let run := launchDeploy env wb workspaceIndex earlier before during wc in
  launch_deployed run = Some parameters ->
  startsWith (remotePath parameters) "/" = true ->
  instance_getConfig wb = Some config ->
  NoDup (JSMap.keys config) ->
  exists config',
    launch_config run = Some config'
    /\ JS.prop config' "homeDirectory" = JSString (remotePath parameters)
    /\ (forall k, k <> "homeDirectory" -> JS.prop config' k = JS.prop config k)
    /\ (JS.prop config "homeDirectory" = JSString (remotePath parameters) ->
        launch_written run = None /\ config' = config)
    /\ forall written conn,
         launch_written run = Some written ->
         In conn written ->
         JS.strict_equals (JS.prop conn "name") (JS.prop config "name") = true ->
         JS.prop conn "homeDirectory" = JSString (remotePath parameters).
Proof.
  cbv zeta. intros E S G Hnd. unfold launchDeploy in *.
  destruct (getWorkspaceFolder wb workspaceIndex) as [folder |];
    [| discriminate].
  destruct (deployment_location wb folder) as [[| c remote] |];
    try discriminate.
  destruct (getConnection env) as [t0 [connection | e]]; [| discriminate].
  destruct (showQuickPick_method wb _ _) as [picked |]; [| discriminate].
  destruct (nth_error _ picked) as [item |]; [| discriminate].
  assert (R : remotePath parameters = String c remote).
  { destruct (set_home wb (String c remote)) as [[t cfg] w].
    simpl in E. now inversion E. }
  rewrite R in *. clear E R parameters.
  rewrite (set_home_absolute wb _ config G S).
  destruct (JS.strict_equals (JS.prop config "homeDirectory")
                             (JSString (String c remote))) eqn:B;
    cbn [launch_config launch_written].
  - apply strict_equals_eq in B.
    exists config. split; [reflexivity |]. split; [exact B |].
    split; [reflexivity |]. split; [now split |]. discriminate.
  - exists (JS.assign "homeDirectory" (JSString (String c remote)) config).
    assert (Hh : JS.prop (JS.assign "homeDirectory"
                            (JSString (String c remote)) config)
                         "homeDirectory"
                 = JSString (String c remote)).
    { unfold JS.prop. now rewrite JSFacts.get_assign. }
    assert (Ho : forall k, k <> "homeDirectory" ->
                 JS.prop (JS.assign "homeDirectory"
                            (JSString (String c remote)) config) k
                 = JS.prop config k).
    { intros k Hk. unfold JS.prop. now rewrite JSFacts.get_assign_other. }
    split; [reflexivity |]. split; [exact Hh |]. split; [exact Ho |].
    split; [intros H; rewrite H in B; cbn [JS.strict_equals] in B;
            now rewrite String.eqb_refl in B |].
    intros written conn W Hin Hname.
    destruct (update_In_written _ _ _ _ W Hin) as (stored & _ & Ec).
    rewrite (Ho "name") in Ec by discriminate.
    destruct (JS.strict_equals (JS.prop stored "name") (JS.prop config "name"))
      eqn:Q.
    + subst conn. unfold JS.prop at 1.
      change (JS.Object_assign stored ?p)
        with (ConnectionConfigurationFacts.assign_all p stored).
      rewrite ConnectionConfigurationFacts.get_assign_all
        by (apply JSFacts.keys_assign_NoDup; exact Hnd).
      unfold JS.prop in Hh.
      destruct (JSMap.get String.eqb "homeDirectory"
                  (JS.assign "homeDirectory" (JSString (String c remote)) config));
        [exact Hh | discriminate].
    + subst conn. congruence.
Qed.

Lemma launchDeploy_sets_home :
  let run :=
    launchDeploy Sample.online SampleLaunch.workbench (Some 0) [] [] []
                 Sample.a_pending in
  launch_written run
  = Some [ [("name", JSString "dev"); ("homeDirectory", JSString "/r")];
           SampleLaunch.prod ]
  /\ exists config',
       launch_config run = Some config'
       /\ JS.prop config' "homeDirectory" = JSString "/r".
Proof.
  intros run. split; [reflexivity |].
  destruct (launchDeploy_home_directory Sample.online SampleLaunch.workbench
              (Some 0) [] [] [] Sample.a_pending
              {| method := method_changed;
                 workspaceFolder := Sample.folder;
                 remotePath := "/r";
                 ignoreRules :=
                   Some (launchDeploy_ignoreRules Sample.online Sample.folder) |}
              SampleLaunch.dev eq_refl eq_refl eq_refl)
    as (config' & E & H & _).
  - repeat constructor; simpl; intuition discriminate.
  - now exists config'.
Defined.

End LaunchFacts.
